(** * GENUSD UTXO engine

    A shallow embedding of [phase2-genusd/genusd_engine.py] and the
    properties of its transaction pipeline.

    Conventions of the embedding:
    - Python [int] is [Z]; [str] is [string]; a [dict] used as a map is a
      [gmap]; a [set] is a [gset].
    - A [dict] with a fixed vocabulary of keys (an output specification, a
      transaction record, a metadata record) is a record of [option]s: a key
      that is absent is [None], and a subscript [d['k']] on an absent key
      raises [KeyError].
    - A method that mutates [self] is a function from the state to the new
      state and a [result]; the state is returned also when an exception is
      raised, since assignments made before the [raise] persist.
    - Messages are built by f-strings, several of which format an amount
      as [x/100] with two decimals.  A message is modelled by the template
      that produced it together with the values interpolated into it.  The
      division [x/100] of an [int] is a true division: it raises
      [OverflowError] when the quotient is too large for a float, and that
      is modelled at each message that has such a field.
    - The date that [check_daily_limit] and [record_transfer] each read
      from the clock is an argument: the two readings of a TRANSFER are two
      arguments. *)

From Stdlib Require Import ZArith Lia Ascii.
From stdpp Require Import gmap strings list fin_maps pretty.

Local Open Scope Z_scope.
Local Open Scope string_scope.

(** ** Exceptions and results *)

Inductive exception :=
| KeyError (key : string)
| TypeError
| ValueError
| IndexError
| OverflowError.

Inductive result (A : Type) :=
| Return (a : A)
| Raise (e : exception).
Arguments Return {A} a.
Arguments Raise {A} e.

(** [d[key]] on a dict whose entry for [key] is [v]. *)
Definition getitem {A} (key : string) (v : option A) : result A :=
  match v with
  | Some a => Return a
  | None => Raise (KeyError key)
  end.

(** ** Constants and enums *)

Inductive TransactionType := MINT | TRANSFER | BURN.

Definition TransactionType_value (t : TransactionType) : string :=
  match t with
  | MINT => "MINT"
  | TRANSFER => "TRANSFER"
  | BURN => "BURN"
  end.

Inductive UTXOStatus := ACTIVE | FROZEN | SPENT.

Definition UTXOStatus_value (st : UTXOStatus) : string :=
  match st with
  | ACTIVE => "active"
  | FROZEN => "frozen"
  | SPENT => "spent"
  end.

Inductive KYCLevel := LEVEL_0 | LEVEL_1 | LEVEL_2 | LEVEL_3.

Definition KYCLevel_value (k : KYCLevel) : string :=
  match k with
  | LEVEL_0 => "KYC_LEVEL_0"
  | LEVEL_1 => "KYC_LEVEL_1"
  | LEVEL_2 => "KYC_LEVEL_2"
  | LEVEL_3 => "KYC_LEVEL_3"
  end.

(** [KYCLevel(s)]: the member whose value is [s]; [None] stands for the
    [ValueError] of the enum lookup. *)
Definition KYCLevel_of_value (s : string) : option KYCLevel :=
  if bool_decide (s = "KYC_LEVEL_0") then Some LEVEL_0
  else if bool_decide (s = "KYC_LEVEL_1") then Some LEVEL_1
  else if bool_decide (s = "KYC_LEVEL_2") then Some LEVEL_2
  else if bool_decide (s = "KYC_LEVEL_3") then Some LEVEL_3
  else None.

Definition KYC_DAILY_LIMITS (k : KYCLevel) : Z :=
  match k with
  | LEVEL_0 => 0
  | LEVEL_1 => 100000
  | LEVEL_2 => 1000000
  | LEVEL_3 => 999999999999
  end.

Definition ASSET_CODE : string := "GENUSD".
Definition MAX_UTXO_AMOUNT : Z := 999999999999999.

(** ** Data classes *)

Record UTXOMetadata := {
  jurisdiction : string;
  blacklist_flag : bool;
  freeze_reason : option string;
  policy_version : string;
  issuer_attestation : string
}.

Record UTXO := {
  utxo_id : string;
  owner_id : string;
  asset_code : string;
  amount : Z;
  status : string;
  kyc_tag : string;
  created_at : Z;
  metadata : UTXOMetadata
}.

(** The [dict] form of a metadata record: what [asdict] produces and what
    the constructor of [UTXOMetadata] takes as keywords.  [md_other_keys] lists the keys of the dict
    that are not fields of the data class. *)
Record MetadataDict := {
  md_jurisdiction : option string;
  md_blacklist_flag : option bool;
  md_freeze_reason : option (option string);
  md_policy_version : option string;
  md_issuer_attestation : option string;
  md_other_keys : list string
}.

(** The [dict] form of a UTXO.  An output specification of a transaction is
    such a dict (the engine never reads its [utxo_id]), and so is an entry of
    an exported state.  [d_other_keys] lists the keys of the dict other than
    the eight below; no method of the engine reads them. *)
Record UTXODict := {
  d_utxo_id : option string;
  d_owner_id : option string;
  d_asset_code : option string;
  d_amount : option Z;
  d_status : option string;
  d_kyc_tag : option string;
  d_created_at : option Z;
  d_metadata : option MetadataDict;
  d_other_keys : list string
}.

Record Transaction := {
  tx_type : string;
  tx_id : string;
  timestamp : Z;
  inputs : list string;
  outputs : list UTXODict;
  policy_ref : string;
  signatures : gmap string string;
  tx_metadata : gmap string string
}.

(** The raw record handed to [process_transaction], and the [dict] form of a
    logged transaction. *)
Record TransactionDict := {
  td_type : option string;
  td_tx_id : option string;
  td_timestamp : option Z;
  td_inputs : option (list string);
  td_outputs : option (list UTXODict);
  td_policy_ref : option string;
  td_signatures : option (gmap string string);
  td_metadata : option (gmap string string);
  td_other_keys : list string
}.

(** The constructor of [UTXOMetadata] applied to the entries of a dict as
    keywords: the generated [__init__] takes exactly the five fields and
    raises [TypeError] otherwise. *)
Definition UTXOMetadata_init (d : MetadataDict) : result UTXOMetadata :=
  match md_jurisdiction d, md_blacklist_flag d, md_freeze_reason d,
        md_policy_version d, md_issuer_attestation d, md_other_keys d with
  | Some j, Some b, Some f, Some p, Some i, [] =>
      Return {| jurisdiction := j; blacklist_flag := b; freeze_reason := f;
                policy_version := p; issuer_attestation := i |}
  | _, _, _, _, _, _ => Raise TypeError
  end.

(** [asdict(metadata)]. *)
Definition UTXOMetadata_asdict (m : UTXOMetadata) : MetadataDict :=
  {| md_jurisdiction := Some (jurisdiction m);
     md_blacklist_flag := Some (blacklist_flag m);
     md_freeze_reason := Some (freeze_reason m);
     md_policy_version := Some (policy_version m);
     md_issuer_attestation := Some (issuer_attestation m);
     md_other_keys := [] |}.

(** [UTXO.to_dict]. *)
Definition UTXO_to_dict (u : UTXO) : UTXODict :=
  {| d_utxo_id := Some (utxo_id u);
     d_owner_id := Some (owner_id u);
     d_asset_code := Some (asset_code u);
     d_amount := Some (amount u);
     d_status := Some (status u);
     d_kyc_tag := Some (kyc_tag u);
     d_created_at := Some (created_at u);
     d_metadata := Some (UTXOMetadata_asdict (metadata u));
     d_other_keys := [] |}.

(** [UTXO.from_dict]: the metadata is built first, then the fields are read
    in the order of the keyword arguments.  The method subscripts the eight
    keys and looks at no other key of [data]. *)
Definition UTXO_from_dict (data : UTXODict) : result UTXO :=
  match getitem "metadata" (d_metadata data) with
  | Raise e => Raise e
  | Return md =>
  match UTXOMetadata_init md with
  | Raise e => Raise e
  | Return m =>
  match getitem "utxo_id" (d_utxo_id data) with Raise e => Raise e | Return uid =>
  match getitem "owner_id" (d_owner_id data) with Raise e => Raise e | Return own =>
  match getitem "asset_code" (d_asset_code data) with Raise e => Raise e | Return ac =>
  match getitem "amount" (d_amount data) with Raise e => Raise e | Return amt =>
  match getitem "status" (d_status data) with Raise e => Raise e | Return st =>
  match getitem "kyc_tag" (d_kyc_tag data) with Raise e => Raise e | Return kyc =>
  match getitem "created_at" (d_created_at data) with Raise e => Raise e | Return cat =>
    Return {| utxo_id := uid; owner_id := own; asset_code := ac; amount := amt;
              status := st; kyc_tag := kyc; created_at := cat; metadata := m |}
  end end end end end end end end end.

(** The constructor of [Transaction] applied to the entries of [tx_data] as
    keywords: exactly the eight fields, [TypeError] otherwise. *)
Definition Transaction_init (d : TransactionDict) : result Transaction :=
  match td_type d, td_tx_id d, td_timestamp d, td_inputs d, td_outputs d,
        td_policy_ref d, td_signatures d, td_metadata d, td_other_keys d with
  | Some ty, Some id, Some ts, Some ins, Some outs, Some pr, Some sigs, Some md, [] =>
      Return {| tx_type := ty; tx_id := id; timestamp := ts; inputs := ins;
                outputs := outs; policy_ref := pr; signatures := sigs;
                tx_metadata := md |}
  | _, _, _, _, _, _, _, _, _ => Raise TypeError
  end.

(** [Transaction.to_dict]. *)
Definition Transaction_to_dict (tx : Transaction) : TransactionDict :=
  {| td_type := Some (tx_type tx);
     td_tx_id := Some (tx_id tx);
     td_timestamp := Some (timestamp tx);
     td_inputs := Some (inputs tx);
     td_outputs := Some (outputs tx);
     td_policy_ref := Some (policy_ref tx);
     td_signatures := Some (signatures tx);
     td_metadata := Some (tx_metadata tx);
     td_other_keys := [] |}.

(** ** Messages *)

(** One constructor per message template of the source, carrying the values
    the f-string interpolates. *)
Inductive message :=
| EmptyMessage
    (* the empty string *)
| InvalidTransactionFormat
    (* "Invalid transaction format: {str(e)}" *)
| UnknownTransactionType (ty : string)
    (* "Unknown transaction type: {tx.type}" *)
| MintMustHaveEmptyInputs
    (* "MINT transaction must have empty inputs" *)
| MintMustHaveOutput
    (* "MINT transaction must have at least one output" *)
| MintRequiresIssuerSignature
    (* "MINT requires issuer signature" *)
| InsufficientReserves (supply_would_be reserves : Z)
    (* "Insufficient reserves. Supply would be ${..}, reserves are ${..}" *)
| UnknownPolicy (ref : string)
    (* "Unknown policy: {tx.policy_ref}" *)
| MintExceedsMax (total max : Z)
    (* "Mint amount ${..} exceeds max ${..}" *)
| OutputMessage (idx : nat) (msg : message)
    (* "Output {idx}: {msg}" *)
| MintSuccessful (n_outputs : nat) (total : Z)
    (* "MINT successful: {n} UTXOs created, ${..} minted" *)
| TransferMustHaveInput
    (* "TRANSFER transaction must have at least one input" *)
| TransferMustHaveOutput
    (* "TRANSFER transaction must have at least one output" *)
| InputNotFound (id : string)
    (* "Input UTXO {utxo_id} not found" *)
| InputNotActive (id st : string)
    (* "Input UTXO {utxo_id} is not active (status: {utxo.status})" *)
| InputsMustShareOwner
    (* "All input UTXOs must belong to the same owner" *)
| MissingOwnerSignature (owner : string)
    (* "Missing signature from owner {owner_id}" *)
| InputBlacklistFlag (id : string)
    (* "Input UTXO {utxo.utxo_id} belongs to blacklisted owner" *)
| OwnerBlacklisted (owner : string)
    (* "Owner {utxo.owner_id} is blacklisted" *)
| ConservationViolation (input_sum output_sum : Z)
    (* "Input sum (${..}) != Output sum (${..})" *)
| RecipientNoKYC (recipient : string)
    (* "Recipient {recipient_id} has no KYC registration" *)
| RecipientBlacklisted (recipient : string)
    (* "Recipient {recipient_id} is blacklisted" *)
| OwnerNoKYC (owner : string)
    (* "Owner {owner_id} has no KYC registration" *)
| DailyLimitExceeded (limit used remaining : Z)
    (* "Daily limit exceeded. Limit: ${..}, Used: ${..}, Remaining: ${..}" *)
| TransferSuccessful (n_inputs n_outputs : nat)
    (* "TRANSFER successful: {n} inputs spent, {m} outputs created" *)
| BurnMustHaveInput
    (* "BURN transaction must have at least one input" *)
| BurnMustHaveEmptyOutputs
    (* "BURN transaction must have empty outputs" *)
| BurnRequiresSignature
    (* "BURN requires issuer or owner signature" *)
| BurnBelowMinimum (burn_amount min : Z)
    (* "Burn amount ${..} below minimum ${..}" *)
| BurnSuccessful (n_inputs : nat) (burn_amount : Z)
    (* "BURN successful: {n} UTXOs burned, ${..} destroyed" *)
| MissingRequiredField (field : string)
    (* "Missing required field: {field}" *)
| InvalidAssetCode (got : string)
    (* "Invalid asset_code: {..}, expected {ASSET_CODE}" *)
| AmountMustBePositive
    (* "Amount must be > 0" *)
| AmountExceedsMaximum
    (* "Amount exceeds maximum {MAX_UTXO_AMOUNT}" *)
| NewUTXOMustBeActive (got : string)
    (* "New UTXOs must have status 'active', got '{..}'" *)
| KycLevel0NotAllowed
    (* "KYC_LEVEL_0 not allowed for GENUSD" *)
| InvalidKycTag (got : string)
    (* "Invalid kyc_tag: {..}" *)
| JurisdictionNotAllowed (j : string)
    (* "Jurisdiction {..} not allowed" *)
| UTXONotFound (id : string)
    (* "UTXO {utxo_id} not found" *)
| CannotFreezeSpent (id : string)
    (* "Cannot freeze spent UTXO {utxo_id}" *)
| UTXOFrozen (id : string)
    (* "UTXO {utxo_id} frozen" *)
| UTXONotFrozen (id : string)
    (* "UTXO {utxo_id} is not frozen" *)
| UTXOUnfrozen (id : string)
    (* "UTXO {utxo_id} unfrozen" *).

(** The triple [(success, message, tx_id)] of [process_transaction]. *)
Definition outcome : Type := bool * message * option string.

(** *** Amounts in messages *)

(** A field [{x/100:.2f}] divides the [int] [x] by 100 into a float.  The
    quotient is rounded to the nearest float, and the division raises
    [OverflowError] when that float is not finite: when the magnitude of
    [x/100] reaches [2^1024 - 2^970], half-way between the largest float
    and [2^1024].  Formatting a finite float never fails. *)
Definition FLOAT_DIV_100_OVERFLOW : Z := 100 * (2 ^ 1024 - 2 ^ 970).

Definition renders (x : Z) : bool := (Z.abs x <? FLOAT_DIV_100_OVERFLOW)%Z.
Arguments renders : simpl never.

(** An f-string with the fields [{x/100:.2f}] for [x] in [amounts]: the
    message, or the [OverflowError] of a field. *)
Definition format_amounts (amounts : list Z) (msg : message) : result message :=
  if forallb renders amounts then Return msg else Raise OverflowError.

(** ** Policy engine *)

Record Policy := {
  version : string;
  issuer : string;
  min_burn_amount : Z;
  max_mint_per_tx : Z;
  policy_allowed_jurisdictions : list string;
  kyc_required : bool
}.

Record PolicyEngine := {
  policies : gmap string Policy;
  blacklist : gset string;
  allowed_jurisdictions : gset string;
  kyc_registry : gmap string string;
  daily_transfer_tracking : gmap string (gmap string Z)
}.

Definition set_daily_transfer_tracking
    (t : gmap string (gmap string Z)) (pe : PolicyEngine) : PolicyEngine :=
  {| policies := policies pe; blacklist := blacklist pe;
     allowed_jurisdictions := allowed_jurisdictions pe;
     kyc_registry := kyc_registry pe; daily_transfer_tracking := t |}.

(** [PolicyEngine.__init__], with [_load_default_policy]. *)
Definition PolicyEngine_init : PolicyEngine :=
  let allowed : gset string := list_to_set ["US"; "GB"; "SG"; "JP"; "CH"] in
  {| policies :=
       {[ "POLICY_V1.0" :=
            {| version := "POLICY_V1.0"; issuer := "issuer";
               min_burn_amount := 100000; max_mint_per_tx := 10000000000;
               policy_allowed_jurisdictions := elements allowed;
               kyc_required := true |} ]};
     blacklist := ∅;
     allowed_jurisdictions := allowed;
     kyc_registry := ∅;
     daily_transfer_tracking := ∅ |}.

Definition register_kyc (owner kyc_level : string) (pe : PolicyEngine) : PolicyEngine :=
  {| policies := policies pe; blacklist := blacklist pe;
     allowed_jurisdictions := allowed_jurisdictions pe;
     kyc_registry := <[owner := kyc_level]> (kyc_registry pe);
     daily_transfer_tracking := daily_transfer_tracking pe |}.

Definition get_kyc_level (pe : PolicyEngine) (owner : string) : option string :=
  kyc_registry pe !! owner.

Definition blacklist_owner (owner : string) (pe : PolicyEngine) : PolicyEngine :=
  {| policies := policies pe; blacklist := {[owner]} ∪ blacklist pe;
     allowed_jurisdictions := allowed_jurisdictions pe;
     kyc_registry := kyc_registry pe;
     daily_transfer_tracking := daily_transfer_tracking pe |}.

Definition is_blacklisted (pe : PolicyEngine) (owner : string) : bool :=
  bool_decide (owner ∈ blacklist pe).

(** [not kyc_level] on the value of [kyc_registry.get(owner)]: [None] and the
    empty string are the falsy ones. *)
Definition kyc_falsy (k : option string) : bool :=
  match k with
  | None => true
  | Some s => bool_decide (s = "")
  end.

(** The amount recorded for [owner] on [day]:
    [daily_transfer_tracking[owner].get(day, 0)], and 0 for an owner without
    a record. *)
Definition daily_usage (pe : PolicyEngine) (owner day : string) : Z :=
  default 0 (daily_transfer_tracking pe !! owner ≫= λ days, days !! day).

(** [check_daily_limit].  [today] is the UTC date the method reads from the
    clock.  The method creates the owner's record when there is none, before
    it compares, whatever the outcome of the comparison; the message of the
    refusal is built after that. *)
Definition check_daily_limit (today owner : string) (amt : Z) (pe : PolicyEngine)
    : PolicyEngine * result (bool * message) :=
  let kyc_level := get_kyc_level pe owner in
  if kyc_falsy kyc_level then (pe, Return (false, OwnerNoKYC owner)) else
  match KYCLevel_of_value (default "" kyc_level) with
  | None => (pe, Raise ValueError)
  | Some kyc_enum =>
    let daily_limit := KYC_DAILY_LIMITS kyc_enum in
    let pe' :=
      match daily_transfer_tracking pe !! owner with
      | None => set_daily_transfer_tracking
                  (<[owner := ∅]> (daily_transfer_tracking pe)) pe
      | Some _ => pe
      end in
    let today_amount := daily_usage pe' owner today in
    if (today_amount + amt >? daily_limit)%Z
    then
      let remaining := daily_limit - today_amount in
      match format_amounts [daily_limit; today_amount; remaining]
              (DailyLimitExceeded daily_limit today_amount remaining) with
      | Raise e => (pe', Raise e)
      | Return msg => (pe', Return (false, msg))
      end
    else (pe', Return (true, EmptyMessage))
  end.

(** [record_transfer]. *)
Definition record_transfer (today owner : string) (amt : Z) (pe : PolicyEngine)
    : PolicyEngine :=
  let days := default ∅ (daily_transfer_tracking pe !! owner) in
  set_daily_transfer_tracking
    (<[owner := <[today := default 0 (days !! today) + amt]> days]>
       (daily_transfer_tracking pe)) pe.

Definition validate_jurisdiction (pe : PolicyEngine) (j : string) : bool :=
  bool_decide (j ∈ allowed_jurisdictions pe).

(** The UTC dates that the two methods read from the clock in the course of
    one TRANSFER: [check_daily_limit] first, [record_transfer] later.  The
    two differ when midnight passes in between. *)
Record clock := {
  check_day : string;
  record_day : string
}.

(** ** The engine *)

Record GENUSDEngine := {
  utxos : gmap string UTXO;
  transactions : gmap string Transaction;
  total_supply : Z;
  verified_reserves : Z;
  policy_engine : PolicyEngine
}.

(** [GENUSDEngine.__init__]. *)
Definition GENUSDEngine_init : GENUSDEngine :=
  {| utxos := ∅; transactions := ∅; total_supply := 0; verified_reserves := 0;
     policy_engine := PolicyEngine_init |}.

Definition set_utxos (m : gmap string UTXO) (s : GENUSDEngine) : GENUSDEngine :=
  {| utxos := m; transactions := transactions s; total_supply := total_supply s;
     verified_reserves := verified_reserves s; policy_engine := policy_engine s |}.

Definition set_policy_engine (pe : PolicyEngine) (s : GENUSDEngine) : GENUSDEngine :=
  {| utxos := utxos s; transactions := transactions s;
     total_supply := total_supply s; verified_reserves := verified_reserves s;
     policy_engine := pe |}.

Definition set_status (st : string) (u : UTXO) : UTXO :=
  {| utxo_id := utxo_id u; owner_id := owner_id u; asset_code := asset_code u;
     amount := amount u; status := st; kyc_tag := kyc_tag u;
     created_at := created_at u; metadata := metadata u |}.

Definition set_freeze_reason (r : option string) (u : UTXO) : UTXO :=
  {| utxo_id := utxo_id u; owner_id := owner_id u; asset_code := asset_code u;
     amount := amount u; status := status u; kyc_tag := kyc_tag u;
     created_at := created_at u;
     metadata := {| jurisdiction := jurisdiction (metadata u);
                    blacklist_flag := blacklist_flag (metadata u);
                    freeze_reason := r;
                    policy_version := policy_version (metadata u);
                    issuer_attestation := issuer_attestation (metadata u) |} |}.

(** [key in d] for a dict used as a map. *)
Definition dict_contains {V} (d : gmap string V) (key : string) : bool :=
  bool_decide (is_Some (d !! key)).

(** *** State queries *)

Definition get_utxo (s : GENUSDEngine) (id : string) : option UTXO :=
  utxos s !! id.

Definition is_active (u : UTXO) : bool :=
  bool_decide (status u = UTXOStatus_value ACTIVE).

Definition get_balance (s : GENUSDEngine) (owner : string) : Z :=
  map_fold (λ _ u acc,
      if bool_decide (owner_id u = owner) && is_active u
      then amount u + acc else acc) 0 (utxos s).

Definition get_total_supply (s : GENUSDEngine) : Z := total_supply s.

(** *** Admin operations *)

Definition set_verified_reserves (amt : Z) (s : GENUSDEngine) : GENUSDEngine :=
  {| utxos := utxos s; transactions := transactions s;
     total_supply := total_supply s; verified_reserves := amt;
     policy_engine := policy_engine s |}.

(** The UTXO objects live in the [utxos] dict, one object per key; an
    assignment to a field of the object found under [id] is the replacement
    of the value stored under [id]. *)
Definition freeze_utxo (id reason : string) (s : GENUSDEngine)
    : GENUSDEngine * (bool * message) :=
  match get_utxo s id with
  | None => (s, (false, UTXONotFound id))
  | Some utxo =>
    if bool_decide (status utxo = UTXOStatus_value SPENT)
    then (s, (false, CannotFreezeSpent id))
    else (set_utxos
            (<[id := set_freeze_reason (Some reason)
                       (set_status (UTXOStatus_value FROZEN) utxo)]> (utxos s)) s,
          (true, UTXOFrozen id))
  end.

Definition unfreeze_utxo (id : string) (s : GENUSDEngine)
    : GENUSDEngine * (bool * message) :=
  match get_utxo s id with
  | None => (s, (false, UTXONotFound id))
  | Some utxo =>
    if negb (bool_decide (status utxo = UTXOStatus_value FROZEN))
    then (s, (false, UTXONotFrozen id))
    else (set_utxos
            (<[id := set_freeze_reason None
                       (set_status (UTXOStatus_value ACTIVE) utxo)]> (utxos s)) s,
          (true, UTXOUnfrozen id))
  end.

(** *** Helper methods *)

Definition required : list string :=
  ["owner_id"; "asset_code"; "amount"; "status"; "kyc_tag"; "created_at"; "metadata"].

(** [field in output] for the keys the engine asks about. *)
Definition UTXODict_contains (output : UTXODict) (field : string) : bool :=
  if bool_decide (field = "utxo_id") then bool_decide (is_Some (d_utxo_id output))
  else if bool_decide (field = "owner_id") then bool_decide (is_Some (d_owner_id output))
  else if bool_decide (field = "asset_code") then bool_decide (is_Some (d_asset_code output))
  else if bool_decide (field = "amount") then bool_decide (is_Some (d_amount output))
  else if bool_decide (field = "status") then bool_decide (is_Some (d_status output))
  else if bool_decide (field = "kyc_tag") then bool_decide (is_Some (d_kyc_tag output))
  else if bool_decide (field = "created_at") then bool_decide (is_Some (d_created_at output))
  else if bool_decide (field = "metadata") then bool_decide (is_Some (d_metadata output))
  else false.

(** [_validate_output].  [idx] is a parameter of the method that its body
    does not use. *)
Definition _validate_output (pe : PolicyEngine) (output : UTXODict) (idx : nat)
    : result (bool * message) :=
  match find (λ field, negb (UTXODict_contains output field)) required with
  | Some field => Return (false, MissingRequiredField field)
  | None =>
  match getitem "asset_code" (d_asset_code output) with Raise e => Raise e | Return ac =>
  if negb (bool_decide (ac = ASSET_CODE)) then Return (false, InvalidAssetCode ac) else
  match getitem "amount" (d_amount output) with Raise e => Raise e | Return amt =>
  if (amt <=? 0)%Z then Return (false, AmountMustBePositive) else
  if (amt >? MAX_UTXO_AMOUNT)%Z then Return (false, AmountExceedsMaximum) else
  match getitem "status" (d_status output) with Raise e => Raise e | Return st =>
  if negb (bool_decide (st = UTXOStatus_value ACTIVE))
  then Return (false, NewUTXOMustBeActive st) else
  match getitem "kyc_tag" (d_kyc_tag output) with Raise e => Raise e | Return kyc =>
  match KYCLevel_of_value kyc with
  | None => Return (false, InvalidKycTag kyc)
  | Some LEVEL_0 => Return (false, KycLevel0NotAllowed)
  | Some _ =>
  match getitem "metadata" (d_metadata output) with Raise e => Raise e | Return md =>
  match getitem "jurisdiction" (md_jurisdiction md) with Raise e => Raise e | Return j =>
  if negb (validate_jurisdiction pe j)
  then Return (false, JurisdictionNotAllowed j)
  else Return (true, EmptyMessage)
  end end end end end end end
  end.

(** [_create_utxo]. *)
Definition _create_utxo (id : string) (output : UTXODict) (ts : Z) : result UTXO :=
  match getitem "metadata" (d_metadata output) with Raise e => Raise e | Return md =>
  match UTXOMetadata_init md with Raise e => Raise e | Return m =>
  match getitem "owner_id" (d_owner_id output) with Raise e => Raise e | Return own =>
  match getitem "asset_code" (d_asset_code output) with Raise e => Raise e | Return ac =>
  match getitem "amount" (d_amount output) with Raise e => Raise e | Return amt =>
  match getitem "status" (d_status output) with Raise e => Raise e | Return st =>
  match getitem "kyc_tag" (d_kyc_tag output) with Raise e => Raise e | Return kyc =>
    Return {| utxo_id := id; owner_id := own; asset_code := ac; amount := amt;
              status := st; kyc_tag := kyc; created_at := ts; metadata := m |}
  end end end end end end end.

(** The id of the output at position [idx] of transaction [tid]:
    the f-string [{tx.tx_id}:{idx}]. *)
Definition output_utxo_id (tid : string) (idx : nat) : string :=
  tid +:+ ":" +:+ pretty idx.

(** [sum(out['amount'] for out in tx.outputs)]. *)
Fixpoint sum_output_amounts (outs : list UTXODict) : result Z :=
  match outs with
  | [] => Return 0
  | out :: rest =>
    match getitem "amount" (d_amount out) with
    | Raise e => Raise e
    | Return a =>
      match sum_output_amounts rest with
      | Raise e => Raise e
      | Return r => Return (a + r)
      end
    end
  end.

(** [sum(utxo.amount for utxo in input_utxos)]. *)
Definition sum_amounts (us : list UTXO) : Z := foldr Z.add 0 (amount <$> us).

(** The loop that resolves [tx.inputs] (step 2 of TRANSFER and of BURN):
    the first id that is missing or not active ends it with a message. *)
Fixpoint resolve_inputs (s : GENUSDEngine) (ids : list string)
    : message + list UTXO :=
  match ids with
  | [] => inr []
  | id :: rest =>
    match get_utxo s id with
    | None => inl (InputNotFound id)
    | Some utxo =>
      if negb (is_active utxo) then inl (InputNotActive id (status utxo))
      else match resolve_inputs s rest with
           | inl msg => inl msg
           | inr us => inr (utxo :: us)
           end
    end
  end.

(** The loops that assign [utxo.status = SPENT] through [input_utxos]: the
    list holds the objects stored under the ids of [tx.inputs]. *)
Definition mark_spent (ids : list string) (m : gmap string UTXO) : gmap string UTXO :=
  foldl (λ acc id, alter (set_status (UTXOStatus_value SPENT)) id acc) m ids.

(** The loops that create the outputs: [utxos[utxo_id] = utxo] for each
    position, stopping at the first exception of [_create_utxo]. *)
Fixpoint create_outputs (tid : string) (ts : Z) (idx : nat) (outs : list UTXODict)
    (m : gmap string UTXO) : gmap string UTXO * option exception :=
  match outs with
  | [] => (m, None)
  | out :: rest =>
    match _create_utxo (output_utxo_id tid idx) out ts with
    | Raise e => (m, Some e)
    | Return utxo => create_outputs tid ts (S idx) rest (<[output_utxo_id tid idx := utxo]> m)
    end
  end.

(** A rejection: [return False, msg, None], the state as it is. *)
Definition reject (msg : message) (s : GENUSDEngine) : GENUSDEngine * result outcome :=
  (s, Return (false, msg, None)).

(** A rejection whose message formats [amounts]. *)
Definition reject_amounts (amounts : list Z) (msg : message) (s : GENUSDEngine)
    : GENUSDEngine * result outcome :=
  match format_amounts amounts msg with
  | Raise e => (s, Raise e)
  | Return m => reject m s
  end.

(** [return True, msg, tx_id] where the message formats [amounts]: the last
    statement of MINT and of BURN, after the state has been updated. *)
Definition succeed_amounts (amounts : list Z) (msg : message) (tid : string)
    : result outcome :=
  match format_amounts amounts msg with
  | Raise e => Raise e
  | Return m => Return (true, m, Some tid)
  end.

(** *** MINT *)

Definition _validate_mint_schema (tx : Transaction) : bool * message :=
  match inputs tx with
  | _ :: _ => (false, MintMustHaveEmptyInputs)
  | [] =>
    match outputs tx with
    | [] => (false, MintMustHaveOutput)
    | _ :: _ => (true, EmptyMessage)
    end
  end.

(** Step 5 of MINT: validate the outputs in order. *)
Fixpoint validate_outputs (pe : PolicyEngine) (idx : nat) (outs : list UTXODict)
    : result (option message) :=
  match outs with
  | [] => Return None
  | out :: rest =>
    match _validate_output pe out idx with
    | Raise e => Raise e
    | Return (false, msg) => Return (Some (OutputMessage idx msg))
    | Return (true, _) => validate_outputs pe (S idx) rest
    end
  end.

Definition _process_mint (tx : Transaction) (s : GENUSDEngine)
    : GENUSDEngine * result outcome :=
  match _validate_mint_schema tx with
  | (false, msg) => reject msg s
  | (true, _) =>
  if negb (dict_contains (signatures tx) "issuer")
  then reject MintRequiresIssuerSignature s else
  match sum_output_amounts (outputs tx) with
  | Raise e => (s, Raise e)
  | Return total_mint_amount =>
  if (total_supply s + total_mint_amount >? verified_reserves s)%Z
  then reject_amounts [total_supply s + total_mint_amount; verified_reserves s]
         (InsufficientReserves (total_supply s + total_mint_amount)
            (verified_reserves s)) s else
  match policies (policy_engine s) !! policy_ref tx with
  | None => reject (UnknownPolicy (policy_ref tx)) s
  | Some policy =>
  if (total_mint_amount >? max_mint_per_tx policy)%Z
  then reject_amounts [total_mint_amount; max_mint_per_tx policy]
         (MintExceedsMax total_mint_amount (max_mint_per_tx policy)) s else
  match validate_outputs (policy_engine s) 0 (outputs tx) with
  | Raise e => (s, Raise e)
  | Return (Some msg) => reject msg s
  | Return None =>
  match create_outputs (tx_id tx) (timestamp tx) 0 (outputs tx) (utxos s) with
  | (m, Some e) => (set_utxos m s, Raise e)
  | (m, None) =>
    ({| utxos := m;
        transactions := <[tx_id tx := tx]> (transactions s);
        total_supply := total_supply s + total_mint_amount;
        verified_reserves := verified_reserves s;
        policy_engine := policy_engine s |},
     succeed_amounts [total_mint_amount]
       (MintSuccessful (length (outputs tx)) total_mint_amount) (tx_id tx))
  end end end end
  end.

(** *** TRANSFER *)

Definition _validate_transfer_schema (tx : Transaction) : bool * message :=
  match inputs tx with
  | [] => (false, TransferMustHaveInput)
  | _ :: _ =>
    match outputs tx with
    | [] => (false, TransferMustHaveOutput)
    | _ :: _ => (true, EmptyMessage)
    end
  end.

(** [set(utxo.owner_id for utxo in input_utxos)]. *)
Definition owner_ids (us : list UTXO) : gset string :=
  list_to_set (owner_id <$> us).

(** Step 5 of TRANSFER: the blacklist flag of each input and the registry
    entry of its owner. *)
Fixpoint check_inputs_blacklist (pe : PolicyEngine) (us : list UTXO) : option message :=
  match us with
  | [] => None
  | utxo :: rest =>
    if blacklist_flag (metadata utxo) then Some (InputBlacklistFlag (utxo_id utxo))
    else if is_blacklisted pe (owner_id utxo) then Some (OwnerBlacklisted (owner_id utxo))
    else check_inputs_blacklist pe rest
  end.

(** Step 7 of TRANSFER: each output is validated, then its recipient is
    looked up in the KYC registry and in the blacklist, before the next
    output is looked at. *)
Fixpoint validate_transfer_outputs (pe : PolicyEngine) (idx : nat)
    (outs : list UTXODict) : result (option message) :=
  match outs with
  | [] => Return None
  | out :: rest =>
    match _validate_output pe out idx with
    | Raise e => Raise e
    | Return (false, msg) => Return (Some (OutputMessage idx msg))
    | Return (true, _) =>
      match getitem "owner_id" (d_owner_id out) with
      | Raise e => Raise e
      | Return recipient_id =>
        if kyc_falsy (get_kyc_level pe recipient_id)
        then Return (Some (RecipientNoKYC recipient_id))
        else if is_blacklisted pe recipient_id
        then Return (Some (RecipientBlacklisted recipient_id))
        else validate_transfer_outputs pe (S idx) rest
      end
    end
  end.

(** [_process_transfer].  The clock is read twice: by [check_daily_limit]
    at step 8 and by [record_transfer] at the end of the execution phase. *)
Definition _process_transfer (today : clock) (tx : Transaction) (s : GENUSDEngine)
    : GENUSDEngine * result outcome :=
  match _validate_transfer_schema tx with
  | (false, msg) => reject msg s
  | (true, _) =>
  match resolve_inputs s (inputs tx) with
  | inl msg => reject msg s
  | inr input_utxos =>
  if (1 <? size (owner_ids input_utxos))%nat then reject InputsMustShareOwner s else
  match input_utxos with
  | [] => (s, Raise IndexError)
  | first :: _ =>
  let owner := owner_id first in
  if negb (dict_contains (signatures tx) owner)
  then reject (MissingOwnerSignature owner) s else
  match check_inputs_blacklist (policy_engine s) input_utxos with
  | Some msg => reject msg s
  | None =>
  let input_sum := sum_amounts input_utxos in
  match sum_output_amounts (outputs tx) with
  | Raise e => (s, Raise e)
  | Return output_sum =>
  if negb (input_sum =? output_sum)%Z
  then reject_amounts [input_sum; output_sum]
         (ConservationViolation input_sum output_sum) s else
  match validate_transfer_outputs (policy_engine s) 0 (outputs tx) with
  | Raise e => (s, Raise e)
  | Return (Some msg) => reject msg s
  | Return None =>
  match check_daily_limit (check_day today) owner output_sum (policy_engine s) with
  | (pe, Raise e) => (set_policy_engine pe s, Raise e)
  | (pe, Return (false, msg)) => reject msg (set_policy_engine pe s)
  | (pe, Return (true, _)) =>
  match create_outputs (tx_id tx) (timestamp tx) 0 (outputs tx)
          (mark_spent (inputs tx) (utxos s)) with
  | (m, Some e) => (set_utxos m (set_policy_engine pe s), Raise e)
  | (m, None) =>
    ({| utxos := m;
        transactions := <[tx_id tx := tx]> (transactions s);
        total_supply := total_supply s;
        verified_reserves := verified_reserves s;
        policy_engine := record_transfer (record_day today) owner output_sum pe |},
     Return (true, TransferSuccessful (length (inputs tx)) (length (outputs tx)),
             Some (tx_id tx)))
  end end end end end end end
  end.

(** *** BURN *)

Definition _validate_burn_schema (tx : Transaction) : bool * message :=
  match inputs tx with
  | [] => (false, BurnMustHaveInput)
  | _ :: _ =>
    match outputs tx with
    | _ :: _ => (false, BurnMustHaveEmptyOutputs)
    | [] => (true, EmptyMessage)
    end
  end.

(** Step 3 of BURN: [has_issuer_sig or has_owner_sig]. *)
Definition burn_authorized (tx : Transaction) (input_utxos : list UTXO) : bool :=
  let has_issuer_sig := dict_contains (signatures tx) "issuer" in
  let has_owner_sig :=
    existsb (λ owner, dict_contains (signatures tx) owner)
            (elements (owner_ids input_utxos)) in
  has_issuer_sig || has_owner_sig.

Definition _process_burn (tx : Transaction) (s : GENUSDEngine)
    : GENUSDEngine * result outcome :=
  match _validate_burn_schema tx with
  | (false, msg) => reject msg s
  | (true, _) =>
  match resolve_inputs s (inputs tx) with
  | inl msg => reject msg s
  | inr input_utxos =>
  if negb (burn_authorized tx input_utxos) then reject BurnRequiresSignature s else
  match policies (policy_engine s) !! policy_ref tx with
  | None => reject (UnknownPolicy (policy_ref tx)) s
  | Some policy =>
  let burn_amount := sum_amounts input_utxos in
  if (burn_amount <? min_burn_amount policy)%Z
  then reject_amounts [burn_amount; min_burn_amount policy]
         (BurnBelowMinimum burn_amount (min_burn_amount policy)) s else
    ({| utxos := mark_spent (inputs tx) (utxos s);
        transactions := <[tx_id tx := tx]> (transactions s);
        total_supply := total_supply s - burn_amount;
        verified_reserves := verified_reserves s;
        policy_engine := policy_engine s |},
     succeed_amounts [burn_amount]
       (BurnSuccessful (length (inputs tx)) burn_amount) (tx_id tx))
  end end
  end.

(** *** The entry point *)

(** The dispatch of [process_transaction] on [tx.type]. *)
Definition route (today : clock) (tx : Transaction) (s : GENUSDEngine)
    : GENUSDEngine * result outcome :=
  if bool_decide (tx_type tx = TransactionType_value MINT) then _process_mint tx s
  else if bool_decide (tx_type tx = TransactionType_value TRANSFER)
  then _process_transfer today tx s
  else if bool_decide (tx_type tx = TransactionType_value BURN) then _process_burn tx s
  else reject (UnknownTransactionType (tx_type tx)) s.

(** [process_transaction]: the exception of the constructor is caught and
    turned into a rejection; nothing else is inside the [try]. *)
Definition process_transaction (today : clock) (tx_data : TransactionDict)
    (s : GENUSDEngine) : GENUSDEngine * result outcome :=
  match Transaction_init tx_data with
  | Raise _ => reject InvalidTransactionFormat s
  | Return tx => route today tx s
  end.

(** *** Export and import *)

(** The dict produced by [export_state] and read by [import_state] with
    [state.get(key, default)]. *)
Record StateDict := {
  sd_utxos : option (gmap string UTXODict);
  sd_transactions : option (gmap string TransactionDict);
  sd_total_supply : option Z;
  sd_verified_reserves : option Z
}.

Definition export_state (s : GENUSDEngine) : StateDict :=
  {| sd_utxos := Some (UTXO_to_dict <$> utxos s);
     sd_transactions := Some (Transaction_to_dict <$> transactions s);
     sd_total_supply := Some (total_supply s);
     sd_verified_reserves := Some (verified_reserves s) |}.

(** A dict comprehension [{k: f(v) for k, v in d.items()}] whose [f] may
    raise: the dict of the images, or the exception of an entry that has
    one.  When several entries raise, Python reports the first in insertion
    order; the finite map does not keep that order and the fold reports one
    of them. *)
Definition dict_comprehension {A B} (f : A → result B) (d : gmap string A)
    : result (gmap string B) :=
  map_fold (λ k v acc,
      match acc with
      | Raise e => Raise e
      | Return m =>
        match f v with
        | Raise e => Raise e
        | Return b => Return (<[k := b]> m)
        end
      end) (Return ∅) d.

(** [import_state]: the four attributes are assigned in order, so that an
    exception in the second comprehension leaves the first assignment made. *)
Definition import_state (state : StateDict) (s : GENUSDEngine)
    : GENUSDEngine * result unit :=
  match dict_comprehension UTXO_from_dict (default ∅ (sd_utxos state)) with
  | Raise e => (s, Raise e)
  | Return us =>
    match dict_comprehension Transaction_init (default ∅ (sd_transactions state)) with
    | Raise e => (set_utxos us s, Raise e)
    | Return txs =>
      ({| utxos := us; transactions := txs;
          total_supply := default 0 (sd_total_supply state);
          verified_reserves := default 0 (sd_verified_reserves state);
          policy_engine := policy_engine s |}, Return tt)
    end
  end.

(** ** Notions used by the properties *)

(** The sum of the amounts of the UTXOs whose status is active. *)
Definition sum_active (m : gmap string UTXO) : Z :=
  map_fold (λ _ u acc, if is_active u then amount u + acc else acc) 0 m.

(** The ids under which the execution phase of a MINT or a TRANSFER stores
    the outputs of [tx]. *)
Definition created_ids (tx : Transaction) : list string :=
  imap (λ idx _, output_utxo_id (tx_id tx) idx) (outputs tx).

(** An output specification is accepted when [_validate_output] returns
    [(True, msg)]. *)
Definition output_accepted (pe : PolicyEngine) (out : UTXODict) : Prop :=
  ∃ msg, _validate_output pe out 0 = Return (true, msg).

(** What the specification asks of an output (section 4.4). *)
Definition output_well_formed (pe : PolicyEngine) (out : UTXODict) : Prop :=
  (∀ field, field ∈ required → UTXODict_contains out field = true) ∧
  d_asset_code out = Some ASSET_CODE ∧
  (∃ amt, d_amount out = Some amt ∧ 0 < amt ≤ MAX_UTXO_AMOUNT) ∧
  d_status out = Some (UTXOStatus_value ACTIVE) ∧
  (∃ tag lvl, d_kyc_tag out = Some tag ∧ KYCLevel_of_value tag = Some lvl ∧
              lvl ≠ LEVEL_0) ∧
  (∃ md j, d_metadata out = Some md ∧ md_jurisdiction md = Some j ∧
           j ∈ allowed_jurisdictions pe).

(** A recipient passes the checks that follow the validation of its output
    in a TRANSFER. *)
Definition recipient_cleared (pe : PolicyEngine) (out : UTXODict) : Prop :=
  ∃ r, d_owner_id out = Some r ∧ kyc_falsy (get_kyc_level pe r) = false ∧
       is_blacklisted pe r = false.

(** The state of the engine apart from the daily-transfer tracking. *)
Definition same_but_tracking (s s' : GENUSDEngine) : Prop :=
  utxos s' = utxos s ∧ transactions s' = transactions s ∧
  total_supply s' = total_supply s ∧ verified_reserves s' = verified_reserves s ∧
  policies (policy_engine s') = policies (policy_engine s) ∧
  blacklist (policy_engine s') = blacklist (policy_engine s) ∧
  allowed_jurisdictions (policy_engine s') = allowed_jurisdictions (policy_engine s) ∧
  kyc_registry (policy_engine s') = kyc_registry (policy_engine s).

(** ** Sample data *)

Module Sample.

Definition day : string := "2025-11-28".

(** Both readings of the clock fall on [day]. *)
Definition now : clock := {| check_day := day; record_day := day |}.

Definition metadata_dict : MetadataDict :=
  {| md_jurisdiction := Some "US"; md_blacklist_flag := Some false;
     md_freeze_reason := Some None; md_policy_version := Some "POLICY_V1.0";
     md_issuer_attestation := Some "SHA256:reserve_proof_1"; md_other_keys := [] |}.

Definition output (owner code : string) (amt : Z) : UTXODict :=
  {| d_utxo_id := None; d_owner_id := Some owner; d_asset_code := Some code;
     d_amount := Some amt; d_status := Some "active";
     d_kyc_tag := Some "KYC_LEVEL_3"; d_created_at := Some 0;
     d_metadata := Some metadata_dict; d_other_keys := [] |}.

(** The empty dict as an output specification. *)
Definition empty_output : UTXODict :=
  {| d_utxo_id := None; d_owner_id := None; d_asset_code := None;
     d_amount := None; d_status := None; d_kyc_tag := None;
     d_created_at := None; d_metadata := None; d_other_keys := [] |}.

Definition tx (ty tid : string) (ins : list string) (outs : list UTXODict)
    (signers : list string) : Transaction :=
  {| tx_type := ty; tx_id := tid; timestamp := 1764288000; inputs := ins;
     outputs := outs; policy_ref := "POLICY_V1.0";
     signatures := list_to_map ((λ k, (k, "SIG_0123456789abcdef")) <$> signers);
     tx_metadata := ∅ |}.

Definition tx_data (ty tid : string) (ins : list string) (outs : list UTXODict)
    (signers : list string) : TransactionDict :=
  Transaction_to_dict (tx ty tid ins outs signers).

(** A fresh engine with reserves of 100,000,000 and three registered
    owners: [alice] at level 3, [bob] at level 1 and [carol] at level 2. *)
Definition engine : GENUSDEngine :=
  set_policy_engine
    (register_kyc "carol" "KYC_LEVEL_2"
       (register_kyc "bob" "KYC_LEVEL_1"
          (register_kyc "alice" "KYC_LEVEL_3" PolicyEngine_init)))
    (set_verified_reserves 100000000 GENUSDEngine_init).

(** The state after the transactions of [txs], in order. *)
Definition after (txs : list TransactionDict) (s : GENUSDEngine) : GENUSDEngine :=
  foldl (λ acc t, fst (process_transaction now t acc)) s txs.

Definition mint_alice : TransactionDict :=
  tx_data "MINT" "M" [] [output "alice" "GENUSD" 1000000] ["issuer"].

Definition mint_bob : TransactionDict :=
  tx_data "MINT" "N" [] [output "bob" "GENUSD" 200000] ["issuer"].

Definition transfer_alice : TransactionDict :=
  tx_data "TRANSFER" "T" ["M:0"]
    [output "bob" "GENUSD" 600000; output "alice" "GENUSD" 400000] ["alice"].

End Sample.


Module SampleC2.
Import Sample.

(** [bob], at level 1 (100,000 a day), holds 200,000 and sends all of it. *)
Definition before : GENUSDEngine := after [mint_bob] engine.

Definition transfer_over_limit : TransactionDict :=
  tx_data "TRANSFER" "T" ["N:0"] [output "alice" "GENUSD" 200000] ["bob"].

Definition after_rejection : GENUSDEngine :=
  set_policy_engine
    (set_daily_transfer_tracking
       (<["bob" := ∅]> (daily_transfer_tracking (policy_engine before)))
       (policy_engine before))
    before.

End SampleC2.

Module SampleC4.
Import Sample.

(** A MINT signed by the issuer whose only output is the empty dict. *)
Definition mint_empty_output : TransactionDict :=
  tx_data "MINT" "M" [] [empty_output] ["issuer"].

(** A record without its [policy_ref] entry. *)
Definition malformed : TransactionDict :=
  {| td_type := Some "MINT"; td_tx_id := Some "M"; td_timestamp := Some 0;
     td_inputs := Some []; td_outputs := Some []; td_policy_ref := None;
     td_signatures := Some ∅; td_metadata := Some ∅; td_other_keys := [] |}.

End SampleC4.

Module SampleC6.
Import Sample.

(** A MINT of one unit more than the reserves, without the issuer's key
    among the signatures. *)
Definition mint_unsigned : TransactionDict :=
  tx_data "MINT" "M" [] [output "alice" "GENUSD" 100000001] ["alice"].

(** The same MINT signed by the issuer. *)
Definition mint_signed : TransactionDict :=
  tx_data "MINT" "M" [] [output "alice" "GENUSD" 100000001] ["issuer"].

End SampleC6.

Module SampleC1.
Import Sample.

(** [alice] spends her one UTXO of 1,000,000 twice in the same TRANSFER and
    receives 2,000,000. *)
Definition transfer_twice : TransactionDict :=
  tx_data "TRANSFER" "T" ["M:0"; "M:0"] [output "alice" "GENUSD" 2000000] ["alice"].

(** The same input listed twice in a BURN. *)
Definition burn_twice : TransactionDict :=
  tx_data "BURN" "B" ["M:0"; "M:0"] [] ["alice"].

End SampleC1.

(** The ids that the creation loop assigns from position [idx] on. *)
Definition ids_from (tid : string) (idx : nat) (outs : list UTXODict) : list string :=
  imap (λ i _, output_utxo_id tid (idx + i)) outs.

Module SampleC3.
Import Sample.

(** [alice] has minted under "M" and spent "M:0" in the transfer "T". *)
Definition spent_state : GENUSDEngine := after [mint_alice; transfer_alice] engine.

(** The state after a second MINT under the tx_id "M". *)
Definition reminted_state : GENUSDEngine := after [mint_alice] spent_state.

(** A later transfer that names "M:0" as its input. *)
Definition transfer_again : TransactionDict :=
  tx_data "TRANSFER" "T2" ["M:0"] [output "bob" "GENUSD" 1000000] ["alice"].

(** A later transfer that names an id that was never created, then "M:0". *)
Definition transfer_missing_first : TransactionDict :=
  tx_data "TRANSFER" "T3" ["Z:9"; "M:0"] [output "bob" "GENUSD" 1000000] ["alice"].

(** A later MINT that names "M:0" among its inputs. *)
Definition mint_with_input : TransactionDict :=
  tx_data "MINT" "M2" ["M:0"] [output "alice" "GENUSD" 1000000] ["issuer"].

End SampleC3.


Module SampleC5.
Import Sample.

(** The state after the MINT "M" of 1,000,000 to [alice]. *)
Definition first_minted : GENUSDEngine := after [mint_alice] engine.

(** A second MINT under the tx_id "M", of 500 to [bob]. *)
Definition mint_same_id : TransactionDict :=
  tx_data "MINT" "M" [] [output "bob" "GENUSD" 500] ["issuer"].

Definition second_minted : GENUSDEngine := after [mint_same_id] first_minted.

End SampleC5.

Module SampleC7.
Import Sample.

(** [alice] holds "M:0" of 1,000,000. *)
Definition before : GENUSDEngine := after [mint_alice] engine.

(** A transfer of 999,999 out of the input of 1,000,000, signed by [bob]
    and not by [alice]. *)
Definition transfer_short_unsigned : TransactionDict :=
  tx_data "TRANSFER" "T" ["M:0"] [output "bob" "GENUSD" 999999] ["bob"].

(** The same transfer signed by [alice]. *)
Definition transfer_short : TransactionDict :=
  tx_data "TRANSFER" "T" ["M:0"] [output "bob" "GENUSD" 999999] ["alice"].

End SampleC7.

Module SampleC9.
Import Sample.

(** [alice] holds "M:0" and [bob] holds "N:0". *)
Definition before : GENUSDEngine := after [mint_alice; mint_bob] engine.

(** A BURN of both, signed by [bob] alone. *)
Definition burn_mixed : Transaction :=
  tx "BURN" "B" ["M:0"; "N:0"] [] ["bob"].

(** A TRANSFER of both, signed by both owners. *)
Definition transfer_mixed : Transaction :=
  tx "TRANSFER" "T" ["M:0"; "N:0"] [output "carol" "GENUSD" 1200000] ["alice"; "bob"].

End SampleC9.

Module SampleC8.
Import Sample.



End SampleC8.

(** ** Further queries and notions *)

(** [get_owner_utxos]: the active UTXOs of an owner.  Python lists them in
    the insertion order of the dict; the finite map lists them in its own
    order, so only order-independent facts are stated about the result. *)
Definition get_owner_utxos (s : GENUSDEngine) (owner : string) : list UTXO :=
  filter (λ u, bool_decide (owner_id u = owner) && is_active u = true)
         ((map_to_list (utxos s)).*2).

(** The sum of the amounts of the UTXOs of a map that satisfy [P]: the
    shape of the sums of [get_balance] and of the active sum. *)
Definition sum_if (P : UTXO → bool) (m : gmap string UTXO) : Z :=
  map_fold (λ _ u acc, if P u then amount u + acc else acc) 0 m.

(** The test of [get_balance] for an owner. *)
Definition owned_active (owner : string) (u : UTXO) : bool :=
  bool_decide (owner_id u = owner) && is_active u.

(** What a UTXO adds to a sum over [P]. *)
Definition weight (P : UTXO → bool) (u : UTXO) : Z :=
  if P u then amount u else 0.

(** The status of a UTXO is one of the three values of [UTXOStatus]. *)
Definition status_known (u : UTXO) : Prop :=
  ∃ st, status u = UTXOStatus_value st.

(** The shape of the entries that the engine itself writes: stored under
    its own id, with a known status, the asset code of the engine and an
    amount within the bounds of an output. *)
Definition utxo_ok (id : string) (u : UTXO) : Prop :=
  utxo_id u = id ∧ status_known u ∧ asset_code u = ASSET_CODE ∧
  0 < amount u ≤ MAX_UTXO_AMOUNT.

Definition store_ok (m : gmap string UTXO) : Prop :=
  ∀ id u, m !! id = Some u → utxo_ok id u.

Module SampleX.
Import Sample.

(** [alice] holds "M:0" of 1,000,000, active. *)
Definition minted : GENUSDEngine := after [mint_alice] engine.

(** The same with "M:0" frozen. *)
Definition frozen : GENUSDEngine := fst (freeze_utxo "M:0" "AML investigation" minted).

(** A transfer of the frozen UTXO. *)
Definition transfer_all : Transaction :=
  tx "TRANSFER" "T" ["M:0"] [output "bob" "GENUSD" 1000000] ["alice"].

End SampleX.

Module SampleLimit.
Import Sample.

(** An engine where [dave] is registered at level 0 and holds "D:0". *)
Definition with_dave : GENUSDEngine :=
  after [tx_data "MINT" "D" [] [output "dave" "GENUSD" 500] ["issuer"]]
    (set_policy_engine (register_kyc "dave" "KYC_LEVEL_0" (policy_engine engine)) engine).

Definition transfer_dave : TransactionDict :=
  tx_data "TRANSFER" "TD" ["D:0"] [output "alice" "GENUSD" 500] ["dave"].

(** An engine where [erin] is registered under a string that is no level. *)
Definition with_erin : PolicyEngine :=
  register_kyc "erin" "GOLD" (policy_engine engine).

End SampleLimit.

Module SampleExc.
Import Sample.

(** A metadata dict without its [issuer_attestation] entry. *)
Definition short_metadata : MetadataDict :=
  {| md_jurisdiction := Some "US"; md_blacklist_flag := Some false;
     md_freeze_reason := Some None; md_policy_version := Some "POLICY_V1.0";
     md_issuer_attestation := None; md_other_keys := [] |}.

Definition short_output : UTXODict :=
  {| d_utxo_id := None; d_owner_id := Some "bob"; d_asset_code := Some "GENUSD";
     d_amount := Some 7; d_status := Some "active";
     d_kyc_tag := Some "KYC_LEVEL_1"; d_created_at := Some 0;
     d_metadata := Some short_metadata; d_other_keys := [] |}.

(** A MINT whose second output has the short metadata. *)
Definition mint_short : Transaction :=
  tx "MINT" "P" [] [output "alice" "GENUSD" 5; short_output] ["issuer"].

End SampleExc.

Module SampleOverflow.
Import Sample.

(** An amount whose hundredth is beyond the largest float. *)
Definition huge : Z := 10 ^ 311.

(** A MINT of [huge], signed by the issuer. *)
Definition mint_huge : TransactionDict :=
  tx_data "MINT" "H" [] [output "alice" "GENUSD" huge] ["issuer"].

(** A TRANSFER of the 1,000,000 of "M:0" into an output of [huge], signed by
    the owner of the input. *)
Definition transfer_huge : TransactionDict :=
  tx_data "TRANSFER" "TH" ["M:0"] [output "bob" "GENUSD" huge] ["alice"].

End SampleOverflow.

(** A UTXO dict with its keys other than the eight of [UTXO] replaced. *)
Definition set_other_keys (keys : list string) (d : UTXODict) : UTXODict :=
  {| d_utxo_id := d_utxo_id d; d_owner_id := d_owner_id d;
     d_asset_code := d_asset_code d; d_amount := d_amount d;
     d_status := d_status d; d_kyc_tag := d_kyc_tag d;
     d_created_at := d_created_at d; d_metadata := d_metadata d;
     d_other_keys := keys |}.

(** The metadata dict of an output specification has exactly the five keys
    of [UTXOMetadata]. *)
Definition metadata_constructible (out : UTXODict) : Prop :=
  ∃ md m, d_metadata out = Some md ∧ UTXOMetadata_init md = Return m.

(** The amounts of the UTXOs of a list that belong to an owner. *)
Definition owned_amounts (owner : string) (us : list UTXO) : Z :=
  foldr (λ u acc, if bool_decide (owner_id u = owner) then amount u + acc else acc)
        0 us.

(** The amounts of the output specifications that name an owner. *)
Definition paid_amounts (owner : string) (outs : list UTXODict) : Z :=
  foldr (λ o acc, if bool_decide (d_owner_id o = Some owner)
                  then default 0 (d_amount o) + acc else acc) 0 outs.

(** A transaction with its signatures, or its policy reference, replaced. *)
Definition set_signatures (sigs : gmap string string) (tx : Transaction) : Transaction :=
  {| tx_type := tx_type tx; tx_id := tx_id tx; timestamp := timestamp tx;
     inputs := inputs tx; outputs := outputs tx; policy_ref := policy_ref tx;
     signatures := sigs; tx_metadata := tx_metadata tx |}.

Definition set_policy_ref (ref : string) (tx : Transaction) : Transaction :=
  {| tx_type := tx_type tx; tx_id := tx_id tx; timestamp := timestamp tx;
     inputs := inputs tx; outputs := outputs tx; policy_ref := ref;
     signatures := signatures tx; tx_metadata := tx_metadata tx |}.

(** The state of the engine apart from the transaction log. *)
Definition same_but_log (s1 s2 : GENUSDEngine) : Prop :=
  utxos s1 = utxos s2 ∧ total_supply s1 = total_supply s2 ∧
  verified_reserves s1 = verified_reserves s2 ∧
  policy_engine s1 = policy_engine s2.
(** ** Basic facts *)

Lemma validate_output_idx pe out i j :
  _validate_output pe out i = _validate_output pe out j.
Proof. reflexivity. Qed.

Lemma set_policy_engine_id s : set_policy_engine (policy_engine s) s = s.
Proof. by destruct s. Qed.

Lemma set_tracking_id pe :
  set_daily_transfer_tracking (daily_transfer_tracking pe) pe = pe.
Proof. by destruct pe. Qed.

Lemma set_status_same u : set_status (status u) u = u.
Proof. by destruct u. Qed.

(** *** Messages that format amounts *)

Lemma format_amounts_cases amounts msg :
  format_amounts amounts msg
    = (if forallb renders amounts then Return msg else Raise OverflowError).
Proof. reflexivity. Qed.

Lemma reject_amounts_renders amounts msg s :
  forallb renders amounts = true → reject_amounts amounts msg s = reject msg s.
Proof. intros H. unfold reject_amounts, format_amounts. by rewrite H. Qed.

Lemma reject_amounts_overflow amounts msg s :
  forallb renders amounts = false →
  reject_amounts amounts msg s = (s, Raise OverflowError).
Proof. intros H. unfold reject_amounts, format_amounts. by rewrite H. Qed.

Lemma reject_amounts_inv amounts msg s s' r :
  reject_amounts amounts msg s = (s', r) →
  s' = s ∧
  ((forallb renders amounts = true ∧ r = Return (false, msg, None)) ∨
   (forallb renders amounts = false ∧ r = Raise OverflowError)).
Proof.
  unfold reject_amounts, format_amounts, reject.
  destruct (forallb renders amounts); intros H; simplify_eq; split; auto.
Qed.

Lemma succeed_amounts_inv amounts msg tid r :
  succeed_amounts amounts msg tid = r →
  (forallb renders amounts = true ∧ r = Return (true, msg, Some tid)) ∨
  (forallb renders amounts = false ∧ r = Raise OverflowError).
Proof.
  unfold succeed_amounts, format_amounts.
  destruct (forallb renders amounts); intros H; simplify_eq; auto.
Qed.

(** A rejection that formats amounts is never a success. *)
Ltac reject_amounts_absurd H :=
  apply reject_amounts_inv in H as [_ [[_ ?]|[_ ?]]]; discriminate.

Lemma renders_small x : (Z.abs x < 2 ^ 64)%Z → renders x = true.
Proof.
  intros H. unfold renders. apply Z.ltb_lt.
  eapply Z.lt_trans; [exact H|]. by vm_compute.
Qed.

(** *** The daily-limit check *)

(** The check leaves the registry as it is, or adds an empty record for an
    owner that had none. *)
Lemma check_daily_limit_state today owner amt pe pe' r :
  check_daily_limit today owner amt pe = (pe', r) →
  pe' = pe ∨
  (daily_transfer_tracking pe !! owner = None ∧
   pe' = set_daily_transfer_tracking (<[owner := ∅]> (daily_transfer_tracking pe)) pe).
Proof.
  unfold check_daily_limit. intros H.
  destruct (kyc_falsy _); [left; congruence|].
  destruct (KYCLevel_of_value _); [|left; congruence].
  destruct (daily_transfer_tracking pe !! owner) eqn:Hrec.
  - left. destruct (_ >? _)%Z; [destruct (format_amounts _ _)|]; congruence.
  - right. split; [done|].
    destruct (_ >? _)%Z; [destruct (format_amounts _ _)|]; congruence.
Qed.

Lemma daily_usage_empty_record pe owner o day :
  daily_transfer_tracking pe !! owner = None →
  daily_usage
    (set_daily_transfer_tracking (<[owner := ∅]> (daily_transfer_tracking pe)) pe)
    o day = daily_usage pe o day.
Proof.
  intros Hnone. unfold daily_usage; simpl.
  destruct (decide (owner = o)) as [->|Hne].
  - by rewrite lookup_insert_eq, Hnone.
  - by rewrite lookup_insert_ne.
Qed.

(** *** Rejections leave the ledger alone *)

Lemma process_mint_failure tx s s' msg tid :
  _process_mint tx s = (s', Return (false, msg, tid)) → s' = s ∧ tid = None.
Proof.
  unfold _process_mint, reject_amounts, succeed_amounts, reject. intros H.
  repeat case_match; simplify_eq; done.
Qed.

Lemma process_burn_failure tx s s' msg tid :
  _process_burn tx s = (s', Return (false, msg, tid)) → s' = s ∧ tid = None.
Proof.
  unfold _process_burn, reject_amounts, succeed_amounts, reject. intros H.
  repeat case_match; simplify_eq; done.
Qed.

Lemma process_transfer_failure today tx s s' msg tid :
  _process_transfer today tx s = (s', Return (false, msg, tid)) →
  tid = None ∧
  (s' = s ∨
   ∃ owner amt pe',
     check_daily_limit (check_day today) owner amt (policy_engine s)
       = (pe', Return (false, msg)) ∧
     s' = set_policy_engine pe' s).
Proof.
  unfold _process_transfer, reject_amounts, reject. intros H.
  repeat case_match; simplify_eq; try (split; [done|by left]).
  split; [done|]. right. eauto.
Qed.

(** ** C2: what a rejection leaves behind *)


(** C2, counterexample: a TRANSFER rejected by the daily-limit check returns
    a failure and leaves a record for the sender in the daily-transfer
    tracking, which had none before the call. *)
Lemma C2_rejection_adds_tracking_record :
  process_transaction Sample.now SampleC2.transfer_over_limit SampleC2.before
    = (SampleC2.after_rejection,
       Return (false, DailyLimitExceeded 100000 0 100000, None)) ∧
  daily_transfer_tracking (policy_engine SampleC2.before) !! "bob" = None ∧
  daily_transfer_tracking (policy_engine SampleC2.after_rejection) !! "bob" = Some ∅ ∧
  SampleC2.after_rejection ≠ SampleC2.before.
Proof.
  assert (daily_transfer_tracking (policy_engine SampleC2.before) !! "bob" = None)
    as Hb by (vm_compute; reflexivity).
  assert (daily_transfer_tracking (policy_engine SampleC2.after_rejection) !! "bob"
          = Some ∅) as Ha by (vm_compute; reflexivity).
  split; [vm_compute; reflexivity|].
  split; [exact Hb|]. split; [exact Ha|].
  intros Heq. rewrite Heq in Ha. congruence.
Qed.

(** C2 (amended): when [process_transaction] returns a failure, the UTXO map,
    the transaction log, [total_supply], [verified_reserves], the policies,
    the blacklist, the allowed jurisdictions and the KYC registry are as they
    were before the call, and so is the amount recorded for every owner and
    every day; the daily-transfer tracking itself is unchanged or has gained
    an empty record for one owner that had none. *)
Theorem C2_failure_preserves_state today tx_data s s' msg tid :
  process_transaction today tx_data s = (s', Return (false, msg, tid)) →
  same_but_tracking s s' ∧
  (∀ owner d, daily_usage (policy_engine s') owner d
              = daily_usage (policy_engine s) owner d) ∧
  (daily_transfer_tracking (policy_engine s')
     = daily_transfer_tracking (policy_engine s) ∨
   ∃ owner,
     daily_transfer_tracking (policy_engine s) !! owner = None ∧
     daily_transfer_tracking (policy_engine s')
       = <[owner := ∅]> (daily_transfer_tracking (policy_engine s))).
Proof.
  intros H.
  assert (s' = s ∨
          ∃ owner, daily_transfer_tracking (policy_engine s) !! owner = None ∧
            s' = set_policy_engine
                   (set_daily_transfer_tracking
                      (<[owner := ∅]> (daily_transfer_tracking (policy_engine s)))
                      (policy_engine s)) s) as [->|(owner & Hnone & ->)].
  { unfold process_transaction, route, reject in H.
    destruct (Transaction_init tx_data) as [tx|e]; [|left; congruence].
    repeat case_bool_decide.
    - apply process_mint_failure in H as [-> _]. by left.
    - apply process_transfer_failure in H
        as [_ [->|(owner & amt & pe' & Hchk & ->)]]; [by left|].
      apply check_daily_limit_state in Hchk as [->|[Hnone ->]].
      + left. apply set_policy_engine_id.
      + right. eauto.
    - apply process_burn_failure in H as [-> _]. by left.
    - left. congruence. }
  - split; [by unfold same_but_tracking|]. split; [done|by left].
  - split; [by unfold same_but_tracking|]. split.
    + intros o d. by apply daily_usage_empty_record.
    + right. by exists owner.
Qed.

(** The theorem of C2 at the rejected transfer of [SampleC2]. *)
Lemma C2_failure_preserves_state_witness :
  process_transaction Sample.now SampleC2.transfer_over_limit SampleC2.before
    = (SampleC2.after_rejection,
       Return (false, DailyLimitExceeded 100000 0 100000, None)) ∧
  same_but_tracking SampleC2.before SampleC2.after_rejection ∧
  (∀ owner d, daily_usage (policy_engine SampleC2.after_rejection) owner d
              = daily_usage (policy_engine SampleC2.before) owner d).
Proof.
  assert (process_transaction Sample.now SampleC2.transfer_over_limit SampleC2.before
    = (SampleC2.after_rejection,
       Return (false, DailyLimitExceeded 100000 0 100000, None))) as H
    by (vm_compute; reflexivity).
  split; [exact H|].
  destruct (C2_failure_preserves_state _ _ _ _ _ _ H) as (Hsame & Husage & _).
  split; [exact Hsame|exact Husage].
Defined.

(** ** C10: export then import *)

Lemma UTXOMetadata_roundtrip m : UTXOMetadata_init (UTXOMetadata_asdict m) = Return m.
Proof. by destruct m. Qed.

Lemma UTXO_roundtrip u : UTXO_from_dict (UTXO_to_dict u) = Return u.
Proof.
  destruct u as [? ? ? ? ? ? ? m]. unfold UTXO_from_dict, UTXO_to_dict, getitem.
  cbn [d_metadata d_utxo_id d_owner_id d_asset_code d_amount d_status d_kyc_tag
       d_created_at metadata].
  by rewrite UTXOMetadata_roundtrip.
Qed.

Lemma Transaction_roundtrip tx : Transaction_init (Transaction_to_dict tx) = Return tx.
Proof. by destruct tx. Qed.

(** A comprehension over the images of [g] by a left inverse of [g] gives
    the dict back. *)
Lemma dict_comprehension_inverse {A B} (f : A → result B) (g : B → A) (d : gmap string B) :
  (∀ b, f (g b) = Return b) → dict_comprehension f (g <$> d) = Return d.
Proof.
  intros Hfg. unfold dict_comprehension. rewrite map_fold_fmap.
  apply (map_fold_weak_ind (λ r m, r = Return m)); [done|].
  intros k b m r _ ->. simpl. by rewrite Hfg.
Qed.

(** C10: importing into any engine the state exported from [s] sets the UTXO
    map, the transaction log, [total_supply] and [verified_reserves] to those
    of [s], raises nothing and leaves the policy engine of the importing
    engine as it was; [export_state] is a function of the state that assigns
    nothing. *)
Theorem C10_export_import_roundtrip (s target : GENUSDEngine) :
  import_state (export_state s) target
    = ({| utxos := utxos s; transactions := transactions s;
          total_supply := total_supply s;
          verified_reserves := verified_reserves s;
          policy_engine := policy_engine target |}, Return tt).
Proof.
  unfold import_state, export_state; simpl.
  rewrite (dict_comprehension_inverse _ _ _ UTXO_roundtrip).
  by rewrite (dict_comprehension_inverse _ _ _ Transaction_roundtrip).
Qed.

(** ** C4: exceptions on well-typed records *)


(** A record that the constructor of [Transaction] refuses is rejected with
    the format message, and nothing is raised. *)
Lemma malformed_record_rejected today tx_data s e :
  Transaction_init tx_data = Raise e →
  process_transaction today tx_data s
    = (s, Return (false, InvalidTransactionFormat, None)).
Proof. unfold process_transaction, reject. by intros ->. Qed.

(** C4, at the failing input: the record parses into a [Transaction] whose
    inputs are a list of strings and whose outputs are a list of dicts, and
    [process_transaction] raises [KeyError('amount')] from the sum of step 3
    of MINT, which runs before the required-field check of step 5. *)
Theorem C4_mint_without_amount_raises :
  Transaction_init SampleC4.mint_empty_output
    = Return (Sample.tx "MINT" "M" [] [Sample.empty_output] ["issuer"]) ∧
  process_transaction Sample.now SampleC4.mint_empty_output Sample.engine
    = (Sample.engine, Raise (KeyError "amount")) ∧
  _validate_output (policy_engine Sample.engine) Sample.empty_output 0
    = Return (false, MissingRequiredField "owner_id").
Proof. repeat split; vm_compute; reflexivity. Qed.

(** ** C6: the reserve ceiling *)


(** C6, counterexample: a MINT that would put the supply one unit above the
    reserves and lacks the issuer signature is rejected with the message of
    the signature check, which does not name the reserves. *)
Lemma C6_unsigned_mint_message :
  sum_output_amounts [Sample.output "alice" "GENUSD" 100000001] = Return 100000001 ∧
  total_supply Sample.engine + 100000001 > verified_reserves Sample.engine ∧
  process_transaction Sample.now SampleC6.mint_unsigned Sample.engine
    = (Sample.engine, Return (false, MintRequiresIssuerSignature, None)).
Proof. repeat split; vm_compute; reflexivity. Qed.

(** C6 (amended): a MINT whose outputs sum to [total] with
    [total_supply + total > verified_reserves] never commits, however small
    the excess: whatever the call returns or raises, the state is unchanged
    and the result is not a success.  When the two amounts that the
    reserves message formats, [total_supply + total] and
    [verified_reserves], can be rendered, the call is rejected, and the
    message is the one naming the reserves when the schema check and the
    issuer-signature check pass. *)
Theorem C6_reserve_ceiling today tx_data tx s total :
  Transaction_init tx_data = Return tx →
  tx_type tx = TransactionType_value MINT →
  sum_output_amounts (outputs tx) = Return total →
  total_supply s + total > verified_reserves s →
  (∀ s' r, process_transaction today tx_data s = (s', r) →
           s' = s ∧ ∀ msg tid, r ≠ Return (true, msg, tid)) ∧
  (renders (total_supply s + total) = true →
   renders (verified_reserves s) = true →
   ∃ msg,
     process_transaction today tx_data s = (s, Return (false, msg, None)) ∧
     (inputs tx = [] → outputs tx ≠ [] →
      dict_contains (signatures tx) "issuer" = true →
      msg = InsufficientReserves (total_supply s + total) (verified_reserves s))).
Proof.
  intros Hinit Hty Hsum Hgt.
  assert ((total_supply s + total >? verified_reserves s)%Z = true) as Hgtb
    by (apply Z.gtb_lt; lia).
  assert (process_transaction today tx_data s = _process_mint tx s) as ->.
  { unfold process_transaction, route. rewrite Hinit, Hty. reflexivity. }
  unfold _process_mint, _validate_mint_schema. rewrite Hsum, Hgtb.
  destruct (inputs tx) as [|i ins].
  - destruct (outputs tx) as [|o outs].
    + split.
      * intros s' r H. unfold reject in H. simplify_eq. done.
      * intros _ _. eexists. split; [reflexivity|]. intros _ Hne. by destruct Hne.
    + destruct (dict_contains (signatures tx) "issuer") eqn:Hsig; cbn [negb].
      * split.
        -- intros s' r H.
           apply reject_amounts_inv in H as [-> [[_ ->]|[_ ->]]]; done.
        -- intros Ha Hb. eexists. split; [|done].
           apply reject_amounts_renders. cbn [forallb]. by rewrite Ha, Hb.
      * split.
        -- intros s' r H. unfold reject in H. simplify_eq. done.
        -- intros _ _. eexists. split; [reflexivity|].
           intros _ _ Hc. discriminate Hc.
  - split.
    + intros s' r H. unfold reject in H. simplify_eq. done.
    + intros _ _. eexists. split; [reflexivity|]. intros Hnil. discriminate Hnil.
Qed.

(** The theorem of C6 at the signed MINT of [SampleC6]. *)
Lemma C6_reserve_ceiling_witness :
  ∃ msg,
    process_transaction Sample.now SampleC6.mint_signed Sample.engine
      = (Sample.engine, Return (false, msg, None)) ∧
    msg = InsufficientReserves 100000001 100000000.
Proof.
  destruct (C6_reserve_ceiling Sample.now SampleC6.mint_signed
              (Sample.tx "MINT" "M" [] [Sample.output "alice" "GENUSD" 100000001]
                 ["issuer"])
              Sample.engine 100000001) as [_ Hrej].
  - reflexivity.
  - reflexivity.
  - reflexivity.
  - vm_compute. reflexivity.
  - destruct Hrej as (msg & Hrun & Hmsg).
    + vm_compute. reflexivity.
    + vm_compute. reflexivity.
    + exists msg. split; [exact Hrun|].
      apply Hmsg; [reflexivity|discriminate|vm_compute; reflexivity].
Defined.

(** ** C1: supply and active UTXOs *)


(** C1, at the failing input: on a fresh engine a MINT of 1,000,000 commits
    and supply and active sum agree; a TRANSFER that lists the minted UTXO
    twice then commits, and the active UTXOs sum to 2,000,000 while
    [total_supply] is 1,000,000.  The input loop of step 2 resolves every
    listed id against the unchanged map and so accepts a repeated id. *)
Theorem C1_repeated_input_breaks_supply :
  let s1 := fst (process_transaction Sample.now Sample.mint_alice Sample.engine) in
  let s2 := fst (process_transaction Sample.now SampleC1.transfer_twice s1) in
  snd (process_transaction Sample.now Sample.mint_alice Sample.engine)
    = Return (true, MintSuccessful 1 1000000, Some "M") ∧
  total_supply s1 = 1000000 ∧ sum_active (utxos s1) = 1000000 ∧
  snd (process_transaction Sample.now SampleC1.transfer_twice s1)
    = Return (true, TransferSuccessful 2 1, Some "T") ∧
  total_supply s2 = 1000000 ∧ sum_active (utxos s2) = 2000000.
Proof. repeat split; vm_compute; reflexivity. Qed.

(** The same slip in BURN: the repeated input is counted twice in
    [burn_amount], and the supply falls to -1,000,000 with no active UTXO
    left. *)
Lemma repeated_input_burn :
  let s1 := fst (process_transaction Sample.now Sample.mint_alice Sample.engine) in
  let s2 := fst (process_transaction Sample.now SampleC1.burn_twice s1) in
  snd (process_transaction Sample.now SampleC1.burn_twice s1)
    = Return (true, BurnSuccessful 2 2000000, Some "B") ∧
  total_supply s2 = -1000000 ∧ sum_active (utxos s2) = 0.
Proof. repeat split; vm_compute; reflexivity. Qed.

(** ** The execution phase *)

(** *** Output ids *)

Lemma output_utxo_id_idx_inj tid i j :
  output_utxo_id tid i = output_utxo_id tid j → i = j.
Proof.
  unfold output_utxo_id. intros H.
  apply (inj (String.app tid)) in H. apply (inj (String.app ":")) in H.
  by apply (inj pretty) in H.
Qed.

(** *** Marking inputs as spent *)

Lemma lookup_mark_spent ids (m : gmap string UTXO) id :
  mark_spent ids m !! id
  = if decide (id ∈ ids) then set_status (UTXOStatus_value SPENT) <$> m !! id
    else m !! id.
Proof.
  unfold mark_spent. revert m.
  induction ids as [|i ids IH]; intros m.
  - by rewrite decide_False by apply not_elem_of_nil.
  - cbn [foldl]. rewrite IH. destruct (decide (i = id)) as [->|Hne].
    + rewrite lookup_alter_eq.
      rewrite (decide_True (P := id ∈ id :: ids)) by apply list_elem_of_here.
      case_decide; [|done].
      destruct (m !! id) as [u|]; [|done]. by destruct u.
    + rewrite lookup_alter_ne by done.
      destruct (decide (id ∈ ids)) as [Hin|Hnin].
      * by rewrite decide_True by (by apply list_elem_of_further).
      * rewrite decide_False; [done|].
        intros [?|?]%elem_of_cons; congruence.
Qed.

Lemma lookup_mark_spent_spent ids (m : gmap string UTXO) id u :
  m !! id = Some u → status u = UTXOStatus_value SPENT →
  mark_spent ids m !! id = Some u.
Proof.
  intros Hu Hst. rewrite lookup_mark_spent, Hu. case_decide; [|done].
  rewrite <-Hst. unfold fmap, option_fmap, option_map. by rewrite set_status_same.
Qed.

(** *** Creating the outputs *)


Lemma created_ids_from tx : created_ids tx = ids_from (tx_id tx) 0 (outputs tx).
Proof. reflexivity. Qed.

Lemma ids_from_cons tid idx out outs :
  ids_from tid idx (out :: outs) = output_utxo_id tid idx :: ids_from tid (S idx) outs.
Proof.
  unfold ids_from. simpl. rewrite Nat.add_0_r. f_equal.
  apply imap_ext. intros i x _. simpl. f_equal. lia.
Qed.

Lemma elem_of_ids_from tid idx outs id :
  id ∈ ids_from tid idx outs ↔
  ∃ i, (i < length outs)%nat ∧ id = output_utxo_id tid (idx + i).
Proof.
  unfold ids_from. rewrite elem_of_lookup_imap. split.
  - intros (i & out & -> & Hi). exists i. split; [|done].
    by eapply lookup_lt_Some.
  - intros (i & Hi & ->). destruct (lookup_lt_is_Some_2 outs i Hi) as [out Hout].
    by exists i, out.
Qed.

(** An id that the loop does not assign keeps its entry, also when the loop
    is cut short by an exception. *)
Lemma create_outputs_other tid ts idx outs (m m' : gmap string UTXO) r id :
  create_outputs tid ts idx outs m = (m', r) →
  id ∉ ids_from tid idx outs → m' !! id = m !! id.
Proof.
  revert idx m. induction outs as [|out outs IH]; intros idx m; simpl.
  - by intros [= <- _].
  - rewrite ids_from_cons. intros H Hnin.
    apply not_elem_of_cons in Hnin as [Hne Hnin].
    destruct (_create_utxo _ out ts) as [u|e]; [|by injection H as <- _].
    rewrite (IH _ _ H Hnin). by rewrite lookup_insert_ne.
Qed.

(** When the loop completes, every position holds the UTXO built from its
    output specification under the id of that position. *)
Lemma create_outputs_created tid ts idx outs (m m' : gmap string UTXO) i out :
  create_outputs tid ts idx outs m = (m', None) →
  outs !! i = Some out →
  ∃ u, _create_utxo (output_utxo_id tid (idx + i)) out ts = Return u ∧
       m' !! output_utxo_id tid (idx + i) = Some u.
Proof.
  revert idx m i. induction outs as [|o outs IH]; intros idx m i; simpl; [done|].
  intros H Hi.
  destruct (_create_utxo (output_utxo_id tid idx) o ts) as [u|e] eqn:Hu;
    [|by injection H].
  destruct i as [|i]; simpl in Hi.
  - injection Hi as ->. rewrite Nat.add_0_r. exists u. split; [done|].
    rewrite (create_outputs_other _ _ _ _ _ _ _ _ H).
    + apply lookup_insert_eq.
    + rewrite elem_of_ids_from. intros (j & _ & Hj).
      apply output_utxo_id_idx_inj in Hj. lia.
  - destruct (IH _ _ _ H Hi) as (u' & Hu' & Hm').
    replace (idx + S i)%nat with (S idx + i)%nat by lia. eauto.
Qed.


(** *** What a committed transaction went through *)

Lemma process_mint_success tx s s' msg tid :
  _process_mint tx s = (s', Return (true, msg, tid)) →
  ∃ total policy,
    inputs tx = [] ∧ outputs tx ≠ [] ∧
    dict_contains (signatures tx) "issuer" = true ∧
    sum_output_amounts (outputs tx) = Return total ∧
    (total_supply s + total ≤ verified_reserves s)%Z ∧
    policies (policy_engine s) !! policy_ref tx = Some policy ∧
    (total ≤ max_mint_per_tx policy)%Z ∧
    validate_outputs (policy_engine s) 0 (outputs tx) = Return None ∧
    create_outputs (tx_id tx) (timestamp tx) 0 (outputs tx) (utxos s)
      = (utxos s', None) ∧
    transactions s' = <[tx_id tx := tx]> (transactions s) ∧
    total_supply s' = total_supply s + total ∧
    verified_reserves s' = verified_reserves s ∧
    policy_engine s' = policy_engine s ∧
    msg = MintSuccessful (length (outputs tx)) total ∧ tid = Some (tx_id tx).
Proof.
  unfold _process_mint, reject, _validate_mint_schema. intros H.
  destruct (inputs tx) as [|? ?]; cbn [negb] in H; [|discriminate H].
  destruct (outputs tx) as [|o outs] eqn:Houts; cbn [negb] in H; [discriminate H|].
  destruct (dict_contains _ _) eqn:Hsig; cbn [negb] in H; [|discriminate H].
  destruct (sum_output_amounts (o :: outs)) as [total|] eqn:Hsum; cbn [negb] in H; [|discriminate H].
  destruct (_ >? _)%Z eqn:Hres; cbn [negb] in H; [reject_amounts_absurd H|].
  destruct (policies _ !! _) as [policy|] eqn:Hpol; cbn [negb] in H; [|discriminate H].
  destruct (total >? _)%Z eqn:Hmax; cbn [negb] in H; [reject_amounts_absurd H|].
  destruct (validate_outputs _ _ _) as [[?|]|] eqn:Hval; cbn [negb] in H; try discriminate H.
  destruct (create_outputs _ _ _ _ _) as [m [e|]] eqn:Hcre; cbn [negb] in H; [discriminate H|].
  injection H as <- Hr.
  apply succeed_amounts_inv in Hr as [[_ Hr]|[_ Hr]]; [|discriminate Hr].
  injection Hr as -> ->. exists total, policy. simpl.
  rewrite Z.gtb_ltb, Z.ltb_ge in Hres, Hmax.
  repeat (split; [done|]). done.
Qed.

Lemma process_transfer_success today tx s s' msg tid :
  _process_transfer today tx s = (s', Return (true, msg, tid)) →
  ∃ first rest total pe,
    inputs tx ≠ [] ∧ outputs tx ≠ [] ∧
    resolve_inputs s (inputs tx) = inr (first :: rest) ∧
    (size (owner_ids (first :: rest)) ≤ 1)%nat ∧
    dict_contains (signatures tx) (owner_id first) = true ∧
    check_inputs_blacklist (policy_engine s) (first :: rest) = None ∧
    sum_output_amounts (outputs tx) = Return total ∧
    sum_amounts (first :: rest) = total ∧
    validate_transfer_outputs (policy_engine s) 0 (outputs tx) = Return None ∧
    check_daily_limit (check_day today) (owner_id first) total (policy_engine s)
      = (pe, Return (true, EmptyMessage)) ∧
    create_outputs (tx_id tx) (timestamp tx) 0 (outputs tx)
        (mark_spent (inputs tx) (utxos s)) = (utxos s', None) ∧
    transactions s' = <[tx_id tx := tx]> (transactions s) ∧
    total_supply s' = total_supply s ∧
    verified_reserves s' = verified_reserves s ∧
    policy_engine s' = record_transfer (record_day today) (owner_id first) total pe ∧
    msg = TransferSuccessful (length (inputs tx)) (length (outputs tx)) ∧
    tid = Some (tx_id tx).
Proof.
  unfold _process_transfer, reject, _validate_transfer_schema. intros H.
  destruct (inputs tx) as [|i ins] eqn:Hins; cbn [negb] in H; [discriminate H|].
  destruct (outputs tx) as [|o outs] eqn:Houts; cbn [negb] in H; [discriminate H|].
  destruct (resolve_inputs s (i :: ins)) as [?|us] eqn:Hres; cbn [negb] in H; [discriminate H|].
  destruct (1 <? size (owner_ids us))%nat eqn:Hown; cbn [negb] in H; [discriminate H|].
  destruct us as [|first rest]; cbn [negb] in H; [discriminate H|].
  destruct (dict_contains _ _) eqn:Hsig; cbn [negb] in H; [|discriminate H].
  destruct (check_inputs_blacklist _ _) eqn:Hbl; cbn [negb] in H; [discriminate H|].
  destruct (sum_output_amounts (o :: outs)) as [total|] eqn:Hsum; cbn [negb] in H; [|discriminate H].
  destruct (_ =? _)%Z eqn:Hcons; cbn [negb] in H; [|reject_amounts_absurd H].
  destruct (validate_transfer_outputs _ _ _) as [[?|]|] eqn:Hval; cbn [negb] in H; try discriminate H.
  destruct (check_daily_limit _ _ _ _) as [pe [[[] m]|]] eqn:Hchk; cbn [negb] in H; try discriminate H.
  destruct (create_outputs _ _ _ _ _) as [m' [e|]] eqn:Hcre; cbn [negb] in H; [discriminate H|].
  injection H as <- <- <-. exists first, rest, total, pe. simpl.
  apply Nat.ltb_ge in Hown. apply Z.eqb_eq in Hcons.
  assert (m = EmptyMessage) as ->.
  { unfold check_daily_limit in Hchk. repeat case_match; simplify_eq; done. }
  repeat (split; [done|]). done.
Qed.

Lemma process_burn_success tx s s' msg tid :
  _process_burn tx s = (s', Return (true, msg, tid)) →
  ∃ us policy,
    inputs tx ≠ [] ∧ outputs tx = [] ∧
    resolve_inputs s (inputs tx) = inr us ∧
    burn_authorized tx us = true ∧
    policies (policy_engine s) !! policy_ref tx = Some policy ∧
    (min_burn_amount policy ≤ sum_amounts us)%Z ∧
    utxos s' = mark_spent (inputs tx) (utxos s) ∧
    transactions s' = <[tx_id tx := tx]> (transactions s) ∧
    total_supply s' = total_supply s - sum_amounts us ∧
    verified_reserves s' = verified_reserves s ∧
    policy_engine s' = policy_engine s ∧
    msg = BurnSuccessful (length (inputs tx)) (sum_amounts us) ∧
    tid = Some (tx_id tx).
Proof.
  unfold _process_burn, reject, _validate_burn_schema. intros H.
  destruct (inputs tx) as [|i ins] eqn:Hins; cbn [negb] in H; [discriminate H|].
  destruct (outputs tx) as [|o outs] eqn:Houts; cbn [negb] in H; [|discriminate H].
  destruct (resolve_inputs s (i :: ins)) as [?|us] eqn:Hres; cbn [negb] in H; [discriminate H|].
  destruct (burn_authorized tx us) eqn:Hauth; cbn [negb] in H; [|discriminate H].
  destruct (policies _ !! _) as [policy|] eqn:Hpol; cbn [negb] in H; [|discriminate H].
  destruct (_ <? _)%Z eqn:Hmin; cbn [negb] in H; [reject_amounts_absurd H|].
  injection H as <- Hr.
  apply succeed_amounts_inv in Hr as [[_ Hr]|[_ Hr]]; [|discriminate Hr].
  injection Hr as -> ->. exists us, policy. simpl.
  apply Z.ltb_ge in Hmin.
  repeat (split; [done|]). done.
Qed.

(** The UTXO map after a call of [route], whatever its result: untouched,
    or the creation loop (complete or cut short) over the map of a MINT or
    over the marked map of a TRANSFER, or the marked map of a BURN. *)
Lemma route_utxos today tx s s' r :
  route today tx s = (s', r) →
  utxos s' = utxos s ∨
  (∃ e, create_outputs (tx_id tx) (timestamp tx) 0 (outputs tx) (utxos s)
          = (utxos s', e)) ∨
  (∃ us, resolve_inputs s (inputs tx) = inr us ∧
     (utxos s' = mark_spent (inputs tx) (utxos s) ∨
      ∃ e, create_outputs (tx_id tx) (timestamp tx) 0 (outputs tx)
             (mark_spent (inputs tx) (utxos s)) = (utxos s', e))).
Proof.
  unfold route, reject. intros H. repeat case_bool_decide.
  - unfold _process_mint, reject_amounts, reject in H.
    repeat case_match; simplify_eq; simpl; eauto.
  - unfold _process_transfer, reject_amounts, reject in H.
    repeat case_match; simplify_eq; simpl; eauto 8.
  - unfold _process_burn, reject_amounts, reject in H.
    repeat case_match; simplify_eq; simpl; eauto 8.
  - left. congruence.
Qed.

(** ** C3: spent is terminal *)

Lemma process_transaction_route today tx_data tx s :
  Transaction_init tx_data = Return tx →
  process_transaction today tx_data s = route today tx s.
Proof. unfold process_transaction. by intros ->. Qed.

(** Every id of a resolved input list is in the map and active. *)
Lemma resolve_inputs_active s ids us id :
  resolve_inputs s ids = inr us → id ∈ ids →
  ∃ u, utxos s !! id = Some u ∧ is_active u = true.
Proof.
  revert us. induction ids as [|i ids IH]; intros us; simpl.
  - intros _ Hin. by apply elem_of_nil in Hin.
  - unfold get_utxo. destruct (utxos s !! i) as [u|] eqn:Hu; [|done].
    destruct (is_active u) eqn:Hact; [|done]. simpl.
    destruct (resolve_inputs s ids) as [|us'] eqn:Hres; [done|].
    intros _ [->|Hin]%elem_of_cons; eauto.
Qed.

(** The loop stops at the first input that is not active. *)
Lemma resolve_inputs_first_inactive s pre id post u :
  Forall (λ i, ∃ v, utxos s !! i = Some v ∧ is_active v = true) pre →
  utxos s !! id = Some u → is_active u = false →
  resolve_inputs s (pre ++ id :: post) = inl (InputNotActive id (status u)).
Proof.
  intros Hpre Hu Hact. induction Hpre as [|i pre (v & Hv & Hvact) _ IH]; simpl.
  - unfold get_utxo. by rewrite Hu, Hact.
  - unfold get_utxo. by rewrite Hv, Hvact, IH.
Qed.

Lemma spent_not_active u : status u = UTXOStatus_value SPENT → is_active u = false.
Proof. unfold is_active. intros ->. by apply bool_decide_eq_false. Qed.

(** A call of [route] keeps a spent UTXO under its id, unless the id is one
    of those the transaction creates. *)
Lemma route_keeps_spent today tx s s' r id u :
  route today tx s = (s', r) →
  utxos s !! id = Some u → status u = UTXOStatus_value SPENT →
  id ∉ created_ids tx →
  utxos s' !! id = Some u.
Proof.
  intros Hrun Hu Hst Hnew. rewrite created_ids_from in Hnew.
  destruct (route_utxos _ _ _ _ _ Hrun)
    as [->|[[e He]|(us & _ & [->|[e He]])]].
  - done.
  - by rewrite (create_outputs_other _ _ _ _ _ _ _ _ He Hnew).
  - by apply lookup_mark_spent_spent.
  - rewrite (create_outputs_other _ _ _ _ _ _ _ _ He Hnew).
    by apply lookup_mark_spent_spent.
Qed.

(** A TRANSFER or BURN that lists a spent UTXO is rejected in the input
    loop or before it. *)
Lemma route_rejects_spent_input today tx s id u :
  utxos s !! id = Some u → status u = UTXOStatus_value SPENT →
  id ∈ inputs tx →
  tx_type tx = TransactionType_value TRANSFER ∨ tx_type tx = TransactionType_value BURN →
  ∃ msg, route today tx s = (s, Return (false, msg, None)).
Proof.
  intros Hu Hst Hin Hty.
  assert (∀ us, resolve_inputs s (inputs tx) ≠ inr us) as Hres.
  { intros us Hus. destruct (resolve_inputs_active _ _ _ _ Hus Hin) as (v & Hv & Hact).
    rewrite Hu in Hv. injection Hv as <-. by rewrite spent_not_active in Hact. }
  unfold route. destruct Hty as [-> | ->]; simpl.
  - unfold _process_transfer, reject.
    destruct (_validate_transfer_schema tx) as [[] m]; [|eauto].
    destruct (resolve_inputs s (inputs tx)) as [m'|us]; [eauto|].
    by destruct (Hres us).
  - unfold _process_burn, reject.
    destruct (_validate_burn_schema tx) as [[] m]; [|eauto].
    destruct (resolve_inputs s (inputs tx)) as [m'|us]; [eauto|].
    by destruct (Hres us).
Qed.

(** A MINT that lists an input is rejected by its schema check. *)
Lemma process_mint_with_input tx s id :
  id ∈ inputs tx →
  _process_mint tx s = (s, Return (false, MintMustHaveEmptyInputs, None)).
Proof.
  intros Hin. unfold _process_mint, _validate_mint_schema.
  destruct (inputs tx); [by apply elem_of_nil in Hin|done].
Qed.

(** Whatever its type, a transaction that lists a spent UTXO among its
    inputs is rejected with the state unchanged. *)
Lemma route_rejects_spent_input_any today tx s id u :
  utxos s !! id = Some u → status u = UTXOStatus_value SPENT →
  id ∈ inputs tx →
  ∃ msg, route today tx s = (s, Return (false, msg, None)).
Proof.
  intros Hu Hst Hin.
  destruct (decide (tx_type tx = TransactionType_value TRANSFER ∨
                    tx_type tx = TransactionType_value BURN)) as [Hty|Hty].
  { by eapply route_rejects_spent_input. }
  unfold route. case_bool_decide as Hmint.
  - eexists. by eapply process_mint_with_input.
  - rewrite bool_decide_eq_false_2 by tauto.
    rewrite bool_decide_eq_false_2 by tauto.
    by eexists.
Qed.

(** C3, counterexample: "M:0" is spent by the transfer "T".  A later
    transfer that lists an id never created and then "M:0" is rejected with
    the not-found message of its first input, and a later MINT that lists
    "M:0" among its inputs is rejected by its schema check: both name the
    spent UTXO as an input, and neither rejection is the state error that
    reports it as not active.  A later transfer whose first input is "M:0"
    does get that error. *)
Lemma C3_spent_input_other_message :
  status <$> utxos SampleC3.spent_state !! "M:0" = Some "spent" ∧
  process_transaction Sample.now SampleC3.transfer_missing_first SampleC3.spent_state
    = (SampleC3.spent_state, Return (false, InputNotFound "Z:9", None)) ∧
  process_transaction Sample.now SampleC3.mint_with_input SampleC3.spent_state
    = (SampleC3.spent_state, Return (false, MintMustHaveEmptyInputs, None)) ∧
  process_transaction Sample.now SampleC3.transfer_again SampleC3.spent_state
    = (SampleC3.spent_state, Return (false, InputNotActive "M:0" "spent", None)).
Proof. repeat split; vm_compute; reflexivity. Qed.

(** C3 (amended): once a UTXO is spent, [freeze_utxo] and [unfreeze_utxo]
    fail on it and change nothing, and a call of [process_transaction]
    leaves it spent under its id whenever the transaction creates no output
    under that id, as is the case of every transaction whose tx_id is not
    the one that created the UTXO.  While it is spent, every transaction
    that lists it among its inputs, whatever its type, is rejected with the
    state unchanged; the message is the not-active state error for it when
    the transaction is a TRANSFER or a BURN that passes its schema check
    and the inputs listed before it are found and active. *)
Theorem C3_spent_is_terminal (s : GENUSDEngine) (id : string) (u : UTXO) :
  utxos s !! id = Some u → status u = UTXOStatus_value SPENT →
  (∀ reason, freeze_utxo id reason s = (s, (false, CannotFreezeSpent id))) ∧
  unfreeze_utxo id s = (s, (false, UTXONotFrozen id)) ∧
  (∀ today tx_data tx s' r,
     Transaction_init tx_data = Return tx →
     process_transaction today tx_data s = (s', r) →
     id ∉ created_ids tx → utxos s' !! id = Some u) ∧
  (∀ today tx_data s' r e,
     Transaction_init tx_data = Raise e →
     process_transaction today tx_data s = (s', r) → s' = s) ∧
  (∀ today tx_data tx,
     Transaction_init tx_data = Return tx →
     id ∈ inputs tx →
     ∃ msg, process_transaction today tx_data s = (s, Return (false, msg, None))) ∧
  (∀ today tx_data tx pre post,
     Transaction_init tx_data = Return tx →
     inputs tx = (pre ++ id :: post)%list →
     Forall (λ i, ∃ v, utxos s !! i = Some v ∧ is_active v = true) pre →
     (tx_type tx = TransactionType_value TRANSFER ∧ outputs tx ≠ []) ∨
     (tx_type tx = TransactionType_value BURN ∧ outputs tx = []) →
     process_transaction today tx_data s
       = (s, Return (false, InputNotActive id (UTXOStatus_value SPENT), None))).
Proof.
  intros Hu Hst. repeat split.
  - intros reason. unfold freeze_utxo, get_utxo. rewrite Hu, Hst.
    by rewrite bool_decide_eq_true_2.
  - unfold unfreeze_utxo, get_utxo. rewrite Hu, Hst.
    by rewrite bool_decide_eq_false_2.
  - intros today tx_data tx s' r Hinit Hrun Hnew.
    rewrite (process_transaction_route _ _ _ _ Hinit) in Hrun.
    by eapply route_keeps_spent.
  - intros today tx_data s' r e Hinit Hrun.
    rewrite (malformed_record_rejected _ _ _ _ Hinit) in Hrun. congruence.
  - intros today tx_data tx Hinit Hin.
    rewrite (process_transaction_route _ _ _ _ Hinit).
    by eapply route_rejects_spent_input_any.
  - intros today tx_data tx pre post Hinit Hins Hpre Hty.
    rewrite (process_transaction_route _ _ _ _ Hinit).
    pose proof (resolve_inputs_first_inactive s pre id post u Hpre Hu
                  (spent_not_active u Hst)) as Hres.
    rewrite <-Hins, Hst in Hres. unfold route.
    destruct Hty as [[-> Houts] | [-> Houts]]; simpl.
    + unfold _process_transfer, _validate_transfer_schema. rewrite Hres.
      rewrite Hins. destruct pre; simpl; by destruct (outputs tx).
    + unfold _process_burn, _validate_burn_schema. rewrite Hres.
      rewrite Hins, Houts. by destruct pre.
Qed.

(** ** C5: the ids of UTXOs *)

(** *** The id format determines the transaction id and the position *)










(** *** What a committed transaction does to the map *)

Lemma route_success_utxos today tx s s' msg tid :
  route today tx s = (s', Return (true, msg, tid)) →
  ∃ ins, (ins = [] ∨ ins = inputs tx) ∧
    create_outputs (tx_id tx) (timestamp tx) 0 (outputs tx) (mark_spent ins (utxos s))
      = (utxos s', None).
Proof.
  unfold route, reject. intros H. repeat case_bool_decide.
  - apply process_mint_success in H as (? & ? & ? & ? & ? & ? & ? & ? & ? & ? & H & _).
    exists []. split; [by left|]. exact H.
  - apply process_transfer_success in H
      as (? & ? & ? & ? & ? & ? & ? & ? & ? & ? & ? & ? & ? & ? & H & _).
    exists (inputs tx). split; [by right|]. exact H.
  - apply process_burn_success in H as (? & ? & ? & Houts & ? & ? & ? & ? & H & _).
    exists (inputs tx). split; [by right|]. rewrite Houts, H. reflexivity.
  - discriminate H.
Qed.

(** C5, at the failing input: the MINT "M" stores a UTXO of 1,000,000 owned
    by [alice] under "M:0", and supply and active sum are both 1,000,000.
    A second MINT with the same tx_id, of 500 to [bob], commits: the id
    "M:0" is assigned again, to another UTXO, while the first was still
    active.  The map then holds the one UTXO of 500 owned by [bob], the
    UTXO of [alice] is gone without having been spent, and [total_supply]
    is 1,000,500 against 500 of active UTXOs. *)
Theorem C5_id_reused_by_same_tx_id :
  (λ u, (owner_id u, amount u, status u)) <$> utxos SampleC5.first_minted !! "M:0"
    = Some ("alice", 1000000, "active") ∧
  total_supply SampleC5.first_minted = 1000000 ∧
  sum_active (utxos SampleC5.first_minted) = 1000000 ∧
  process_transaction Sample.now SampleC5.mint_same_id SampleC5.first_minted
    = (SampleC5.second_minted, Return (true, MintSuccessful 1 500, Some "M")) ∧
  (λ u, (owner_id u, amount u, status u)) <$> utxos SampleC5.second_minted !! "M:0"
    = Some ("bob", 500, "active") ∧
  size (utxos SampleC5.second_minted) = 1%nat ∧
  get_balance SampleC5.second_minted "alice" = 0 ∧
  total_supply SampleC5.second_minted = 1000500 ∧
  sum_active (utxos SampleC5.second_minted) = 500.
Proof. repeat split; vm_compute; reflexivity. Qed.

(** The same reuse of a tx_id brings a spent id back: "M:0" is spent by the
    transfer "T" and a later transfer naming it is rejected as not active;
    a second MINT under the tx_id "M" then stores an active UTXO under
    "M:0", and the same later transfer commits. *)
Lemma spent_id_active_after_tx_id_reuse :
  status <$> utxos SampleC3.spent_state !! "M:0" = Some "spent" ∧
  process_transaction Sample.now SampleC3.transfer_again SampleC3.spent_state
    = (SampleC3.spent_state, Return (false, InputNotActive "M:0" "spent", None)) ∧
  snd (process_transaction Sample.now Sample.mint_alice SampleC3.spent_state)
    = Return (true, MintSuccessful 1 1000000, Some "M") ∧
  status <$> utxos SampleC3.reminted_state !! "M:0" = Some "active" ∧
  snd (process_transaction Sample.now SampleC3.transfer_again SampleC3.reminted_state)
    = Return (true, TransferSuccessful 1 1, Some "T2").
Proof. repeat split; vm_compute; reflexivity. Qed.


(** ** C7: conservation of value in a TRANSFER *)

(** C7, counterexample: the input resolves to 1,000,000 and the output is
    999,999, and the transfer, which the owner of the input did not sign, is
    rejected with the message of the signature check. *)
Lemma C7_mismatch_without_signature :
  (∃ us, resolve_inputs SampleC7.before ["M:0"] = inr us ∧
         sum_amounts us = 1000000) ∧
  sum_output_amounts [Sample.output "bob" "GENUSD" 999999] = Return 999999 ∧
  process_transaction Sample.now SampleC7.transfer_short_unsigned SampleC7.before
    = (SampleC7.before, Return (false, MissingOwnerSignature "alice", None)).
Proof.
  split; [|split; vm_compute; reflexivity].
  eexists. split; vm_compute; reflexivity.
Qed.

(** C7 (amended): a TRANSFER commits only if the amounts of its resolved
    inputs and of its outputs have the same sum.  A TRANSFER whose sums
    differ never commits: whatever the call returns or raises, the state is
    unchanged and the result is not a success.  When the two sums can be
    rendered it is rejected, and the message is the conservation error with
    both sums when the checks that come before the comparison pass (schema,
    single owner, owner signature, blacklist). *)
Theorem C7_conservation today tx_data tx s :
  Transaction_init tx_data = Return tx →
  tx_type tx = TransactionType_value TRANSFER →
  (∀ s' msg tid,
     process_transaction today tx_data s = (s', Return (true, msg, tid)) →
     ∃ us total,
       resolve_inputs s (inputs tx) = inr us ∧
       sum_output_amounts (outputs tx) = Return total ∧
       sum_amounts us = total) ∧
  (∀ us total,
     resolve_inputs s (inputs tx) = inr us →
     sum_output_amounts (outputs tx) = Return total →
     sum_amounts us ≠ total →
     (∀ s' r, process_transaction today tx_data s = (s', r) →
              s' = s ∧ ∀ msg tid, r ≠ Return (true, msg, tid)) ∧
     (renders (sum_amounts us) = true → renders total = true →
      ∃ msg,
        process_transaction today tx_data s = (s, Return (false, msg, None)) ∧
        (inputs tx ≠ [] → outputs tx ≠ [] →
         (size (owner_ids us) ≤ 1)%nat →
         (∀ first, head us = Some first →
                   dict_contains (signatures tx) (owner_id first) = true) →
         check_inputs_blacklist (policy_engine s) us = None →
         msg = ConservationViolation (sum_amounts us) total))).
Proof.
  intros Hinit Hty. rewrite (process_transaction_route _ _ _ _ Hinit).
  unfold route. rewrite Hty. simpl. split.
  - intros s' msg tid Hrun.
    apply process_transfer_success in Hrun
      as (first & rest & total & pe & _ & _ & Hres & _ & _ & _ & Hsum & Hcons & _).
    eauto.
  - intros us total Hres Hsum Hne.
    assert ((∃ msg, _process_transfer today tx s = reject msg s ∧
               (inputs tx ≠ [] → outputs tx ≠ [] →
                (size (owner_ids us) ≤ 1)%nat →
                (∀ first, head us = Some first →
                   dict_contains (signatures tx) (owner_id first) = true) →
                check_inputs_blacklist (policy_engine s) us = None → False)) ∨
            _process_transfer today tx s
              = reject_amounts [sum_amounts us; total]
                  (ConservationViolation (sum_amounts us) total) s) as Hcases.
    { unfold _process_transfer, _validate_transfer_schema.
      rewrite Hres, Hsum.
      destruct (inputs tx) as [|i ins] eqn:Hins.
      { left. eexists. split; [reflexivity|]. intros Hno. by destruct Hno. }
      destruct (outputs tx) as [|o outs] eqn:Houts.
      { left. eexists. split; [reflexivity|]. intros _ Hno. by destruct Hno. }
      destruct (1 <? size (owner_ids us))%nat eqn:Hown.
      { left. eexists. split; [reflexivity|]. intros _ _ Hle.
        apply Nat.ltb_lt in Hown. lia. }
      destruct us as [|first rest].
      { simpl in Hres. unfold get_utxo in Hres.
        destruct (utxos s !! i); [|done]. destruct (is_active u); [|done].
        simpl in Hres. destruct (resolve_inputs s ins); done. }
      destruct (dict_contains (signatures tx) (owner_id first)) eqn:Hsig; cbn [negb].
      2:{ left. eexists. split; [reflexivity|]. intros _ _ _ Hfirst.
          specialize (Hfirst first eq_refl). congruence. }
      destruct (check_inputs_blacklist (policy_engine s) (first :: rest)) eqn:Hbl.
      { left. eexists. split; [reflexivity|]. intros _ _ _ _ Hnone.
        discriminate Hnone. }
      assert ((sum_amounts (first :: rest) =? total)%Z = false) as ->
        by by apply Z.eqb_neq.
      cbn [negb]. by right. }
    destruct Hcases as [(msg & Hrun & Hno)|Hrun]; rewrite Hrun.
    + split.
      * intros s' r H. unfold reject in H. simplify_eq. done.
      * intros _ _. exists msg. split; [reflexivity|].
        intros H1 H2 H3 H4 H5. destruct (Hno H1 H2 H3 H4 H5).
    + split.
      * intros s' r H.
        apply reject_amounts_inv in H as [-> [[_ ->]|[_ ->]]]; done.
      * intros Ha Hb. eexists. split; [|done].
        apply reject_amounts_renders. cbn [forallb]. by rewrite Ha, Hb.
Qed.

(** The theorem of C7 at the short transfer of [SampleC7], signed by the
    owner of its input. *)
Lemma C7_conservation_witness :
  process_transaction Sample.now SampleC7.transfer_short SampleC7.before
    = (SampleC7.before, Return (false, ConservationViolation 1000000 999999, None)).
Proof.
  destruct (C7_conservation Sample.now SampleC7.transfer_short
              (Sample.tx "TRANSFER" "T" ["M:0"]
                 [Sample.output "bob" "GENUSD" 999999] ["alice"])
              SampleC7.before eq_refl eq_refl) as [_ Hmis].
  destruct (resolve_inputs SampleC7.before ["M:0"]) as [m|us] eqn:Hres;
    [vm_compute in Hres; discriminate Hres|].
  destruct (Hmis us 999999) as [_ Hrej].
  - exact Hres.
  - reflexivity.
  - vm_compute in Hres. injection Hres as <-. vm_compute. discriminate.
  - vm_compute in Hres. injection Hres as <-.
    destruct Hrej as (msg & Hrun & Hmsg).
    + vm_compute. reflexivity.
    + vm_compute. reflexivity.
    + rewrite Hrun. f_equal. f_equal. f_equal.
      rewrite Hmsg; [reflexivity|discriminate|discriminate|vm_compute; lia|
                     |vm_compute; reflexivity].
      intros first [= <-]. vm_compute. reflexivity.
Defined.

(** The theorem of C3 at the spent "M:0" of [SampleC3]. *)
Lemma C3_spent_is_terminal_witness :
  ∃ u,
    utxos SampleC3.spent_state !! "M:0" = Some u ∧
    status u = UTXOStatus_value SPENT ∧
    unfreeze_utxo "M:0" SampleC3.spent_state
      = (SampleC3.spent_state, (false, UTXONotFrozen "M:0")) ∧
    process_transaction Sample.now SampleC3.transfer_again SampleC3.spent_state
      = (SampleC3.spent_state,
         Return (false, InputNotActive "M:0" (UTXOStatus_value SPENT), None)).
Proof.
  destruct (utxos SampleC3.spent_state !! "M:0") as [u|] eqn:Hu;
    [|vm_compute in Hu; discriminate Hu].
  assert (status u = UTXOStatus_value SPENT) as Hst.
  { vm_compute in Hu. injection Hu as <-. reflexivity. }
  exists u. split; [reflexivity|]. split; [exact Hst|].
  destruct (C3_spent_is_terminal SampleC3.spent_state "M:0" u Hu Hst)
    as (_ & Hunfreeze & _ & _ & _ & Hmsg).
  split; [exact Hunfreeze|].
  apply (Hmsg Sample.now SampleC3.transfer_again
           (Sample.tx "TRANSFER" "T2" ["M:0"]
              [Sample.output "bob" "GENUSD" 1000000] ["alice"]) [] []).
  - reflexivity.
  - reflexivity.
  - constructor.
  - left. split; [reflexivity|discriminate].
Defined.


(** ** C9: who may burn and who may transfer *)

Lemma elem_of_owner_ids us o : o ∈ owner_ids us ↔ ∃ u, u ∈ us ∧ owner_id u = o.
Proof.
  unfold owner_ids. rewrite elem_of_list_to_set, list_elem_of_fmap.
  split; intros (u & H1 & H2); exists u; by split.
Qed.

(** The owner set has at most one element exactly when all the inputs have
    the same owner. *)
Lemma owner_ids_single us :
  (size (owner_ids us) ≤ 1)%nat ↔
  ∀ u v, u ∈ us → v ∈ us → owner_id u = owner_id v.
Proof.
  split.
  - intros Hle u v Hu Hv.
    assert (owner_id u ∈ owner_ids us) as Hou by (apply elem_of_owner_ids; eauto).
    assert (owner_id v ∈ owner_ids us) as Hov by (apply elem_of_owner_ids; eauto).
    assert (size (owner_ids us) ≠ 0%nat) as Hne.
    { rewrite size_non_empty_iff. intros Hemp. rewrite Hemp in Hou.
      by apply not_elem_of_empty in Hou. }
    apply (size_singleton_inv (owner_ids us)); [lia|done|done].
  - intros Hsame. destruct us as [|u rest].
    + change (owner_ids []) with (∅ : gset string). rewrite size_empty. lia.
    + assert (owner_ids (u :: rest) = {[owner_id u]}) as ->.
      { apply set_eq. intros o. rewrite elem_of_owner_ids, elem_of_singleton. split.
        - intros (v & Hv & <-). apply Hsame; [done|apply list_elem_of_here].
        - intros ->. exists u. split; [apply list_elem_of_here|done]. }
      by rewrite size_singleton.
Qed.

Lemma burn_authorized_iff tx us :
  burn_authorized tx us = true ↔
  dict_contains (signatures tx) "issuer" = true ∨
  ∃ u, u ∈ us ∧ dict_contains (signatures tx) (owner_id u) = true.
Proof.
  unfold burn_authorized. rewrite orb_true_iff, existsb_exists. split.
  - intros [H|(o & Hin & Ho)]; [by left|right].
    apply list_elem_of_In, elem_of_elements, elem_of_owner_ids in Hin
      as (u & Hu & <-). eauto.
  - intros [H|(u & Hu & Ho)]; [by left|right].
    exists (owner_id u). split; [|done].
    apply list_elem_of_In, elem_of_elements, elem_of_owner_ids. eauto.
Qed.

(** C9: for a transaction whose inputs resolve to [us], the authorization
    test of BURN holds exactly when the signatures contain the issuer key or
    the identity of the owner of some input, and a BURN with a valid schema
    is turned down by that step exactly when they contain neither, whatever
    the number of distinct owners; a TRANSFER whose
    inputs have two distinct owners is rejected; and a TRANSFER commits only
    if all its inputs have one owner whose identity is among the
    signatures. *)
Theorem C9_authorization today tx_data tx s us :
  Transaction_init tx_data = Return tx →
  resolve_inputs s (inputs tx) = inr us →
  (burn_authorized tx us = true ↔
   dict_contains (signatures tx) "issuer" = true ∨
   ∃ u, u ∈ us ∧ dict_contains (signatures tx) (owner_id u) = true) ∧
  (tx_type tx = TransactionType_value BURN → inputs tx ≠ [] → outputs tx = [] →
     (process_transaction today tx_data s
        = (s, Return (false, BurnRequiresSignature, None)) ↔
      ¬ (dict_contains (signatures tx) "issuer" = true ∨
         ∃ u, u ∈ us ∧ dict_contains (signatures tx) (owner_id u) = true))) ∧
  (tx_type tx = TransactionType_value TRANSFER →
     ((∃ u v, u ∈ us ∧ v ∈ us ∧ owner_id u ≠ owner_id v) →
        ∃ msg, process_transaction today tx_data s = (s, Return (false, msg, None))) ∧
     (∀ s' msg tid,
        process_transaction today tx_data s = (s', Return (true, msg, tid)) →
        ∃ owner, us ≠ [] ∧ (∀ u, u ∈ us → owner_id u = owner) ∧
                 dict_contains (signatures tx) owner = true)).
Proof.
  intros Hinit Hres. rewrite (process_transaction_route _ _ _ _ Hinit).
  unfold route. split; [apply burn_authorized_iff|]. split.
  - intros -> Hins Houts. simpl.
    unfold _process_burn, reject, _validate_burn_schema.
    rewrite Hres, Houts. destruct (inputs tx) as [|i ins]; [done|].
    rewrite <-burn_authorized_iff.
    destruct (burn_authorized tx us); cbn [negb].
    + split; [|done]. intros H.
      destruct (policies (policy_engine s) !! policy_ref tx); [|discriminate H].
      destruct (_ <? _)%Z.
      * apply reject_amounts_inv in H as [_ [[_ H]|[_ H]]]; discriminate H.
      * injection H as _ H.
        apply succeed_amounts_inv in H as [[_ H]|[_ H]]; discriminate H.
    + split; [|done]. intros _. discriminate.
  - intros ->. simpl. split.
    + intros (u & v & Hu & Hv & Hne).
      unfold _process_transfer, reject. rewrite Hres.
      destruct (_validate_transfer_schema tx) as [[] m]; [|eauto].
      assert ((1 <? size (owner_ids us))%nat = true) as ->; [|eauto].
      apply Nat.ltb_lt.
      destruct (decide (size (owner_ids us) ≤ 1)%nat) as [Hle|]; [|lia].
      destruct Hne. by apply (owner_ids_single us).
    + intros s' msg tid Hrun.
      apply process_transfer_success in Hrun
        as (first & rest & total & pe & _ & _ & Hres' & Hle & Hsig & _).
      rewrite Hres in Hres'. injection Hres' as ->.
      exists (owner_id first). split; [done|]. split; [|done].
      intros u Hu. apply (owner_ids_single (first :: rest)); [done|done|].
      apply list_elem_of_here.
Qed.

(** The theorem of C9 at the two transactions of [SampleC9], whose inputs
    belong to [alice] and to [bob]: the BURN signed by [bob] alone commits,
    and the TRANSFER signed by both is rejected. *)
Lemma C9_authorization_witness :
  snd (process_transaction Sample.now (Transaction_to_dict SampleC9.burn_mixed)
         SampleC9.before)
    = Return (true, BurnSuccessful 2 1200000, Some "B") ∧
  process_transaction Sample.now (Transaction_to_dict SampleC9.burn_mixed)
    SampleC9.before
    ≠ (SampleC9.before, Return (false, BurnRequiresSignature, None)) ∧
  ∃ msg, process_transaction Sample.now (Transaction_to_dict SampleC9.transfer_mixed)
           SampleC9.before
         = (SampleC9.before, Return (false, msg, None)).
Proof.
  destruct (resolve_inputs SampleC9.before ["M:0"; "N:0"]) as [m|us] eqn:Hres;
    [vm_compute in Hres; discriminate Hres|].
  split; [vm_compute; reflexivity|]. split.
  - destruct (C9_authorization Sample.now (Transaction_to_dict SampleC9.burn_mixed)
                SampleC9.burn_mixed SampleC9.before us eq_refl Hres)
      as (_ & Hburn & _).
    intros Hrej. apply (Hburn eq_refl) in Hrej; [|discriminate|reflexivity].
    apply Hrej. right.
    vm_compute in Hres. injection Hres as <-.
    eexists. split; [apply list_elem_of_further, list_elem_of_here|].
    vm_compute. reflexivity.
  - destruct (C9_authorization Sample.now
                (Transaction_to_dict SampleC9.transfer_mixed)
                SampleC9.transfer_mixed SampleC9.before us eq_refl Hres)
      as (_ & _ & Htransfer).
    destruct (Htransfer eq_refl) as [Hmixed _]. apply Hmixed.
    vm_compute in Hres. injection Hres as <-.
    eexists _, _. split; [apply list_elem_of_here|].
    split; [apply list_elem_of_further, list_elem_of_here|].
    vm_compute. discriminate.
Defined.

(** ** C8: the validation of an output *)

Lemma find_none_forall {A} (f : A → bool) (l : list A) :
  find f l = None ↔ ∀ x, x ∈ l → f x = false.
Proof.
  induction l as [|a l IH]; simpl.
  - split; [|done]. intros _ x Hx. by apply elem_of_nil in Hx.
  - destruct (f a) eqn:Hfa.
    + split; [done|]. intros H. rewrite (H a) in Hfa; [done|apply list_elem_of_here].
    + rewrite IH. split.
      * intros H x [->|Hx]%elem_of_cons; auto.
      * intros H x Hx. apply H. by apply list_elem_of_further.
Qed.

Lemma required_all_present out :
  find (λ field, negb (UTXODict_contains out field)) required = None ↔
  ∀ field, field ∈ required → UTXODict_contains out field = true.
Proof.
  rewrite find_none_forall. split; intros H x Hx.
  - apply negb_false_iff. by apply H.
  - apply negb_false_iff. by apply H.
Qed.

Lemma KYCLevel_of_value_cases tag :
  KYCLevel_of_value tag = None ∨ ∃ lvl, KYCLevel_of_value tag = Some lvl.
Proof. destruct (KYCLevel_of_value tag); eauto. Qed.

(** The validation accepts an output exactly when it is well formed. *)
Lemma validate_output_accepts_iff pe out :
  output_accepted pe out ↔ output_well_formed pe out.
Proof.
  unfold output_accepted, output_well_formed, _validate_output, getitem,
    validate_jurisdiction.
  split.
  - intros [msg H].
    destruct (find _ required) eqn:Hreq; [discriminate H|].
    split; [exact (proj1 (required_all_present out) Hreq)|].
    destruct (d_asset_code out) as [ac|]; [|discriminate H].
    case_bool_decide as Hac; cbn [negb] in H; [subst ac|discriminate H].
    split; [reflexivity|].
    destruct (d_amount out) as [amt|]; [|discriminate H].
    destruct (amt <=? 0)%Z eqn:Hpos; [discriminate H|].
    destruct (amt >? MAX_UTXO_AMOUNT)%Z eqn:Hmax; [discriminate H|].
    split.
    { exists amt. split; [reflexivity|].
      apply Z.leb_gt in Hpos. rewrite Z.gtb_ltb in Hmax. apply Z.ltb_ge in Hmax.
      lia. }
    destruct (d_status out) as [st|]; [|discriminate H].
    case_bool_decide as Hst; cbn [negb] in H; [subst st|discriminate H].
    split; [reflexivity|].
    destruct (d_kyc_tag out) as [tag|]; [|discriminate H].
    destruct (KYCLevel_of_value tag) as [lvl|] eqn:Hlvl; [|discriminate H].
    split.
    { exists tag, lvl. split; [reflexivity|]. split; [exact Hlvl|].
      intros ->. cbn in H. discriminate H. }
    destruct (d_metadata out) as [md|]; [|by destruct lvl].
    destruct (md_jurisdiction md) as [j|] eqn:Hmd; [|by destruct lvl].
    exists md, j. split; [reflexivity|]. split; [exact Hmd|].
    case_bool_decide as Hj; [exact Hj|]. by destruct lvl.
  - intros (Hreq & -> & (amt & -> & Hamt) & -> & (tag & lvl & -> & Hlvl & Hne) &
            (md & j & -> & Hj & Hin)).
    exists EmptyMessage.
    rewrite (proj2 (required_all_present out) Hreq).
    rewrite bool_decide_eq_true_2 by reflexivity. cbn [negb].
    assert ((amt <=? 0)%Z = false) as -> by (apply Z.leb_gt; lia).
    assert ((amt >? MAX_UTXO_AMOUNT)%Z = false) as ->
      by (rewrite Z.gtb_ltb; apply Z.ltb_ge; lia).
    rewrite bool_decide_eq_true_2 by reflexivity. cbn [negb].
    rewrite Hlvl, Hj. rewrite (bool_decide_eq_true_2 _ Hin). cbn [negb].
    by destruct lvl.
Qed.

(** An accepted output is accepted with the empty message. *)
Lemma validate_output_true pe out idx msg :
  _validate_output pe out idx = Return (true, msg) → output_accepted pe out.
Proof. intros H. by exists msg. Qed.

(** *** The validation loops *)

Lemma validate_outputs_none pe idx outs :
  validate_outputs pe idx outs = Return None → Forall (output_accepted pe) outs.
Proof.
  revert idx. induction outs as [|out outs IH]; intros idx; simpl; [by constructor|].
  destruct (_validate_output pe out idx) as [[[] msg]|e] eqn:Hout; try done.
  intros H. constructor; [by eapply validate_output_true|by eapply IH].
Qed.

Lemma validate_transfer_outputs_none pe idx outs :
  validate_transfer_outputs pe idx outs = Return None →
  Forall (output_accepted pe) outs.
Proof.
  revert idx. induction outs as [|out outs IH]; intros idx; simpl; [by constructor|].
  destruct (_validate_output pe out idx) as [[[] msg]|e] eqn:Hout; try done.
  destruct (getitem "owner_id" (d_owner_id out)) as [r|]; [|done].
  destruct (kyc_falsy _); [done|]. destruct (is_blacklisted _ _); [done|].
  intros H. constructor; [by eapply validate_output_true|by eapply IH].
Qed.








(** ** Where supply and active UTXOs do agree *)

(** What a UTXO contributes to the active sum. *)
Lemma sum_active_insert_fresh (m : gmap string UTXO) id u :
  m !! id = None →
  sum_active (<[id := u]> m)
  = ((if is_active u then amount u else 0) + sum_active m)%Z.
Proof.
  intros Hnone. unfold sum_active.
  rewrite map_fold_insert_L; [by destruct (is_active u)| |done].
  intros j1 j2 z1 z2 y _ _ _.
  destruct (is_active z1), (is_active z2); lia.
Qed.

Lemma sum_active_insert_present (m : gmap string UTXO) id u u' :
  m !! id = Some u →
  sum_active (<[id := u']> m)
  = (sum_active m - (if is_active u then amount u else 0)
     + (if is_active u' then amount u' else 0))%Z.
Proof.
  intros Hu.
  assert (delete id m !! id = None) as Hnone by apply lookup_delete_eq.
  assert (m = <[id := u]> (delete id m)) as Hm
    by (symmetry; by apply insert_delete_id).
  rewrite Hm at 1 2. rewrite insert_insert_eq.
  rewrite !sum_active_insert_fresh by exact Hnone. lia.
Qed.

Lemma resolve_inputs_Forall2 s ids us :
  resolve_inputs s ids = inr us →
  Forall2 (λ id u, utxos s !! id = Some u ∧ is_active u = true) ids us.
Proof.
  revert us. induction ids as [|id ids IH]; intros us; simpl.
  - intros [= <-]. constructor.
  - unfold get_utxo. destruct (utxos s !! id) as [u|] eqn:Hu; [|done].
    destruct (is_active u) eqn:Hact; [|done]. simpl.
    destruct (resolve_inputs s ids) as [|us'] eqn:Hres; [done|].
    intros [= <-]. constructor; [done|]. by apply IH.
Qed.

Lemma alter_as_insert (f : UTXO → UTXO) (m : gmap string UTXO) id u :
  m !! id = Some u → alter f id m = <[id := f u]> m.
Proof.
  intros Hu. apply map_eq. intros j. destruct (decide (id = j)) as [->|Hne].
  - by rewrite lookup_alter_eq, lookup_insert_eq, Hu.
  - by rewrite lookup_alter_ne, lookup_insert_ne.
Qed.

Lemma is_active_set_spent u :
  is_active (set_status (UTXOStatus_value SPENT) u) = false.
Proof. reflexivity. Qed.

Lemma sum_amounts_cons u us : sum_amounts (u :: us) = (amount u + sum_amounts us)%Z.
Proof. reflexivity. Qed.

(** Marking distinct active inputs as spent lowers the active sum by their
    amounts. *)
Lemma sum_active_mark_spent ids us (m : gmap string UTXO) :
  NoDup ids →
  Forall2 (λ id u, m !! id = Some u ∧ is_active u = true) ids us →
  sum_active (mark_spent ids m) = (sum_active m - sum_amounts us)%Z.
Proof.
  intros Hnd. revert us m.
  induction Hnd as [|id ids Hnin Hnd IH]; intros us m Hall.
  - inversion Hall; subst. unfold mark_spent, sum_amounts. simpl. lia.
  - inversion Hall as [|? u ? us' [Hu Hact] Hrest]; subst.
    change (mark_spent (id :: ids) m)
      with (mark_spent ids (alter (set_status (UTXOStatus_value SPENT)) id m)).
    rewrite (IH us').
    + rewrite (alter_as_insert _ _ _ _ Hu).
      rewrite (sum_active_insert_present _ _ _ _ Hu), Hact.
      rewrite is_active_set_spent, sum_amounts_cons.
      change (amount (set_status (UTXOStatus_value SPENT) u)) with (amount u). lia.
    + clear IH Hall. induction Hrest as [|i v ids' vs [Hv Hvact] Hrest IH']; [constructor|].
      apply not_elem_of_cons in Hnin as [Hne Hnin].
      apply NoDup_cons in Hnd as [_ Hnd].
      constructor; [|by apply IH'].
      split; [|done]. by rewrite lookup_alter_ne.
Qed.

Lemma create_utxo_accepted pe id out ts u :
  output_accepted pe out → _create_utxo id out ts = Return u →
  is_active u = true ∧ d_amount out = Some (amount u).
Proof.
  intros Hacc Hu. apply validate_output_accepts_iff in Hacc
    as (_ & _ & (amt & Hamt & _) & Hst & _).
  unfold _create_utxo, getitem in Hu. rewrite Hamt, Hst in Hu.
  repeat case_match; simplify_eq; done.
Qed.

(** Creating accepted outputs under fresh ids raises the active sum by their
    total. *)
Lemma sum_active_create_outputs pe tid ts idx outs (m m' : gmap string UTXO) total :
  create_outputs tid ts idx outs m = (m', None) →
  (∀ id, id ∈ ids_from tid idx outs → m !! id = None) →
  Forall (output_accepted pe) outs →
  sum_output_amounts outs = Return total →
  sum_active m' = (sum_active m + total)%Z.
Proof.
  revert idx m total.
  induction outs as [|out outs IH]; intros idx m total Hcre Hfresh Hacc Hsum.
  - simpl in Hcre, Hsum. injection Hcre as <-. injection Hsum as <-. lia.
  - simpl in Hcre, Hsum. apply Forall_cons in Hacc as [Hout Hacc].
    destruct (_create_utxo (output_utxo_id tid idx) out ts) as [u|e] eqn:Hu;
      [|discriminate Hcre].
    destruct (create_utxo_accepted _ _ _ _ _ Hout Hu) as [Hact Hamt].
    rewrite Hamt in Hsum. simpl in Hsum.
    destruct (sum_output_amounts outs) as [rest|] eqn:Hrest; [|discriminate Hsum].
    injection Hsum as <-.
    rewrite (IH _ _ rest Hcre); [| |done|done].
    + rewrite sum_active_insert_fresh, Hact; [lia|].
      apply Hfresh. rewrite ids_from_cons. apply list_elem_of_here.
    + intros id Hid. rewrite lookup_insert_ne.
      * apply Hfresh. rewrite ids_from_cons. by apply list_elem_of_further.
      * intros <-. apply elem_of_ids_from in Hid as (i & _ & Hi).
        apply output_utxo_id_idx_inj in Hi. lia.
Qed.

(** From a state where [total_supply] is the active sum, a committed
    transaction whose inputs are pairwise distinct and whose outputs get ids
    that are not in the map leads to such a state again. *)
Lemma conservation_preserved today tx s s' msg tid :
  total_supply s = sum_active (utxos s) →
  NoDup (inputs tx) →
  (∀ id, id ∈ created_ids tx → utxos s !! id = None) →
  route today tx s = (s', Return (true, msg, tid)) →
  total_supply s' = sum_active (utxos s').
Proof.
  intros Hinv Hnd Hfresh. rewrite created_ids_from in Hfresh.
  unfold route, reject. intros H. repeat case_bool_decide.
  - apply process_mint_success in H
      as (total & policy & _ & _ & _ & Hsum & _ & _ & _ & Hval & Hcre & _ & Hsup & _).
    apply validate_outputs_none in Hval.
    rewrite Hsup, (sum_active_create_outputs _ _ _ _ _ _ _ _ Hcre Hfresh Hval Hsum).
    lia.
  - apply process_transfer_success in H
      as (first & rest & total & pe & _ & _ & Hres & _ & _ & _ & Hsum & Hcons &
          Hval & _ & Hcre & _ & Hsup & _).
    apply validate_transfer_outputs_none in Hval.
    apply resolve_inputs_Forall2 in Hres.
    assert (∀ id, id ∈ ids_from (tx_id tx) 0 (outputs tx) →
                  mark_spent (inputs tx) (utxos s) !! id = None) as Hfresh'.
    { intros id Hid. rewrite lookup_mark_spent, (Hfresh id Hid). by case_decide. }
    rewrite Hsup, (sum_active_create_outputs _ _ _ _ _ _ _ _ Hcre Hfresh' Hval Hsum).
    rewrite (sum_active_mark_spent _ _ _ Hnd Hres). lia.
  - apply process_burn_success in H
      as (us & policy & _ & _ & Hres & _ & _ & _ & Hut & _ & Hsup & _).
    apply resolve_inputs_Forall2 in Hres.
    rewrite Hsup, Hut, (sum_active_mark_spent _ _ _ Hnd Hres). lia.
  - discriminate H.
Qed.

(** ** Admin operations *)

Lemma set_utxos_id s : set_utxos (utxos s) s = s.
Proof. by destruct s. Qed.

(** X1: Freezing an unspent UTXO and unfreezing it again both succeed and leave
    it active with no freeze reason, the rest of the engine as it was; when
    it was active with no freeze reason, the engine is back in its state. *)
Theorem freeze_unfreeze_roundtrip s id reason u :
  utxos s !! id = Some u → status u ≠ UTXOStatus_value SPENT →
  ∃ s1,
    freeze_utxo id reason s = (s1, (true, UTXOFrozen id)) ∧
    unfreeze_utxo id s1
      = (set_utxos (<[id := set_freeze_reason None
                              (set_status (UTXOStatus_value ACTIVE) u)]> (utxos s)) s,
         (true, UTXOUnfrozen id)) ∧
    (status u = UTXOStatus_value ACTIVE → freeze_reason (metadata u) = None →
     unfreeze_utxo id s1 = (s, (true, UTXOUnfrozen id))).
Proof.
  intros Hu Hst. eexists. split.
  { unfold freeze_utxo, get_utxo. rewrite Hu.
    by rewrite bool_decide_eq_false_2. }
  assert (unfreeze_utxo id
            (set_utxos (<[id := set_freeze_reason (Some reason)
                                   (set_status (UTXOStatus_value FROZEN) u)]> (utxos s)) s)
          = (set_utxos (<[id := set_freeze_reason None
                                  (set_status (UTXOStatus_value ACTIVE) u)]> (utxos s)) s,
             (true, UTXOUnfrozen id))) as Hunf.
  { unfold unfreeze_utxo, get_utxo. cbn [utxos set_utxos].
    rewrite lookup_insert_eq.
    rewrite bool_decide_eq_true_2 by reflexivity. cbn [negb].
    unfold set_utxos. cbn [utxos transactions total_supply verified_reserves
                           policy_engine].
    by rewrite insert_insert_eq. }
  split; [exact Hunf|].
  intros Hact Hnone. rewrite Hunf. f_equal.
  rewrite insert_id; [apply set_utxos_id|].
  rewrite Hu. f_equal.
  destruct u as [? ? ? ? st ? ? [? ? fr ? ?]]. simpl in *. by subst.
Qed.

(** The theorem at the UTXO "M:0" of [SampleX]. *)
Lemma freeze_unfreeze_roundtrip_witness :
  unfreeze_utxo "M:0" SampleX.frozen = (SampleX.minted, (true, UTXOUnfrozen "M:0")).
Proof.
  destruct (utxos SampleX.minted !! "M:0") as [u|] eqn:Hu;
    [|vm_compute in Hu; discriminate Hu].
  assert (status u = UTXOStatus_value ACTIVE ∧ freeze_reason (metadata u) = None)
    as [Hact Hnone].
  { vm_compute in Hu. injection Hu as <-. split; reflexivity. }
  destruct (freeze_unfreeze_roundtrip SampleX.minted "M:0" "AML investigation" u Hu)
    as (s1 & Hfr & _ & Hback).
  { rewrite Hact. discriminate. }
  unfold SampleX.frozen. rewrite Hfr. exact (Hback Hact Hnone).
Defined.

(** X2: The two admin operations refuse what they should: an id that is not in
    the map, a spent UTXO for [freeze_utxo], a UTXO that is not frozen for
    [unfreeze_utxo]; a refusal changes nothing. *)
Theorem freeze_unfreeze_refusals s id reason :
  (utxos s !! id = None →
     freeze_utxo id reason s = (s, (false, UTXONotFound id)) ∧
     unfreeze_utxo id s = (s, (false, UTXONotFound id))) ∧
  (∀ s' msg, freeze_utxo id reason s = (s', (false, msg)) → s' = s) ∧
  (∀ s' msg, unfreeze_utxo id s = (s', (false, msg)) → s' = s) ∧
  (∀ s' msg, unfreeze_utxo id s = (s', (true, msg)) →
     ∃ u, utxos s !! id = Some u ∧ status u = UTXOStatus_value FROZEN) ∧
  (∀ s' msg, freeze_utxo id reason s = (s', (true, msg)) →
     ∃ u, utxos s !! id = Some u ∧ status u ≠ UTXOStatus_value SPENT ∧
          ∃ u', utxos s' !! id = Some u' ∧
                status u' = UTXOStatus_value FROZEN ∧
                freeze_reason (metadata u') = Some reason ∧
                amount u' = amount u ∧ owner_id u' = owner_id u).
Proof.
  unfold freeze_utxo, unfreeze_utxo, get_utxo. split; [|split; [|split; [|split]]].
  - by intros ->.
  - intros s' msg H. destruct (utxos s !! id); [|congruence].
    case_bool_decide; congruence.
  - intros s' msg H. destruct (utxos s !! id); [|congruence].
    case_bool_decide; simpl in H; congruence.
  - intros s' msg H. destruct (utxos s !! id) as [u|]; [|congruence].
    case_bool_decide; simpl in H; [|congruence]. eauto.
  - intros s' msg H. destruct (utxos s !! id) as [u|]; [|congruence].
    case_bool_decide as Hst; [congruence|]. injection H as <- _.
    exists u. split; [done|]. split; [done|].
    eexists. split; [apply lookup_insert_eq|]. done.
Qed.

(** ** What [process_transaction] never touches *)

Lemma check_daily_limit_frame today owner amt pe pe' r :
  check_daily_limit today owner amt pe = (pe', r) →
  policies pe' = policies pe ∧ blacklist pe' = blacklist pe ∧
  allowed_jurisdictions pe' = allowed_jurisdictions pe ∧
  kyc_registry pe' = kyc_registry pe.
Proof.
  intros H. by apply check_daily_limit_state in H as [->|[_ ->]].
Qed.

Lemma process_mint_frame tx s s' r :
  _process_mint tx s = (s', r) →
  verified_reserves s' = verified_reserves s ∧ policy_engine s' = policy_engine s ∧
  ((∀ msg tid, r ≠ Return (true, msg, tid)) → r ≠ Raise OverflowError →
   transactions s' = transactions s ∧ total_supply s' = total_supply s).
Proof.
  unfold _process_mint, reject_amounts, succeed_amounts, format_amounts, reject.
  intros H.
  repeat case_match; simplify_eq; simpl; repeat split; try done;
    match goal with
    | Hno : ∀ _ _, _ ≠ _ |- _ => by destruct (Hno _ _ eq_refl)
    end.
Qed.

Lemma process_burn_frame tx s s' r :
  _process_burn tx s = (s', r) →
  verified_reserves s' = verified_reserves s ∧ policy_engine s' = policy_engine s ∧
  ((∀ msg tid, r ≠ Return (true, msg, tid)) → r ≠ Raise OverflowError →
   transactions s' = transactions s ∧ total_supply s' = total_supply s ∧
   utxos s' = utxos s).
Proof.
  unfold _process_burn, reject_amounts, succeed_amounts, format_amounts, reject.
  intros H.
  repeat case_match; simplify_eq; simpl; repeat split; try done;
    match goal with
    | Hno : ∀ _ _, _ ≠ _ |- _ => by destruct (Hno _ _ eq_refl)
    end.
Qed.

Lemma process_transfer_frame today tx s s' r :
  _process_transfer today tx s = (s', r) →
  verified_reserves s' = verified_reserves s ∧
  total_supply s' = total_supply s ∧
  policies (policy_engine s') = policies (policy_engine s) ∧
  blacklist (policy_engine s') = blacklist (policy_engine s) ∧
  allowed_jurisdictions (policy_engine s') = allowed_jurisdictions (policy_engine s) ∧
  kyc_registry (policy_engine s') = kyc_registry (policy_engine s) ∧
  ((∀ msg tid, r ≠ Return (true, msg, tid)) → transactions s' = transactions s).
Proof.
  unfold _process_transfer, reject_amounts, reject. intros H.
  repeat case_match; simplify_eq; simpl;
    try match goal with
        | Hc : check_daily_limit _ _ _ _ = _ |- _ =>
            apply check_daily_limit_frame in Hc as (? & ? & ? & ?)
        end;
    repeat split; try done;
    try intros Hno;
    match goal with
    | Hno : ∀ _ _, _ ≠ _ |- _ => by destruct (Hno _ _ eq_refl)
    end.
Qed.

Lemma process_transaction_frame_lemma today tx_data s s' r :
  process_transaction today tx_data s = (s', r) →
  verified_reserves s' = verified_reserves s ∧
  policies (policy_engine s') = policies (policy_engine s) ∧
  blacklist (policy_engine s') = blacklist (policy_engine s) ∧
  allowed_jurisdictions (policy_engine s') = allowed_jurisdictions (policy_engine s) ∧
  kyc_registry (policy_engine s') = kyc_registry (policy_engine s) ∧
  ((∀ msg tid, r ≠ Return (true, msg, tid)) → r ≠ Raise OverflowError →
   transactions s' = transactions s ∧ total_supply s' = total_supply s).
Proof.
  unfold process_transaction, route, reject. intros H.
  destruct (Transaction_init tx_data) as [tx|e]; [|by simplify_eq].
  repeat case_bool_decide.
  - apply process_mint_frame in H as (-> & -> & Hno).
    repeat split; try done; by apply Hno.
  - apply process_transfer_frame in H as (-> & Hs & -> & -> & -> & -> & Hno).
    repeat split; try done. by apply Hno.
  - apply process_burn_frame in H as (-> & -> & Hno).
    repeat split; try done; by apply Hno.
  - by simplify_eq.
Qed.


(** X3: Whatever its result (commit, rejection or exception), a call of
    [process_transaction] leaves [verified_reserves], the policies, the
    blacklist, the allowed jurisdictions and the KYC registry as they were.
    It leaves the transaction log and [total_supply] as they were when it
    returns a rejection and when it raises an exception other than
    [OverflowError]; a MINT or a BURN can raise [OverflowError] on its
    success message, after the log and the supply have been updated. *)
Theorem process_transaction_frame today tx_data s s' r :
  process_transaction today tx_data s = (s', r) →
  verified_reserves s' = verified_reserves s ∧
  policies (policy_engine s') = policies (policy_engine s) ∧
  blacklist (policy_engine s') = blacklist (policy_engine s) ∧
  allowed_jurisdictions (policy_engine s') = allowed_jurisdictions (policy_engine s) ∧
  kyc_registry (policy_engine s') = kyc_registry (policy_engine s) ∧
  ((∀ msg tid, r ≠ Return (true, msg, tid)) → r ≠ Raise OverflowError →
   transactions s' = transactions s ∧ total_supply s' = total_supply s).
Proof. apply process_transaction_frame_lemma. Qed.

(** The theorem at the MINT of [SampleC4], which raises. *)
Lemma process_transaction_frame_witness :
  ∃ s' r,
    process_transaction Sample.now SampleC4.mint_empty_output Sample.engine = (s', r) ∧
    verified_reserves s' = 100000000 ∧ total_supply s' = 0.
Proof.
  destruct (process_transaction Sample.now SampleC4.mint_empty_output Sample.engine)
    as [s' r] eqn:Hrun.
  exists s', r. split; [reflexivity|].
  destruct (process_transaction_frame _ _ _ _ _ Hrun) as (Hres & _ & _ & _ & _ & Hno).
  split; [by rewrite Hres|].
  destruct Hno as [_ Hsup]; [| |by rewrite Hsup].
  - intros msg tid ->. vm_compute in Hrun. discriminate Hrun.
  - intros ->. vm_compute in Hrun. discriminate Hrun.
Defined.

(** ** The shape of the UTXO map *)

Lemma process_mint_utxos tx s s' r :
  _process_mint tx s = (s', r) →
  utxos s' = utxos s ∨
  (Forall (output_accepted (policy_engine s)) (outputs tx) ∧
   ∃ e, create_outputs (tx_id tx) (timestamp tx) 0 (outputs tx) (utxos s)
          = (utxos s', e)).
Proof.
  unfold _process_mint, reject_amounts, reject. intros H.
  repeat case_match; simplify_eq; simpl; try (by left);
    right; (split; [by eapply validate_outputs_none|by eauto]).
Qed.

Lemma process_transfer_utxos today tx s s' r :
  _process_transfer today tx s = (s', r) →
  utxos s' = utxos s ∨
  (Forall (output_accepted (policy_engine s)) (outputs tx) ∧
   ∃ e, create_outputs (tx_id tx) (timestamp tx) 0 (outputs tx)
          (mark_spent (inputs tx) (utxos s)) = (utxos s', e)).
Proof.
  unfold _process_transfer, reject_amounts, reject. intros H.
  repeat case_match; simplify_eq; simpl; try (by left);
    right; (split; [by eapply validate_transfer_outputs_none|by eauto]).
Qed.

Lemma process_burn_utxos tx s s' r :
  _process_burn tx s = (s', r) →
  utxos s' = utxos s ∨ utxos s' = mark_spent (inputs tx) (utxos s).
Proof.
  unfold _process_burn, reject_amounts, reject. intros H.
  repeat case_match; simplify_eq; simpl; eauto.
Qed.

Lemma create_outputs_is_Some tid ts idx outs (m m' : gmap string UTXO) r id :
  create_outputs tid ts idx outs m = (m', r) →
  is_Some (m !! id) → is_Some (m' !! id).
Proof.
  revert idx m. induction outs as [|out outs IH]; intros idx m; simpl.
  - by intros [= <- _].
  - destruct (_create_utxo _ out ts) as [u|e]; [|by intros [= <- _]].
    intros H Hm. apply (IH _ _ H). rewrite lookup_insert_is_Some. 
    destruct (decide (output_utxo_id tid idx = id)); auto.
Qed.

Lemma mark_spent_is_Some ids (m : gmap string UTXO) id :
  is_Some (m !! id) → is_Some (mark_spent ids m !! id).
Proof.
  intros [u Hu]. rewrite lookup_mark_spent, Hu. case_decide; eauto.
Qed.

(** X4: A UTXO is never deleted: an id that is in the map before a call of
    [process_transaction] or of an admin operation is in the map after it,
    whatever the result. *)
Theorem utxo_never_deleted s id :
  is_Some (utxos s !! id) →
  (∀ today tx_data s' r,
     process_transaction today tx_data s = (s', r) → is_Some (utxos s' !! id)) ∧
  (∀ id' reason, is_Some (utxos (freeze_utxo id' reason s).1 !! id)) ∧
  (∀ id', is_Some (utxos (unfreeze_utxo id' s).1 !! id)) ∧
  (∀ amt, is_Some (utxos (set_verified_reserves amt s) !! id)).
Proof.
  intros Hid. split; [|split; [|split]].
  - intros today tx_data s' r. unfold process_transaction, route, reject.
    destruct (Transaction_init tx_data) as [tx|e]; [|by intros [= <- _]].
    repeat case_bool_decide; intros Hrun.
    + apply process_mint_utxos in Hrun as [->|[_ [e He]]]; [done|].
      by eapply create_outputs_is_Some.
    + apply process_transfer_utxos in Hrun as [->|[_ [e He]]]; [done|].
      eapply create_outputs_is_Some; [exact He|]. by apply mark_spent_is_Some.
    + apply process_burn_utxos in Hrun as [-> | ->]; [done|].
      by apply mark_spent_is_Some.
    + by simplify_eq.
  - intros id' reason. unfold freeze_utxo, get_utxo.
    destruct (utxos s !! id') as [u|]; [|done].
    case_bool_decide; [done|]. simpl. rewrite lookup_insert_is_Some.
    destruct (decide (id' = id)); auto.
  - intros id'. unfold unfreeze_utxo, get_utxo.
    destruct (utxos s !! id') as [u|]; [|done].
    case_bool_decide; simpl; [|done]. rewrite lookup_insert_is_Some.
    destruct (decide (id' = id)); auto.
  - done.
Qed.

(** The theorem at "M:0" and the transfer of [Sample]. *)
Lemma utxo_never_deleted_witness :
  is_Some (utxos (Sample.after [Sample.mint_alice; Sample.transfer_alice]
                    Sample.engine) !! "M:0").
Proof.
  assert (is_Some (utxos (Sample.after [Sample.mint_alice] Sample.engine) !! "M:0"))
    as Hin by (vm_compute; eauto).
  destruct (utxo_never_deleted _ _ Hin) as [Hkeep _].
  apply (Hkeep Sample.now Sample.transfer_alice _
           (snd (process_transaction Sample.now Sample.transfer_alice
                   (Sample.after [Sample.mint_alice] Sample.engine)))).
  apply surjective_pairing.
Defined.

Lemma create_utxo_ok pe id out ts u :
  output_accepted pe out → _create_utxo id out ts = Return u → utxo_ok id u.
Proof.
  intros Hacc Hu. apply validate_output_accepts_iff in Hacc
    as (_ & Hac & (amt & Hamt & Hbound) & Hst & _).
  unfold _create_utxo, getitem in Hu. rewrite Hac, Hamt, Hst in Hu.
  repeat case_match; simplify_eq.
  repeat split; simpl; try done; try lia. by exists ACTIVE.
Qed.

Lemma set_status_ok id u st :
  utxo_ok id u → utxo_ok id (set_status (UTXOStatus_value st) u).
Proof.
  intros (Hid & _ & Hac & Hamt). repeat split; simpl; try done; try lia.
  by exists st.
Qed.

Lemma create_outputs_store_ok pe tid ts idx outs (m m' : gmap string UTXO) r :
  Forall (output_accepted pe) outs → store_ok m →
  create_outputs tid ts idx outs m = (m', r) → store_ok m'.
Proof.
  intros Hacc. revert idx m.
  induction Hacc as [|out outs Hout _ IH]; intros idx m Hm; simpl.
  - by intros [= <- _].
  - destruct (_create_utxo _ out ts) as [u|e] eqn:Hu; [|by intros [= <- _]].
    apply IH. intros id v. rewrite lookup_insert.
    case_decide as Heq; [|by apply Hm].
    intros [= <-]. subst id. by eapply create_utxo_ok.
Qed.

Lemma mark_spent_store_ok ids (m : gmap string UTXO) :
  store_ok m → store_ok (mark_spent ids m).
Proof.
  intros Hm id v. rewrite lookup_mark_spent. case_decide; [|by apply Hm].
  destruct (m !! id) as [u|] eqn:Hu; [|done]. intros [= <-].
  apply (set_status_ok id u SPENT). by apply Hm.
Qed.

(** X5: The engine keeps its map well formed: when every entry is stored under
    the id it carries, has one of the three statuses, the asset code GENUSD
    and an amount in (0, MAX_UTXO_AMOUNT], the same holds after a call of
    [process_transaction], whatever its result, and after [freeze_utxo] and
    [unfreeze_utxo]. *)
Theorem store_ok_preserved s :
  store_ok (utxos s) →
  (∀ today tx_data s' r,
     process_transaction today tx_data s = (s', r) → store_ok (utxos s')) ∧
  (∀ id reason, store_ok (utxos (freeze_utxo id reason s).1)) ∧
  (∀ id, store_ok (utxos (unfreeze_utxo id s).1)).
Proof.
  intros Hs. split; [|split].
  - intros today tx_data s' r. unfold process_transaction, route, reject.
    destruct (Transaction_init tx_data) as [tx|e]; [|by intros [= <- _]].
    repeat case_bool_decide; intros Hrun.
    + apply process_mint_utxos in Hrun as [->|[Hacc [e He]]]; [done|].
      by eapply create_outputs_store_ok.
    + apply process_transfer_utxos in Hrun as [->|[Hacc [e He]]]; [done|].
      eapply create_outputs_store_ok; [exact Hacc| |exact He].
      by apply mark_spent_store_ok.
    + apply process_burn_utxos in Hrun as [-> | ->]; [done|].
      by apply mark_spent_store_ok.
    + by simplify_eq.
  - intros id reason. unfold freeze_utxo, get_utxo.
    destruct (utxos s !! id) as [u|] eqn:Hu; [|done].
    case_bool_decide; [done|]. simpl. intros id' v. rewrite lookup_insert.
    case_decide as Heq; [|by apply Hs]. intros [= <-]. subst id'.
    destruct (Hs _ _ Hu) as (Hid & _ & Hac & Hamt).
    repeat split; simpl; try done; try lia. by exists FROZEN.
  - intros id. unfold unfreeze_utxo, get_utxo.
    destruct (utxos s !! id) as [u|] eqn:Hu; [|done].
    case_bool_decide; simpl; [|done]. intros id' v. rewrite lookup_insert.
    case_decide as Heq; [|by apply Hs]. intros [= <-]. subst id'.
    destruct (Hs _ _ Hu) as (Hid & _ & Hac & Hamt).
    repeat split; simpl; try done; try lia. by exists ACTIVE.
Qed.

(** The theorem from the empty map of a fresh engine, through a MINT. *)
Lemma store_ok_preserved_witness :
  store_ok (utxos (Sample.after [Sample.mint_alice] Sample.engine)).
Proof.
  assert (store_ok (utxos Sample.engine)) as H0.
  { intros id u Hu. vm_compute in Hu. discriminate Hu. }
  destruct (store_ok_preserved _ H0) as [Hrun _].
  apply (Hrun Sample.now Sample.mint_alice _
           (snd (process_transaction Sample.now Sample.mint_alice Sample.engine))).
  apply surjective_pairing.
Defined.

(** ** The daily limit *)

Lemma kyc_falsy_false k :
  kyc_falsy k = false ↔ ∃ lvl, k = Some lvl ∧ lvl ≠ "".
Proof.
  unfold kyc_falsy. destruct k as [lvl|].
  - rewrite bool_decide_eq_false. split; [eauto|]. by intros (? & [= <-] & ?).
  - split; [done|]. by intros (? & ? & ?).
Qed.

Lemma check_daily_limit_usage today owner amt pe pe' r o d :
  check_daily_limit today owner amt pe = (pe', r) →
  daily_usage pe' o d = daily_usage pe o d.
Proof.
  intros H. apply check_daily_limit_state in H as [->|[Hnone ->]]; [done|].
  by apply daily_usage_empty_record.
Qed.

(** X6: The three outcomes of [check_daily_limit]: it passes exactly when the
    owner is registered under one of the four level values and the amount
    recorded for the day plus the new amount is within the limit of the
    level; it raises [ValueError] exactly when the owner is registered
    under a non-empty string that is not a level value; it reports a missing
    registration exactly when the registry has nothing, or the empty string,
    for the owner. *)
Theorem check_daily_limit_outcomes today owner amt pe :
  ((check_daily_limit today owner amt pe).2 = Return (true, EmptyMessage) ↔
   ∃ lvl k, kyc_registry pe !! owner = Some lvl ∧ KYCLevel_of_value lvl = Some k ∧
            (daily_usage pe owner today + amt ≤ KYC_DAILY_LIMITS k)%Z) ∧
  ((check_daily_limit today owner amt pe).2 = Raise ValueError ↔
   ∃ lvl, kyc_registry pe !! owner = Some lvl ∧ lvl ≠ "" ∧
          KYCLevel_of_value lvl = None) ∧
  ((check_daily_limit today owner amt pe).2 = Return (false, OwnerNoKYC owner) ↔
   kyc_registry pe !! owner = None ∨ kyc_registry pe !! owner = Some "").
Proof.
  unfold check_daily_limit, get_kyc_level.
  destruct (kyc_registry pe !! owner) as [lvl|] eqn:Hreg; simpl.
  2:{ split; [|split].
      - split; [done|]. by intros (? & ? & ? & _).
      - split; [done|]. by intros (? & ? & _).
      - split; [by left|done]. }
  case_bool_decide as Hemp; simpl.
  { subst lvl. split; [|split].
    - split; [done|]. intros (? & k & [= <-] & Hk & _). discriminate Hk.
    - split; [done|]. by intros (? & [= <-] & ? & _).
    - split; [by right|done]. }
  destruct (KYCLevel_of_value lvl) as [k|] eqn:Hk.
  2:{ split; [|split].
      - split; [done|]. intros (? & ? & [= <-] & Hk' & _). congruence.
      - split; [eauto|done].
      - split; [done|]. intros [?|[= ->]]; done. }
  assert (daily_usage
            match daily_transfer_tracking pe !! owner with
            | Some _ => pe
            | None => set_daily_transfer_tracking
                        (<[owner:=∅]> (daily_transfer_tracking pe)) pe
            end owner today = daily_usage pe owner today) as ->.
  { destruct (daily_transfer_tracking pe !! owner) eqn:Ht; [done|].
    by apply daily_usage_empty_record. }
  destruct (_ >? _)%Z eqn:Hgt; cbn [snd].
  - unfold format_amounts.
    destruct (forallb renders _); cbn [snd]; (split; [|split]);
      try (split; [done|]; intros [?|[= ->]]; done);
      try (split; [done|]; intros (? & [= <-] & _ & ?); congruence).
    all: split; [done|]; intros (? & k' & [= <-] & Hk' & Hle);
      rewrite Hk in Hk'; injection Hk' as <-;
      rewrite Z.gtb_ltb in Hgt; apply Z.ltb_lt in Hgt; lia.
  - split; [|split].
    + split; [|done]. intros _. exists lvl, k. repeat split; try done.
      rewrite Z.gtb_ltb in Hgt. by apply Z.ltb_ge in Hgt.
    + split; [done|]. intros (? & [= <-] & _ & ?). congruence.
    + split; [done|]. intros [?|[= ->]]; done.
Qed.

Lemma record_transfer_usage_eq today owner amt pe :
  daily_usage (record_transfer today owner amt pe) owner today
  = (daily_usage pe owner today + amt)%Z.
Proof.
  unfold record_transfer, daily_usage. cbn [daily_transfer_tracking
    set_daily_transfer_tracking].
  rewrite lookup_insert_eq. cbn [mbind option_bind].
  rewrite lookup_insert_eq. cbn [default].
  by destruct (daily_transfer_tracking pe !! owner).
Qed.

Lemma record_transfer_usage_ne today owner amt pe o d :
  ¬ (o = owner ∧ d = today) →
  daily_usage (record_transfer today owner amt pe) o d = daily_usage pe o d.
Proof.
  intros Hne. unfold record_transfer, daily_usage. cbn [daily_transfer_tracking
    set_daily_transfer_tracking].
  destruct (decide (o = owner)) as [->|Ho].
  - rewrite lookup_insert_eq. cbn [mbind option_bind].
    rewrite lookup_insert_ne by (intros <-; by apply Hne).
    by destruct (daily_transfer_tracking pe !! owner).
  - by rewrite lookup_insert_ne.
Qed.

(** X7: [record_transfer] adds the amount to the record of the owner for the
    day and to nothing else. *)
Theorem record_transfer_usage today owner amt pe o d :
  daily_usage (record_transfer today owner amt pe) o d
  = if decide (o = owner ∧ d = today)
    then (daily_usage pe owner today + amt)%Z
    else daily_usage pe o d.
Proof.
  case_decide as H.
  - destruct H as [-> ->]. apply record_transfer_usage_eq.
  - by apply record_transfer_usage_ne.
Qed.

Lemma check_daily_limit_true today owner amt pe pe' m :
  check_daily_limit today owner amt pe = (pe', Return (true, m)) →
  ∃ lvl k, kyc_registry pe !! owner = Some lvl ∧ KYCLevel_of_value lvl = Some k ∧
           (daily_usage pe owner today + amt ≤ KYC_DAILY_LIMITS k)%Z.
Proof.
  intros H.
  pose proof (λ o d, check_daily_limit_usage _ _ _ _ _ _ o d H) as Huse.
  unfold check_daily_limit, get_kyc_level in H.
  destruct (kyc_registry pe !! owner) as [lvl|] eqn:Hreg; [|discriminate H].
  simpl in H. case_bool_decide; [discriminate H|].
  destruct (KYCLevel_of_value lvl) as [k|] eqn:Hk; [|discriminate H].
  destruct (_ >? _)%Z eqn:Hgt; [destruct (format_amounts _ _); discriminate H|].
  injection H as Hpe _. rewrite Hpe, Huse in Hgt.
  exists lvl, k. repeat split; try done.
  rewrite Z.gtb_ltb in Hgt. by apply Z.ltb_ge in Hgt.
Qed.

Lemma sum_accepted_positive pe outs total :
  outs ≠ [] → Forall (output_accepted pe) outs →
  sum_output_amounts outs = Return total → (0 < total)%Z.
Proof.
  intros Hne Hacc. revert total.
  induction Hacc as [|out outs Hout Hacc IH]; intros total; [done|]. simpl.
  apply validate_output_accepts_iff in Hout as (_ & _ & (amt & -> & Hamt) & _).
  simpl. destruct (sum_output_amounts outs) as [rest|] eqn:Hrest; [|done].
  intros [= <-]. destruct outs as [|o outs'].
  - simpl in Hrest. injection Hrest as <-. lia.
  - assert (0 < rest)%Z by by apply IH. lia.
Qed.

Lemma transfer_usage today tx s s' msg tid :
  _process_transfer today tx s = (s', Return (true, msg, tid)) →
  ∃ sender lvl k total us,
    resolve_inputs s (inputs tx) = inr us ∧ us ≠ [] ∧
    (∀ u, u ∈ us → owner_id u = sender) ∧
    sum_output_amounts (outputs tx) = Return total ∧ (0 < total)%Z ∧
    kyc_registry (policy_engine s) !! sender = Some lvl ∧
    KYCLevel_of_value lvl = Some k ∧
    (daily_usage (policy_engine s) sender (check_day today) + total
       ≤ KYC_DAILY_LIMITS k)%Z ∧
    daily_usage (policy_engine s') sender (record_day today)
      = (daily_usage (policy_engine s) sender (record_day today) + total)%Z ∧
    (check_day today = record_day today →
     (daily_usage (policy_engine s') sender (record_day today)
        ≤ KYC_DAILY_LIMITS k)%Z) ∧
    ∀ o d, ¬ (o = sender ∧ d = record_day today) →
           daily_usage (policy_engine s') o d = daily_usage (policy_engine s) o d.
Proof.
  intros H. apply process_transfer_success in H
    as (first & rest & total & pe & _ & Houts & Hres & Hown & _ & _ & Hsum & _ &
        Hval & Hchk & _ & _ & _ & _ & Hpe & _).
  destruct (check_daily_limit_true _ _ _ _ _ _ Hchk) as (lvl & k & Hreg & Hk & Hle).
  pose proof (λ o d, check_daily_limit_usage _ _ _ _ _ _ o d Hchk) as Huse.
  exists (owner_id first), lvl, k, total, (first :: rest).
  split; [done|]. split; [done|]. split.
  { intros u Hu. apply (owner_ids_single (first :: rest)); [done|done|].
    apply list_elem_of_here. }
  split; [done|]. split.
  { eapply sum_accepted_positive; [done| |done].
    by eapply validate_transfer_outputs_none. }
  split; [done|]. split; [done|]. split; [done|].
  rewrite Hpe. split; [|split].
  - rewrite record_transfer_usage_eq. by rewrite Huse.
  - intros Hday. rewrite record_transfer_usage_eq, Huse. by rewrite <-Hday.
  - intros o d Hne. rewrite record_transfer_usage_ne by done. apply Huse.
Qed.

(** X8: A committed TRANSFER has passed the daily-limit check on the date
    that [check_daily_limit] read from the clock: the amount recorded for
    the sender (the one owner of its inputs) on that date plus the total of
    its outputs is within the limit of the level the sender is registered
    at.  It adds that total to the amount recorded for the sender on the
    date that [record_transfer] read, and the amounts recorded for other
    owners and days stay as they were.  When the two readings give the same
    date, the new recorded amount is within the limit. *)
Theorem transfer_within_daily_limit today tx_data tx s s' msg tid :
  Transaction_init tx_data = Return tx →
  tx_type tx = TransactionType_value TRANSFER →
  process_transaction today tx_data s = (s', Return (true, msg, tid)) →
  ∃ sender lvl k total us,
    resolve_inputs s (inputs tx) = inr us ∧ us ≠ [] ∧
    (∀ u, u ∈ us → owner_id u = sender) ∧
    sum_output_amounts (outputs tx) = Return total ∧ (0 < total)%Z ∧
    kyc_registry (policy_engine s) !! sender = Some lvl ∧
    KYCLevel_of_value lvl = Some k ∧
    (daily_usage (policy_engine s) sender (check_day today) + total
       ≤ KYC_DAILY_LIMITS k)%Z ∧
    daily_usage (policy_engine s') sender (record_day today)
      = (daily_usage (policy_engine s) sender (record_day today) + total)%Z ∧
    (check_day today = record_day today →
     (daily_usage (policy_engine s') sender (record_day today)
        ≤ KYC_DAILY_LIMITS k)%Z) ∧
    ∀ o d, ¬ (o = sender ∧ d = record_day today) →
           daily_usage (policy_engine s') o d = daily_usage (policy_engine s) o d.
Proof.
  intros Hinit Hty. rewrite (process_transaction_route _ _ _ _ Hinit).
  unfold route. rewrite Hty. simpl. apply transfer_usage.
Qed.

(** The theorem at the transfer "T" of [Sample], where both readings of the
    clock give the same date. *)
Lemma transfer_within_daily_limit_witness :
  ∃ s' sender total,
    process_transaction Sample.now Sample.transfer_alice SampleX.minted
      = (s', Return (true, TransferSuccessful 1 2, Some "T")) ∧
    daily_usage (policy_engine s') sender Sample.day
      = (daily_usage (policy_engine SampleX.minted) sender Sample.day + total)%Z ∧
    (0 < total)%Z.
Proof.
  destruct (process_transaction Sample.now Sample.transfer_alice SampleX.minted)
    as [s' r] eqn:Hrun.
  assert (r = Return (true, TransferSuccessful 1 2, Some "T")) as ->.
  { apply (f_equal snd) in Hrun. simpl in Hrun. rewrite <-Hrun.
    vm_compute. reflexivity. }
  destruct (transfer_within_daily_limit Sample.now Sample.transfer_alice
              (Sample.tx "TRANSFER" "T" ["M:0"]
                 [Sample.output "bob" "GENUSD" 600000;
                  Sample.output "alice" "GENUSD" 400000] ["alice"])
              _ _ _ _ eq_refl eq_refl Hrun)
    as (sender & lvl & k & total & us & _ & _ & _ & _ & Hpos & _ & _ & _ & Huse & _).
  exists s', sender, total. split; [reflexivity|]. split; [exact Huse|exact Hpos].
Defined.

Lemma resolve_inputs_lookup s ids us id u :
  resolve_inputs s ids = inr us → id ∈ ids → utxos s !! id = Some u → u ∈ us.
Proof.
  intros Hres Hin Hu. apply resolve_inputs_Forall2 in Hres.
  induction Hres as [|i v ids us' [Hv _] _ IH].
  - by apply elem_of_nil in Hin.
  - apply elem_of_cons in Hin as [->|Hin].
    + rewrite Hu in Hv. injection Hv as ->. apply list_elem_of_here.
    + apply list_elem_of_further. by apply IH.
Qed.

(** X9: An owner registered at level 0, whose recorded amount for the day
    that the limit check reads from the clock is not negative, cannot send:
    no TRANSFER with an input of that owner commits. *)
Theorem level0_cannot_transfer today tx_data tx s s' r id u :
  Transaction_init tx_data = Return tx →
  tx_type tx = TransactionType_value TRANSFER →
  id ∈ inputs tx → utxos s !! id = Some u →
  kyc_registry (policy_engine s) !! owner_id u = Some (KYCLevel_value LEVEL_0) →
  (0 ≤ daily_usage (policy_engine s) (owner_id u) (check_day today))%Z →
  process_transaction today tx_data s = (s', r) →
  ∀ msg tid, r ≠ Return (true, msg, tid).
Proof.
  intros Hinit Hty Hin Hu Hreg Hpos Hrun msg tid ->.
  rewrite (process_transaction_route _ _ _ _ Hinit) in Hrun.
  unfold route in Hrun. rewrite Hty in Hrun. simpl in Hrun.
  apply transfer_usage in Hrun
    as (sender & lvl & k & total & us & Hres & _ & Hown & _ & Htot & Hreg' & Hk &
        Hle & _).
  assert (owner_id u = sender) as Hs
    by (apply Hown; by eapply resolve_inputs_lookup).
  rewrite Hs in Hreg, Hpos. rewrite Hreg in Hreg'. injection Hreg' as <-.
  vm_compute in Hk. injection Hk as <-. simpl in Hle. lia.
Qed.

(** The theorem at [dave] of [SampleLimit], who holds "D:0". *)
Lemma level0_cannot_transfer_witness :
  kyc_registry (policy_engine SampleLimit.with_dave) !! "dave"
    = Some (KYCLevel_value LEVEL_0) ∧
  ∀ msg tid,
    (process_transaction Sample.now SampleLimit.transfer_dave SampleLimit.with_dave).2
    ≠ Return (true, msg, tid).
Proof.
  split; [vm_compute; reflexivity|].
  destruct (utxos SampleLimit.with_dave !! "D:0") as [u|] eqn:Hu;
    [|vm_compute in Hu; discriminate Hu].
  assert (owner_id u = "dave") as Ho
    by (vm_compute in Hu; injection Hu as <-; reflexivity).
  apply (level0_cannot_transfer Sample.now SampleLimit.transfer_dave
           (Sample.tx "TRANSFER" "TD" ["D:0"]
              [Sample.output "alice" "GENUSD" 500] ["dave"])
           SampleLimit.with_dave
           (process_transaction Sample.now SampleLimit.transfer_dave
              SampleLimit.with_dave).1 _ "D:0" u).
  - reflexivity.
  - reflexivity.
  - apply list_elem_of_here.
  - exact Hu.
  - rewrite Ho. vm_compute. reflexivity.
  - rewrite Ho. vm_compute. discriminate.
  - apply surjective_pairing.
Defined.

(** ** Compliance of a committed TRANSFER *)

Lemma check_inputs_blacklist_none pe us :
  check_inputs_blacklist pe us = None →
  Forall (λ u, blacklist_flag (metadata u) = false ∧
               is_blacklisted pe (owner_id u) = false) us.
Proof.
  induction us as [|u us IH]; simpl; [by constructor|].
  destruct (blacklist_flag (metadata u)) eqn:Hflag; [done|].
  destruct (is_blacklisted pe (owner_id u)) eqn:Hbl; [done|].
  intros H. constructor; [done|by apply IH].
Qed.

Lemma validate_transfer_outputs_cleared pe idx outs :
  validate_transfer_outputs pe idx outs = Return None →
  Forall (recipient_cleared pe) outs.
Proof.
  revert idx. induction outs as [|out outs IH]; intros idx; simpl; [by constructor|].
  destruct (_validate_output pe out idx) as [[[] msg]|e]; try done.
  unfold getitem. destruct (d_owner_id out) as [r|] eqn:Hr; [|done].
  destruct (kyc_falsy _) eqn:Hkyc; [done|].
  destruct (is_blacklisted _ _) eqn:Hbl; [done|].
  intros H. constructor; [by exists r|by eapply IH].
Qed.

Lemma transfer_compliance_route today tx s s' msg tid :
  _process_transfer today tx s = (s', Return (true, msg, tid)) →
  (∀ id u, id ∈ inputs tx → utxos s !! id = Some u →
     is_active u = true ∧ blacklist_flag (metadata u) = false ∧
     (owner_id u ∉ blacklist (policy_engine s)) ∧
     dict_contains (signatures tx) (owner_id u) = true) ∧
  (∀ out, out ∈ outputs tx →
     output_well_formed (policy_engine s) out ∧
     ∃ r lvl, d_owner_id out = Some r ∧
              kyc_registry (policy_engine s) !! r = Some lvl ∧ lvl ≠ "" ∧
              r ∉ blacklist (policy_engine s)).
Proof.
  intros H. apply process_transfer_success in H
    as (first & rest & total & pe & _ & _ & Hres & Hown & Hsig & Hbl & _ & _ &
        Hval & _).
  split.
  - intros id u Hin Hu.
    destruct (resolve_inputs_active _ _ _ _ Hres Hin) as (v & Hv & Hact).
    rewrite Hu in Hv. injection Hv as <-.
    pose proof (resolve_inputs_lookup _ _ _ _ _ Hres Hin Hu) as Hmem.
    apply check_inputs_blacklist_none in Hbl. rewrite Forall_forall in Hbl.
    destruct (Hbl u Hmem) as [Hflag Hnb].
    split; [done|]. split; [done|]. split.
    + unfold is_blacklisted in Hnb. by apply bool_decide_eq_false in Hnb.
    + rewrite (proj1 (owner_ids_single (first :: rest)) Hown u first Hmem);
        [done|apply list_elem_of_here].
  - intros out Hout.
    pose proof (validate_transfer_outputs_none _ _ _ Hval) as Hacc.
    pose proof (validate_transfer_outputs_cleared _ _ _ Hval) as Hclr.
    rewrite Forall_forall in Hacc, Hclr. split.
    + by apply validate_output_accepts_iff, Hacc.
    + destruct (Hclr out Hout) as (r & Hr & Hkyc & Hnb).
      apply kyc_falsy_false in Hkyc as (lvl & Hlvl & Hne).
      exists r, lvl. repeat split; try done.
      unfold is_blacklisted in Hnb. by apply bool_decide_eq_false in Hnb.
Qed.



(** X11: After [blacklist_owner], no TRANSFER that spends a UTXO of that owner or
    pays that owner commits, and the owner is still on the blacklist after
    the call. *)
Theorem blacklisted_owner_cannot_transfer today tx_data tx s s' r owner :
  Transaction_init tx_data = Return tx →
  tx_type tx = TransactionType_value TRANSFER →
  (∃ id u, id ∈ inputs tx ∧ utxos s !! id = Some u ∧ owner_id u = owner) ∨
  (∃ out, out ∈ outputs tx ∧ d_owner_id out = Some owner) →
  process_transaction today tx_data
    (set_policy_engine (blacklist_owner owner (policy_engine s)) s) = (s', r) →
  (∀ msg tid, r ≠ Return (true, msg, tid)) ∧
  owner ∈ blacklist (policy_engine s').
Proof.
  intros Hinit Hty Hwho Hrun. split.
  - intros msg tid ->.
    rewrite (process_transaction_route _ _ _ _ Hinit) in Hrun.
    unfold route in Hrun. rewrite Hty in Hrun. simpl in Hrun.
    apply transfer_compliance_route in Hrun as [Hins Houts].
    destruct Hwho as [(id & u & Hin & Hu & <-)|(out & Hout & Hr)].
    + destruct (Hins id u Hin Hu) as (_ & _ & Hnb & _).
      apply Hnb. simpl. apply elem_of_union_l. by apply elem_of_singleton.
    + destruct (Houts out Hout) as (_ & r & lvl & Hr' & _ & _ & Hnb).
      rewrite Hr in Hr'. injection Hr' as <-. apply Hnb. simpl.
      apply elem_of_union_l. by apply elem_of_singleton.
  - apply process_transaction_frame_lemma in Hrun as (_ & _ & -> & _).
    simpl. apply elem_of_union_l. by apply elem_of_singleton.
Qed.

(** The theorem at [alice] of [SampleX], once blacklisted, and her transfer
    "T". *)
Lemma blacklisted_owner_cannot_transfer_witness :
  is_blacklisted (blacklist_owner "alice" (policy_engine SampleX.minted)) "alice"
    = true ∧
  ∀ msg tid,
    (process_transaction Sample.now Sample.transfer_alice
       (set_policy_engine (blacklist_owner "alice" (policy_engine SampleX.minted))
          SampleX.minted)).2
    ≠ Return (true, msg, tid).
Proof.
  split; [vm_compute; reflexivity|].
  destruct (utxos SampleX.minted !! "M:0") as [u|] eqn:Hu;
    [|vm_compute in Hu; discriminate Hu].
  assert (owner_id u = "alice") as Ho
    by (vm_compute in Hu; injection Hu as <-; reflexivity).
  eapply (blacklisted_owner_cannot_transfer Sample.now Sample.transfer_alice
            (Sample.tx "TRANSFER" "T" ["M:0"]
               [Sample.output "bob" "GENUSD" 600000;
                Sample.output "alice" "GENUSD" 400000] ["alice"])
            SampleX.minted _ _ "alice").
  - reflexivity.
  - reflexivity.
  - left. exists "M:0", u.
    split; [apply list_elem_of_here|]. split; [exact Hu|exact Ho].
  - apply surjective_pairing.
Defined.

(** ** Supply and reserves *)

(** X12: A committed MINT ends with the supply within the reserves, and a
    committed TRANSFER or BURN does not raise the supply: when no policy has
    a negative minimum burn amount, a commit from a state with the supply
    within the reserves ends in such a state. *)
Theorem reserve_ceiling_kept today tx_data tx s s' msg tid :
  Transaction_init tx_data = Return tx →
  process_transaction today tx_data s = (s', Return (true, msg, tid)) →
  (tx_type tx = TransactionType_value MINT →
     (total_supply s < total_supply s' ≤ verified_reserves s')%Z) ∧
  (tx_type tx = TransactionType_value TRANSFER → total_supply s' = total_supply s) ∧
  ((∀ ref p, policies (policy_engine s) !! ref = Some p →
             (0 ≤ min_burn_amount p)%Z) →
   (total_supply s ≤ verified_reserves s)%Z →
   (total_supply s' ≤ verified_reserves s')%Z).
Proof.
  intros Hinit. rewrite (process_transaction_route _ _ _ _ Hinit).
  unfold route, reject. repeat case_bool_decide; intros Hrun;
    unfold TransactionType_value in *.
  - apply process_mint_success in Hrun
      as (total & policy & _ & Houts & _ & Hsum & Hres & _ & _ & Hval & _ & _ &
          Hsup & Hver & _).
    assert (0 < total)%Z as Hpos.
    { eapply sum_accepted_positive; [done| |done]. by eapply validate_outputs_none. }
    rewrite Hsup, Hver. split; [intros _; lia|]. split; [congruence|]. intros _ _. lia.
  - apply process_transfer_success in Hrun
      as (? & ? & ? & ? & _ & _ & _ & _ & _ & _ & _ & _ & _ & _ & _ & _ & Hsup &
          Hver & _).
    rewrite Hsup, Hver. split; [congruence|]. split; [done|]. by intros _ ?.
  - apply process_burn_success in Hrun
      as (us & policy & _ & _ & _ & _ & Hpol & Hmin & _ & _ & Hsup & Hver & _).
    rewrite Hsup, Hver. split; [congruence|]. split; [congruence|].
    intros Hnn Hle. specialize (Hnn _ _ Hpol). lia.
  - discriminate Hrun.
Qed.

(** The theorem at the MINT "M" of [Sample]. *)
Lemma reserve_ceiling_kept_witness :
  (total_supply (Sample.after [Sample.mint_alice] Sample.engine)
   ≤ verified_reserves (Sample.after [Sample.mint_alice] Sample.engine))%Z.
Proof.
  destruct (process_transaction Sample.now Sample.mint_alice Sample.engine)
    as [s' r] eqn:Hrun.
  assert (r = Return (true, MintSuccessful 1 1000000, Some "M")) as ->.
  { apply (f_equal snd) in Hrun. simpl in Hrun. rewrite <-Hrun.
    vm_compute. reflexivity. }
  destruct (reserve_ceiling_kept Sample.now Sample.mint_alice
              (Sample.tx "MINT" "M" [] [Sample.output "alice" "GENUSD" 1000000]
                 ["issuer"]) _ _ _ _ eq_refl Hrun) as [Hmint _].
  unfold Sample.after. simpl. rewrite Hrun. simpl.
  destruct (Hmint eq_refl) as [_ Hle]. exact Hle.
Defined.

(** ** The dict forms *)

(** X13: [from_dict] reads a dict into a UTXO exactly when the dict, apart
    from the keys that [from_dict] does not look at, is the dict that
    [to_dict] writes that UTXO to; in particular it reads [to_dict] of a
    UTXO back into that UTXO, and it ignores any further key.  The
    constructors of [Transaction] and of [UTXOMetadata], which refuse a
    further key, are exact inverses of [to_dict] and of [asdict]. *)
Theorem dict_forms_inverse :
  (∀ d u, UTXO_from_dict d = Return u ↔ set_other_keys [] d = UTXO_to_dict u) ∧
  (∀ u, UTXO_from_dict (UTXO_to_dict u) = Return u) ∧
  (∀ d keys, UTXO_from_dict (set_other_keys keys d) = UTXO_from_dict d) ∧
  (∀ d tx, Transaction_init d = Return tx ↔ d = Transaction_to_dict tx) ∧
  (∀ d m, UTXOMetadata_init d = Return m ↔ d = UTXOMetadata_asdict m).
Proof.
  assert (∀ d m, UTXOMetadata_init d = Return m ↔ d = UTXOMetadata_asdict m) as Hmd.
  { intros d m. split; [|intros ->; apply UTXOMetadata_roundtrip].
    unfold UTXOMetadata_init. destruct d as [j b f p i o]; simpl.
    destruct j, b, f, p, i, o; try done. by intros [= <-]. }
  split; [|split; [apply UTXO_roundtrip|split; [done|split; [|exact Hmd]]]].
  - intros d u. split.
    + unfold UTXO_from_dict, getitem, set_other_keys.
      destruct d as [i o a m s k c md ks]; simpl.
      destruct md as [md|]; [|done].
      destruct (UTXOMetadata_init md) as [meta|] eqn:Hmeta; [|done].
      apply Hmd in Hmeta as ->.
      destruct i, o, a, m, s, k, c; try done. by intros [= <-].
    + intros Hd. rewrite <-(UTXO_roundtrip u), <-Hd. reflexivity.
  - intros d tx. split; [|intros ->; apply Transaction_roundtrip].
    unfold Transaction_init. destruct d as [t i ts ins outs p sg md o]; simpl.
    destruct t, i, ts, ins, outs, p, sg, md, o; try done. by intros [= <-].
Qed.

(** ** The UTXOs that a commit creates *)

Lemma route_success_accepted today tx s s' msg tid :
  route today tx s = (s', Return (true, msg, tid)) →
  Forall (output_accepted (policy_engine s)) (outputs tx).
Proof.
  unfold route, reject. intros H. repeat case_bool_decide.
  - apply process_mint_success in H as (? & ? & ? & ? & ? & ? & ? & ? & ? & Hval & _).
    by eapply validate_outputs_none.
  - apply process_transfer_success in H
      as (? & ? & ? & ? & ? & ? & ? & ? & ? & ? & ? & ? & Hval & _).
    by eapply validate_transfer_outputs_none.
  - apply process_burn_success in H as (? & ? & ? & -> & _). constructor.
  - discriminate H.
Qed.

(** X14: After a commit, the UTXO stored for an output has the owner, the
    amount, the KYC tag and the metadata of the output specification, is
    active, and has as [created_at] the timestamp of the transaction,
    whatever [created_at] the specification carries; its jurisdiction is an
    allowed one. *)
Theorem created_utxo_fields today tx_data tx s s' msg tid idx out :
  Transaction_init tx_data = Return tx →
  process_transaction today tx_data s = (s', Return (true, msg, tid)) →
  outputs tx !! idx = Some out →
  ∃ u md,
    utxos s' !! output_utxo_id (tx_id tx) idx = Some u ∧
    d_owner_id out = Some (owner_id u) ∧
    d_amount out = Some (amount u) ∧
    d_kyc_tag out = Some (kyc_tag u) ∧
    d_metadata out = Some md ∧ UTXOMetadata_init md = Return (metadata u) ∧
    status u = UTXOStatus_value ACTIVE ∧
    created_at u = timestamp tx ∧
    jurisdiction (metadata u) ∈ allowed_jurisdictions (policy_engine s).
Proof.
  intros Hinit Hrun Hout. rewrite (process_transaction_route _ _ _ _ Hinit) in Hrun.
  pose proof (route_success_accepted _ _ _ _ _ _ Hrun) as Hacc.
  apply route_success_utxos in Hrun as (ins & _ & Hcre).
  destruct (create_outputs_created _ _ _ _ _ _ _ _ Hcre Hout) as (u & Hu & Hlook).
  rewrite Forall_lookup in Hacc. specialize (Hacc _ _ Hout).
  apply validate_output_accepts_iff in Hacc
    as (_ & Hac & (amt & Hamt & _) & Hst & (tag & lvl & Htag & _) &
        (md & j & Hmd & Hj & Hallowed)).
  unfold _create_utxo, getitem in Hu. rewrite Hmd, Hac, Hamt, Hst, Htag in Hu.
  destruct (UTXOMetadata_init md) as [m|] eqn:Hinit_md; [|discriminate Hu].
  destruct (d_owner_id out) as [own|]; [|discriminate Hu].
  injection Hu as <-. eexists _, md. simpl.
  split; [exact Hlook|]. simpl. repeat split; try done.
  unfold UTXOMetadata_init in Hinit_md. rewrite Hj in Hinit_md.
  repeat case_match; simplify_eq. done.
Qed.

(** The theorem at the second output of the transfer "T" of [Sample]. *)
Lemma created_utxo_fields_witness :
  ∃ s' u,
    utxos s' !! output_utxo_id "T" 1 = Some u ∧
    owner_id u = "alice" ∧ amount u = 400000 ∧ created_at u = 1764288000.
Proof.
  destruct (process_transaction Sample.now Sample.transfer_alice SampleX.minted)
    as [s' r] eqn:Hrun.
  assert (r = Return (true, TransferSuccessful 1 2, Some "T")) as ->.
  { apply (f_equal snd) in Hrun. simpl in Hrun. rewrite <-Hrun.
    vm_compute. reflexivity. }
  destruct (created_utxo_fields Sample.now Sample.transfer_alice
              (Sample.tx "TRANSFER" "T" ["M:0"]
                 [Sample.output "bob" "GENUSD" 600000;
                  Sample.output "alice" "GENUSD" 400000] ["alice"])
              _ _ _ _ 1%nat (Sample.output "alice" "GENUSD" 400000)
              eq_refl Hrun eq_refl)
    as (u & md & Hlook & Hown & Hamt & _ & _ & _ & _ & Hts & _).
  exists s', u. split; [exact Hlook|].
  injection Hown as <-. injection Hamt as <-. split; [reflexivity|].
  split; [reflexivity|exact Hts].
Defined.

(** ** An exception in the execution phase *)

Lemma validate_outputs_all_accepted pe idx outs :
  Forall (output_accepted pe) outs → validate_outputs pe idx outs = Return None.
Proof.
  intros Hacc. revert idx. induction Hacc as [|out outs [m Hm] _ IH]; intros idx; simpl.
  - done.
  - by rewrite (validate_output_idx pe out idx 0), Hm.
Qed.

Lemma create_utxo_accepted_ok pe id out ts :
  output_accepted pe out → metadata_constructible out →
  ∃ u, _create_utxo id out ts = Return u.
Proof.
  intros Hacc (md & m & Hmd & Hm). apply validate_output_accepts_iff in Hacc
    as (Hreq & Hac & (amt & Hamt & _) & Hst & (tag & lvl & Htag & _) & _).
  assert (is_Some (d_owner_id out)) as [own Hown].
  { assert (UTXODict_contains out "owner_id" = true) as Hc.
    { apply Hreq. apply list_elem_of_here. }
    unfold UTXODict_contains in Hc. simpl in Hc. by apply bool_decide_eq_true in Hc. }
  unfold _create_utxo, getitem. rewrite Hmd, Hm, Hown, Hac, Hamt, Hst, Htag. eauto.
Qed.

Lemma create_utxo_metadata_raises id out ts md e :
  d_metadata out = Some md → UTXOMetadata_init md = Raise e →
  _create_utxo id out ts = Raise e.
Proof. intros Hmd Hm. unfold _create_utxo, getitem. by rewrite Hmd, Hm. Qed.

Lemma create_outputs_stops pe tid ts idx pre out post (m : gmap string UTXO) e :
  Forall (output_accepted pe) pre → Forall metadata_constructible pre →
  (∀ id, _create_utxo id out ts = Raise e) →
  ∃ m1, create_outputs tid ts idx pre m = (m1, None) ∧
        create_outputs tid ts idx (pre ++ out :: post) m = (m1, Some e).
Proof.
  intros Hacc Hcon Hout. revert idx m.
  induction pre as [|o pre IH]; intros idx m; simpl.
  - exists m. by rewrite Hout.
  - apply Forall_cons in Hacc as [Ho Hacc]. apply Forall_cons in Hcon as [Hc Hcon].
    destruct (create_utxo_accepted_ok pe (output_utxo_id tid idx) o ts Ho Hc)
      as [u ->].
    by apply IH.
Qed.

(** X15: The execution phase of a MINT can raise: when all checks pass and the
    metadata dict of an output is not made of exactly the five keys of
    [UTXOMetadata], the call raises [TypeError] after it has stored the
    UTXOs of the outputs before that one; [total_supply] and the transaction
    log are not updated. *)
Theorem mint_raises_after_partial_creation
    today tx_data tx s pre out post md total policy :
  Transaction_init tx_data = Return tx →
  tx_type tx = TransactionType_value MINT →
  inputs tx = [] → outputs tx = (pre ++ out :: post)%list →
  dict_contains (signatures tx) "issuer" = true →
  sum_output_amounts (outputs tx) = Return total →
  (total_supply s + total ≤ verified_reserves s)%Z →
  policies (policy_engine s) !! policy_ref tx = Some policy →
  (total ≤ max_mint_per_tx policy)%Z →
  Forall (output_accepted (policy_engine s)) (outputs tx) →
  Forall metadata_constructible pre →
  d_metadata out = Some md → UTXOMetadata_init md = Raise TypeError →
  ∃ s',
    process_transaction today tx_data s = (s', Raise TypeError) ∧
    transactions s' = transactions s ∧ total_supply s' = total_supply s ∧
    ∀ i o, pre !! i = Some o →
      ∃ u, utxos s' !! output_utxo_id (tx_id tx) i = Some u ∧
           _create_utxo (output_utxo_id (tx_id tx) i) o (timestamp tx) = Return u.
Proof.
  intros Hinit Hty Hins Houts Hsig Hsum Hres Hpol Hmax Hacc Hcon Hmd Hraise.
  rewrite (process_transaction_route _ _ _ _ Hinit). unfold route.
  rewrite Hty. simpl. unfold _process_mint, reject, _validate_mint_schema.
  rewrite Hins, Hsig, Hsum, Hpol. cbn [negb].
  assert ((total_supply s + total >? verified_reserves s)%Z = false) as ->
    by (rewrite Z.gtb_ltb; apply Z.ltb_ge; lia).
  assert ((total >? max_mint_per_tx policy)%Z = false) as ->
    by (rewrite Z.gtb_ltb; apply Z.ltb_ge; lia).
  rewrite (validate_outputs_all_accepted _ _ _ Hacc).
  assert (Forall (output_accepted (policy_engine s)) pre) as Hpre.
  { rewrite Houts in Hacc. by apply Forall_app in Hacc as [? _]. }
  destruct (create_outputs_stops (policy_engine s) (tx_id tx) (timestamp tx) 0 pre
              out post (utxos s) TypeError Hpre Hcon) as (m1 & Hpre_run & Hall).
  { intros id. by eapply create_utxo_metadata_raises. }
  rewrite Houts, Hall.
  destruct pre as [|o0 pre']; simpl;
    (eexists; split; [reflexivity|]; split; [done|]; split; [done|]).
  - intros i o Hi. done.
  - intros i o Hi. simpl.
    destruct (create_outputs_created _ _ _ _ _ _ _ _ Hpre_run Hi) as (u & Hu & Hlook).
    eauto.
Qed.

(** The theorem at the MINT of [SampleExc], whose second output lacks a
    metadata key: the first output is stored and the supply is still 0. *)
Lemma mint_raises_after_partial_creation_witness :
  ∃ s',
    process_transaction Sample.now (Transaction_to_dict SampleExc.mint_short)
      Sample.engine = (s', Raise TypeError) ∧
    total_supply s' = 0 ∧
    is_Some (utxos s' !! output_utxo_id "P" 0).
Proof.
  destruct (policies (policy_engine Sample.engine) !! "POLICY_V1.0")
    as [policy|] eqn:Hpol; [|vm_compute in Hpol; discriminate Hpol].
  destruct (mint_raises_after_partial_creation Sample.now
              (Transaction_to_dict SampleExc.mint_short) SampleExc.mint_short
              Sample.engine [Sample.output "alice" "GENUSD" 5]
              SampleExc.short_output [] SampleExc.short_metadata 12 policy)
    as (s' & Hrun & _ & Hsup & Hpre).
  - reflexivity.
  - reflexivity.
  - reflexivity.
  - reflexivity.
  - vm_compute. reflexivity.
  - reflexivity.
  - vm_compute. discriminate.
  - exact Hpol.
  - vm_compute in Hpol. injection Hpol as <-. vm_compute. discriminate.
  - constructor; [|constructor; [|constructor]];
      exists EmptyMessage; vm_compute; reflexivity.
  - constructor; [|constructor]. eexists _, _. split; reflexivity.
  - reflexivity.
  - reflexivity.
  - exists s'. split; [exact Hrun|]. split; [by rewrite Hsup|].
    destruct (Hpre 0%nat (Sample.output "alice" "GENUSD" 5) eq_refl) as (u & Hu & _).
    by exists u.
Defined.

(** ** Balances *)

Lemma get_balance_sum_if s owner :
  get_balance s owner = sum_if (owned_active owner) (utxos s).
Proof. reflexivity. Qed.

Lemma sum_if_insert_fresh P (m : gmap string UTXO) id u :
  m !! id = None → sum_if P (<[id := u]> m) = (weight P u + sum_if P m)%Z.
Proof.
  intros Hnone. unfold sum_if, weight.
  rewrite map_fold_insert_L; [by destruct (P u)| |done].
  intros j1 j2 z1 z2 y _ _ _. destruct (P z1), (P z2); lia.
Qed.

Lemma sum_if_insert_present P (m : gmap string UTXO) id u u' :
  m !! id = Some u →
  sum_if P (<[id := u']> m) = (sum_if P m - weight P u + weight P u')%Z.
Proof.
  intros Hu.
  assert (delete id m !! id = None) as Hnone by apply lookup_delete_eq.
  assert (m = <[id := u]> (delete id m)) as Hm
    by (symmetry; by apply insert_delete_id).
  rewrite Hm at 1 2. rewrite insert_insert_eq.
  rewrite !sum_if_insert_fresh by exact Hnone. lia.
Qed.

Lemma weight_owned_active owner u :
  is_active u = true →
  weight (owned_active owner) u
  = if bool_decide (owner_id u = owner) then amount u else 0.
Proof.
  intros Hact. unfold weight, owned_active. rewrite Hact.
  by destruct (bool_decide (owner_id u = owner)).
Qed.

Lemma weight_owned_spent owner u :
  weight (owned_active owner) (set_status (UTXOStatus_value SPENT) u) = 0.
Proof.
  unfold weight, owned_active. rewrite is_active_set_spent.
  by rewrite andb_false_r.
Qed.

Lemma balance_mark_spent owner ids us (m : gmap string UTXO) :
  NoDup ids →
  Forall2 (λ id u, m !! id = Some u ∧ is_active u = true) ids us →
  sum_if (owned_active owner) (mark_spent ids m)
  = (sum_if (owned_active owner) m - owned_amounts owner us)%Z.
Proof.
  intros Hnd. revert us m.
  induction Hnd as [|id ids Hnin Hnd IH]; intros us m Hall.
  - inversion Hall; subst. unfold mark_spent. simpl. lia.
  - inversion Hall as [|? u ? us' [Hu Hact] Hrest]; subst.
    change (mark_spent (id :: ids) m)
      with (mark_spent ids (alter (set_status (UTXOStatus_value SPENT)) id m)).
    rewrite (IH us').
    + rewrite (alter_as_insert _ _ _ _ Hu).
      rewrite (sum_if_insert_present _ _ _ _ _ Hu).
      rewrite weight_owned_spent, (weight_owned_active _ _ Hact).
      simpl. destruct (bool_decide (owner_id u = owner)); lia.
    + clear IH Hall.
      induction Hrest as [|i v ids' vs [Hv Hvact] Hrest IH']; [constructor|].
      apply not_elem_of_cons in Hnin as [Hne Hnin].
      apply NoDup_cons in Hnd as [_ Hnd].
      constructor; [|by apply IH'].
      split; [|done]. by rewrite lookup_alter_ne.
Qed.

Lemma balance_create_outputs pe owner tid ts idx outs (m m' : gmap string UTXO) :
  create_outputs tid ts idx outs m = (m', None) →
  (∀ id, id ∈ ids_from tid idx outs → m !! id = None) →
  Forall (output_accepted pe) outs →
  sum_if (owned_active owner) m'
  = (sum_if (owned_active owner) m + paid_amounts owner outs)%Z.
Proof.
  revert idx m.
  induction outs as [|out outs IH]; intros idx m Hcre Hfresh Hacc.
  - simpl in Hcre. injection Hcre as <-. simpl. lia.
  - simpl in Hcre. apply Forall_cons in Hacc as [Hout Hacc].
    destruct (_create_utxo (output_utxo_id tid idx) out ts) as [u|e] eqn:Hu;
      [|discriminate Hcre].
    destruct (create_utxo_accepted _ _ _ _ _ Hout Hu) as [Hact Hamt].
    assert (d_owner_id out = Some (owner_id u)) as Hown.
    { unfold _create_utxo, getitem in Hu. repeat case_match; simplify_eq; done. }
    rewrite (IH _ _ Hcre); [| |done].
    + rewrite sum_if_insert_fresh, (weight_owned_active _ _ Hact).
      * simpl. rewrite Hown, Hamt. simpl.
        destruct (decide (owner_id u = owner)) as [Heq|Hne].
        -- rewrite !bool_decide_eq_true_2 by congruence. lia.
        -- rewrite !bool_decide_eq_false_2 by congruence. lia.
      * apply Hfresh. rewrite ids_from_cons. apply list_elem_of_here.
    + intros id Hid. rewrite lookup_insert_ne.
      * apply Hfresh. rewrite ids_from_cons. by apply list_elem_of_further.
      * intros <-. apply elem_of_ids_from in Hid as (i & _ & Hi).
        apply output_utxo_id_idx_inj in Hi. lia.
Qed.

Lemma route_success_execution today tx s s' msg tid :
  route today tx s = (s', Return (true, msg, tid)) →
  ∃ us, resolve_inputs s (inputs tx) = inr us ∧
    create_outputs (tx_id tx) (timestamp tx) 0 (outputs tx)
      (mark_spent (inputs tx) (utxos s)) = (utxos s', None).
Proof.
  unfold route, reject. intros H. repeat case_bool_decide.
  - apply process_mint_success in H as (? & ? & Hins & ? & ? & ? & ? & ? & ? & ? & H & _).
    exists []. rewrite Hins. by split.
  - apply process_transfer_success in H
      as (first & rest & ? & ? & ? & ? & Hres & ? & ? & ? & ? & ? & ? & ? & H & _).
    by exists (first :: rest).
  - apply process_burn_success in H as (us & ? & ? & Houts & Hres & ? & ? & ? & H & _).
    exists us. split; [done|]. by rewrite Houts, H.
  - discriminate H.
Qed.

(** X16: The balance of an owner after a commit whose inputs are pairwise
    distinct and whose outputs get ids that are not in the map: the balance
    before, less the amounts of the inputs the owner held, plus the amounts
    of the outputs that name the owner. *)
Theorem balance_after_commit today tx_data tx s s' msg tid owner :
  Transaction_init tx_data = Return tx →
  NoDup (inputs tx) →
  (∀ id, id ∈ created_ids tx → utxos s !! id = None) →
  process_transaction today tx_data s = (s', Return (true, msg, tid)) →
  ∃ us, resolve_inputs s (inputs tx) = inr us ∧
    get_balance s' owner
    = (get_balance s owner - owned_amounts owner us
       + paid_amounts owner (outputs tx))%Z.
Proof.
  intros Hinit Hnd Hfresh Hrun.
  rewrite (process_transaction_route _ _ _ _ Hinit) in Hrun.
  pose proof (route_success_accepted _ _ _ _ _ _ Hrun) as Hacc.
  apply route_success_execution in Hrun as (us & Hres & Hcre).
  exists us. split; [done|]. rewrite !get_balance_sum_if.
  rewrite created_ids_from in Hfresh.
  rewrite (balance_create_outputs (policy_engine s) owner _ _ _ _ _ _ Hcre);
    [| |exact Hacc].
  - by rewrite (balance_mark_spent owner _ us _ Hnd (resolve_inputs_Forall2 _ _ _ Hres)).
  - intros id Hid. rewrite lookup_mark_spent, (Hfresh id Hid). by case_decide.
Qed.

(** The theorem at the transfer "T" of [Sample]: [alice] goes from 1,000,000
    to 400,000 and [bob] from 0 to 600,000. *)
Lemma balance_after_commit_witness :
  ∃ s',
    process_transaction Sample.now Sample.transfer_alice SampleX.minted
      = (s', Return (true, TransferSuccessful 1 2, Some "T")) ∧
    get_balance s' "alice" = 400000 ∧ get_balance s' "bob" = 600000.
Proof.
  destruct (process_transaction Sample.now Sample.transfer_alice SampleX.minted)
    as [s' r] eqn:Hrun.
  assert (r = Return (true, TransferSuccessful 1 2, Some "T")) as ->.
  { apply (f_equal snd) in Hrun. simpl in Hrun. rewrite <-Hrun.
    vm_compute. reflexivity. }
  assert (∀ owner, ∃ us,
            resolve_inputs SampleX.minted ["M:0"] = inr us ∧
            get_balance s' owner
            = (get_balance SampleX.minted owner - owned_amounts owner us
               + paid_amounts owner [Sample.output "bob" "GENUSD" 600000;
                                     Sample.output "alice" "GENUSD" 400000])%Z)
    as Hbal.
  { intros owner.
    apply (balance_after_commit Sample.now Sample.transfer_alice
             (Sample.tx "TRANSFER" "T" ["M:0"]
                [Sample.output "bob" "GENUSD" 600000;
                 Sample.output "alice" "GENUSD" 400000] ["alice"])
             SampleX.minted s' (TransferSuccessful 1 2) (Some "T") owner eq_refl);
      [| |exact Hrun].
    - apply NoDup_singleton.
    - intros id Hid. vm_compute in Hid.
      apply elem_of_cons in Hid as [->|Hid]; [vm_compute; reflexivity|].
      apply elem_of_cons in Hid as [->|Hid]; [vm_compute; reflexivity|].
      apply elem_of_nil in Hid. destruct Hid. }
  exists s'. split; [reflexivity|]. split.
  - destruct (Hbal "alice") as (us & Hres & ->).
    vm_compute in Hres. injection Hres as <-. vm_compute. reflexivity.
  - destruct (Hbal "bob") as (us & Hres & ->).
    vm_compute in Hres. injection Hres as <-. vm_compute. reflexivity.
Defined.

(** X17: Freezing an active UTXO takes its amount out of the balance of its owner
    and out of the active sum, leaves the balances of the other owners alone,
    and leaves [get_total_supply] as it is: the supply counts frozen UTXOs,
    the balances do not. *)
Theorem freeze_lowers_balance s id reason u :
  utxos s !! id = Some u → status u = UTXOStatus_value ACTIVE →
  get_balance (freeze_utxo id reason s).1 (owner_id u)
    = (get_balance s (owner_id u) - amount u)%Z ∧
  (∀ o, o ≠ owner_id u → get_balance (freeze_utxo id reason s).1 o = get_balance s o) ∧
  sum_active (utxos (freeze_utxo id reason s).1) = (sum_active (utxos s) - amount u)%Z ∧
  get_total_supply (freeze_utxo id reason s).1 = get_total_supply s.
Proof.
  intros Hu Hst. unfold freeze_utxo, get_utxo. rewrite Hu, Hst.
  rewrite bool_decide_eq_false_2 by discriminate. cbn [fst].
  assert (is_active u = true) as Hact by (unfold is_active; by rewrite Hst).
  split; [|split; [|split]].
  - rewrite !get_balance_sum_if. cbn [utxos set_utxos].
    rewrite (sum_if_insert_present _ _ _ _ _ Hu).
    rewrite (weight_owned_active _ _ Hact), bool_decide_eq_true_2 by done.
    unfold weight, owned_active, is_active. simpl.
    rewrite andb_false_r. lia.
  - intros o Ho. rewrite !get_balance_sum_if. cbn [utxos set_utxos].
    rewrite (sum_if_insert_present _ _ _ _ _ Hu).
    rewrite (weight_owned_active _ _ Hact), bool_decide_eq_false_2 by done.
    unfold weight, owned_active, is_active. simpl.
    rewrite andb_false_r. lia.
  - cbn [utxos set_utxos].
    rewrite (sum_active_insert_present _ _ _ _ Hu), Hact.
    unfold is_active. simpl. lia.
  - reflexivity.
Qed.

(** The theorem at "M:0" of [SampleX]. *)
Lemma freeze_lowers_balance_witness :
  get_balance SampleX.frozen "alice" = 0 ∧ get_total_supply SampleX.frozen = 1000000.
Proof.
  destruct (utxos SampleX.minted !! "M:0") as [u|] eqn:Hu;
    [|vm_compute in Hu; discriminate Hu].
  assert (status u = UTXOStatus_value ACTIVE ∧ owner_id u = "alice" ∧
          amount u = 1000000) as (Hact & Hown & Hamt).
  { vm_compute in Hu. injection Hu as <-. repeat split; reflexivity. }
  destruct (freeze_lowers_balance SampleX.minted "M:0" "AML investigation" u Hu Hact)
    as (Hbal & _ & _ & Hsup).
  rewrite Hown, Hamt in Hbal. unfold SampleX.frozen. rewrite Hbal, Hsup.
  split; vm_compute; reflexivity.
Defined.

(** X18: [get_owner_utxos] returns exactly the UTXOs of the map that belong to
    the owner and are active, and their amounts sum to [get_balance]. *)
Theorem get_owner_utxos_balance s owner :
  (∀ u, u ∈ get_owner_utxos s owner ↔
        ∃ id, utxos s !! id = Some u ∧ owner_id u = owner ∧ is_active u = true) ∧
  sum_amounts (get_owner_utxos s owner) = get_balance s owner.
Proof.
  split.
  - intros u. unfold get_owner_utxos.
    rewrite list_elem_of_filter, list_elem_of_fmap. split.
    + intros [Hp ([id v] & -> & Hin)]. apply elem_of_map_to_list in Hin.
      apply andb_true_iff in Hp as [Ho Ha]. apply bool_decide_eq_true in Ho.
      by exists id.
    + intros (id & Hu & Ho & Ha). split.
      * apply andb_true_iff. split; [by apply bool_decide_eq_true|done].
      * exists (id, u). split; [done|]. by apply elem_of_map_to_list.
  - unfold get_owner_utxos, get_balance. rewrite map_fold_foldr.
    induction (map_to_list (utxos s)) as [|[id u] l IH]; [done|].
    rewrite fmap_cons, filter_cons. cbn [snd foldr uncurry].
    case_decide as Hp.
    + rewrite sum_amounts_cons, IH. simpl. by rewrite Hp.
    + rewrite IH. simpl. by apply not_true_is_false in Hp as ->.
Qed.

(** X19: From a state where [total_supply] is the sum of the active amounts, a
    commit whose inputs are pairwise distinct and whose outputs get ids that
    are not in the map ends in such a state. *)
Theorem supply_is_active_sum_after_commit today tx_data tx s s' msg tid :
  Transaction_init tx_data = Return tx →
  total_supply s = sum_active (utxos s) →
  NoDup (inputs tx) →
  (∀ id, id ∈ created_ids tx → utxos s !! id = None) →
  process_transaction today tx_data s = (s', Return (true, msg, tid)) →
  total_supply s' = sum_active (utxos s').
Proof.
  intros Hinit Hinv Hnd Hfresh Hrun.
  rewrite (process_transaction_route _ _ _ _ Hinit) in Hrun.
  by eapply conservation_preserved.
Qed.

(** The theorem at the transfer "T" of [Sample]. *)
Lemma supply_is_active_sum_after_commit_witness :
  ∃ s',
    process_transaction Sample.now Sample.transfer_alice SampleX.minted
      = (s', Return (true, TransferSuccessful 1 2, Some "T")) ∧
    total_supply s' = sum_active (utxos s').
Proof.
  destruct (process_transaction Sample.now Sample.transfer_alice SampleX.minted)
    as [s' r] eqn:Hrun.
  assert (r = Return (true, TransferSuccessful 1 2, Some "T")) as ->.
  { apply (f_equal snd) in Hrun. simpl in Hrun. rewrite <-Hrun.
    vm_compute. reflexivity. }
  exists s'. split; [reflexivity|].
  apply (supply_is_active_sum_after_commit Sample.now Sample.transfer_alice
           (Sample.tx "TRANSFER" "T" ["M:0"]
              [Sample.output "bob" "GENUSD" 600000;
               Sample.output "alice" "GENUSD" 400000] ["alice"])
           SampleX.minted s' (TransferSuccessful 1 2) (Some "T")).
  - reflexivity.
  - vm_compute. reflexivity.
  - apply NoDup_singleton.
  - intros id Hid. vm_compute in Hid.
    apply elem_of_cons in Hid as [->|Hid]; [vm_compute; reflexivity|].
    apply elem_of_cons in Hid as [->|Hid]; [vm_compute; reflexivity|].
    apply elem_of_nil in Hid. destruct Hid.
  - exact Hrun.
Defined.

(** ** Inputs that cannot be spent *)

Lemma resolve_inputs_needs_active s ids id :
  id ∈ ids →
  (utxos s !! id = None ∨ ∃ u, utxos s !! id = Some u ∧ is_active u = false) →
  ∀ us, resolve_inputs s ids ≠ inr us.
Proof.
  intros Hin Hbad us Hres.
  destruct (resolve_inputs_active _ _ _ _ Hres Hin) as (v & Hv & Hact).
  destruct Hbad as [Hnone|(u & Hu & Hna)]; congruence.
Qed.

(** X20: A TRANSFER or BURN that names an input which is not in the map, or whose
    UTXO is frozen, spent or of any status other than active, is rejected
    and changes nothing. *)
Theorem unspendable_input_rejected today tx_data tx s id :
  Transaction_init tx_data = Return tx →
  tx_type tx = TransactionType_value TRANSFER ∨
  tx_type tx = TransactionType_value BURN →
  id ∈ inputs tx →
  (utxos s !! id = None ∨
   ∃ u, utxos s !! id = Some u ∧ status u ≠ UTXOStatus_value ACTIVE) →
  ∃ msg, process_transaction today tx_data s = (s, Return (false, msg, None)).
Proof.
  intros Hinit Hty Hin Hbad. rewrite (process_transaction_route _ _ _ _ Hinit).
  assert (∀ us, resolve_inputs s (inputs tx) ≠ inr us) as Hres.
  { apply (resolve_inputs_needs_active s _ id Hin).
    destruct Hbad as [?|(u & Hu & Hst)]; [by left|right].
    exists u. split; [done|]. by apply bool_decide_eq_false. }
  unfold route. destruct Hty as [-> | ->]; simpl.
  - unfold _process_transfer, reject.
    destruct (_validate_transfer_schema tx) as [[] m]; [|eauto].
    destruct (resolve_inputs s (inputs tx)) as [m'|us]; [eauto|].
    by destruct (Hres us).
  - unfold _process_burn, reject.
    destruct (_validate_burn_schema tx) as [[] m]; [|eauto].
    destruct (resolve_inputs s (inputs tx)) as [m'|us]; [eauto|].
    by destruct (Hres us).
Qed.

(** The theorem at the frozen "M:0" of [SampleX]. *)
Lemma unspendable_input_rejected_witness :
  ∃ msg,
    process_transaction Sample.now (Transaction_to_dict SampleX.transfer_all)
      SampleX.frozen = (SampleX.frozen, Return (false, msg, None)).
Proof.
  apply (unspendable_input_rejected Sample.now
           (Transaction_to_dict SampleX.transfer_all) SampleX.transfer_all
           SampleX.frozen "M:0").
  - reflexivity.
  - left. reflexivity.
  - apply list_elem_of_here.
  - right. destruct (utxos SampleX.frozen !! "M:0") as [u|] eqn:Hu;
      [|vm_compute in Hu; discriminate Hu].
    exists u. split; [reflexivity|].
    vm_compute in Hu. injection Hu as <-. vm_compute. discriminate.
Defined.

(** ** What the handlers do not look at *)

Lemma dict_contains_same_keys (a b : gmap string string) :
  (∀ k, is_Some (a !! k) ↔ is_Some (b !! k)) →
  ∀ k, dict_contains a k = dict_contains b k.
Proof. intros H k. unfold dict_contains. by apply bool_decide_ext. Qed.

Lemma existsb_same {A} (f g : A → bool) l :
  (∀ x, f x = g x) → existsb f l = existsb g l.
Proof. intros H. induction l as [|x l IH]; simpl; [done|]. by rewrite H, IH. Qed.

Lemma burn_authorized_same_keys sigs tx us :
  (∀ k, is_Some (signatures tx !! k) ↔ is_Some (sigs !! k)) →
  burn_authorized (set_signatures sigs tx) us = burn_authorized tx us.
Proof.
  intros H. unfold burn_authorized. cbn [signatures set_signatures].
  rewrite (dict_contains_same_keys _ _ H "issuer"). f_equal.
  apply existsb_same. intros o. symmetry. by apply dict_contains_same_keys.
Qed.

Lemma route_same_keys today sigs tx s :
  (∀ k, is_Some (signatures tx !! k) ↔ is_Some (sigs !! k)) →
  (route today (set_signatures sigs tx) s).2 = (route today tx s).2 ∧
  same_but_log (route today (set_signatures sigs tx) s).1 (route today tx s).1.
Proof.
  intros H. pose proof (dict_contains_same_keys _ _ H) as Hc.
  unfold route, reject. cbn [tx_type set_signatures].
  repeat case_bool_decide.
  - unfold _process_mint, _validate_mint_schema, reject.
    cbn [inputs outputs signatures policy_ref tx_id timestamp set_signatures].
    rewrite <-(Hc "issuer").
    repeat case_match; simplify_eq; done.
  - unfold _process_transfer, _validate_transfer_schema, reject.
    cbn [inputs outputs signatures policy_ref tx_id timestamp set_signatures].
    destruct (inputs tx) as [|i ins] eqn:Hins; [done|].
    destruct (outputs tx) as [|o outs] eqn:Houts; [done|].
    destruct (resolve_inputs s (i :: ins)) as [m|us]; [done|].
    destruct (1 <? size (owner_ids us))%nat; [done|].
    destruct us as [|first rest]; [done|].
    rewrite <-(Hc (owner_id first)).
    repeat case_match; simplify_eq; done.
  - unfold _process_burn, _validate_burn_schema, reject.
    cbn [inputs outputs signatures policy_ref tx_id timestamp set_signatures].
    destruct (inputs tx) as [|i ins] eqn:Hins; [done|].
    destruct (outputs tx) as [|o outs] eqn:Houts; [|done].
    destruct (resolve_inputs s (i :: ins)) as [m|us]; [done|].
    rewrite (burn_authorized_same_keys _ _ _ H).
    repeat case_match; simplify_eq; done.
  - done.
Qed.

(** X21: A signature is looked at for the presence of its key only: replacing
    the signatures of a transaction by others under the same keys changes
    neither the result of [process_transaction] nor the state it leaves,
    apart from the transaction that a commit writes to the log. *)
Theorem signatures_presence_only today tx sigs s :
  (∀ k, is_Some (signatures tx !! k) ↔ is_Some (sigs !! k)) →
  (process_transaction today (Transaction_to_dict (set_signatures sigs tx)) s).2
    = (process_transaction today (Transaction_to_dict tx) s).2 ∧
  same_but_log
    (process_transaction today (Transaction_to_dict (set_signatures sigs tx)) s).1
    (process_transaction today (Transaction_to_dict tx) s).1.
Proof.
  intros H.
  rewrite !(process_transaction_route _ _ _ _ (Transaction_roundtrip _)).
  by apply route_same_keys.
Qed.

(** The theorem at the transfer "T" of [Sample] with another token under
    the key of [alice]. *)
Lemma signatures_presence_only_witness :
  (process_transaction Sample.now
     (Transaction_to_dict
        (set_signatures {["alice" := "forged"]}
           (Sample.tx "TRANSFER" "T" ["M:0"]
              [Sample.output "bob" "GENUSD" 600000;
               Sample.output "alice" "GENUSD" 400000] ["alice"])))
     SampleX.minted).2
  = Return (true, TransferSuccessful 1 2, Some "T").
Proof.
  destruct (signatures_presence_only Sample.now
              (Sample.tx "TRANSFER" "T" ["M:0"]
                 [Sample.output "bob" "GENUSD" 600000;
                  Sample.output "alice" "GENUSD" 400000] ["alice"])
              {["alice" := "forged"]} SampleX.minted) as [Hres _].
  - intros k. unfold Sample.tx. cbn [signatures fmap list_fmap list_to_map foldr].
    cbn [fst snd]. destruct (decide (k = "alice")) as [->|Hne].
    + rewrite lookup_insert_eq, lookup_singleton_eq. split; eauto.
    + rewrite lookup_insert_ne, lookup_empty by done.
      rewrite lookup_singleton_ne by done. done.
  - rewrite Hres. vm_compute. reflexivity.
Defined.

Lemma validate_output_same_jurisdictions pe1 pe2 out idx :
  allowed_jurisdictions pe1 = allowed_jurisdictions pe2 →
  _validate_output pe1 out idx = _validate_output pe2 out idx.
Proof.
  intros H. unfold _validate_output, validate_jurisdiction. by rewrite H.
Qed.

Lemma validate_outputs_same_jurisdictions pe1 pe2 idx outs :
  allowed_jurisdictions pe1 = allowed_jurisdictions pe2 →
  validate_outputs pe1 idx outs = validate_outputs pe2 idx outs.
Proof.
  intros H. revert idx. induction outs as [|out outs IH]; intros idx; simpl; [done|].
  rewrite (validate_output_same_jurisdictions pe1 pe2 out idx H).
  destruct (_validate_output pe2 out idx) as [[[] m]|e]; auto.
Qed.

Lemma resolve_inputs_same_utxos s1 s2 ids :
  utxos s1 = utxos s2 → resolve_inputs s1 ids = resolve_inputs s2 ids.
Proof.
  intros H. induction ids as [|id ids IH]; simpl; [done|].
  unfold get_utxo. by rewrite H, IH.
Qed.

(** X22: MINT and BURN look at the policies and at the allowed jurisdictions
    only: with another KYC registry, blacklist and daily-transfer tracking
    they give the same result and the same ledger.  A MINT to an owner who
    is not registered or is blacklisted commits, and so does a BURN by such
    an owner. *)
Theorem mint_burn_ignore_registry today tx s pe' :
  tx_type tx = TransactionType_value MINT ∨ tx_type tx = TransactionType_value BURN →
  policies pe' = policies (policy_engine s) →
  allowed_jurisdictions pe' = allowed_jurisdictions (policy_engine s) →
  (route today tx (set_policy_engine pe' s)).2 = (route today tx s).2 ∧
  utxos (route today tx (set_policy_engine pe' s)).1 = utxos (route today tx s).1 ∧
  transactions (route today tx (set_policy_engine pe' s)).1
    = transactions (route today tx s).1 ∧
  total_supply (route today tx (set_policy_engine pe' s)).1
    = total_supply (route today tx s).1 ∧
  policy_engine (route today tx (set_policy_engine pe' s)).1 = pe'.
Proof.
  intros Hty Hpol Hjur. unfold route.
  destruct Hty as [-> | ->]; simpl.
  - unfold _process_mint, reject_amounts, reject.
    cbn [utxos transactions total_supply verified_reserves policy_engine
         set_policy_engine].
    rewrite Hpol, (validate_outputs_same_jurisdictions _ _ _ _ Hjur).
    repeat case_match; simplify_eq; done.
  - unfold _process_burn, reject_amounts, reject.
    cbn [utxos transactions total_supply verified_reserves policy_engine
         set_policy_engine].
    rewrite Hpol.
    rewrite (resolve_inputs_same_utxos (set_policy_engine pe' s) s) by done.
    repeat case_match; simplify_eq; done.
Qed.

(** The theorem at the MINT "M" of [Sample] with its recipient blacklisted. *)
Lemma mint_burn_ignore_registry_witness :
  (route Sample.now
     (Sample.tx "MINT" "M" [] [Sample.output "alice" "GENUSD" 1000000] ["issuer"])
     (set_policy_engine (blacklist_owner "alice" (policy_engine Sample.engine))
        Sample.engine)).2
  = Return (true, MintSuccessful 1 1000000, Some "M").
Proof.
  destruct (mint_burn_ignore_registry Sample.now
              (Sample.tx "MINT" "M" [] [Sample.output "alice" "GENUSD" 1000000]
                 ["issuer"])
              Sample.engine
              (blacklist_owner "alice" (policy_engine Sample.engine)))
    as [Hres _].
  - left. reflexivity.
  - reflexivity.
  - reflexivity.
  - rewrite Hres. vm_compute. reflexivity.
Defined.

(** X23: TRANSFER does not look at [policy_ref]: with any other policy reference,
    known or not, a TRANSFER has the same result and leaves the same state,
    apart from the transaction that a commit writes to the log. *)
Theorem transfer_ignores_policy_ref today tx ref s :
  tx_type tx = TransactionType_value TRANSFER →
  (route today (set_policy_ref ref tx) s).2 = (route today tx s).2 ∧
  same_but_log (route today (set_policy_ref ref tx) s).1 (route today tx s).1.
Proof.
  intros Hty. unfold route. cbn [tx_type set_policy_ref]. rewrite Hty. simpl.
  unfold _process_transfer, _validate_transfer_schema, reject_amounts, reject.
  cbn [inputs outputs signatures policy_ref tx_id timestamp set_policy_ref].
  repeat case_match; simplify_eq; done.
Qed.

(** The theorem at the transfer "T" of [Sample] under a policy reference
    that no policy has. *)
Lemma transfer_ignores_policy_ref_witness :
  (route Sample.now
     (set_policy_ref "NO_SUCH_POLICY"
        (Sample.tx "TRANSFER" "T" ["M:0"]
           [Sample.output "bob" "GENUSD" 600000;
            Sample.output "alice" "GENUSD" 400000] ["alice"]))
     SampleX.minted).2
  = Return (true, TransferSuccessful 1 2, Some "T").
Proof.
  destruct (transfer_ignores_policy_ref Sample.now
              (Sample.tx "TRANSFER" "T" ["M:0"]
                 [Sample.output "bob" "GENUSD" 600000;
                  Sample.output "alice" "GENUSD" 400000] ["alice"])
              "NO_SUCH_POLICY" SampleX.minted eq_refl) as [Hres _].
  rewrite Hres. vm_compute. reflexivity.
Defined.

(** ** BURN against the minimum *)

Lemma mark_spent_status ids (m : gmap string UTXO) id u :
  id ∈ ids → m !! id = Some u →
  ∃ v, mark_spent ids m !! id = Some v ∧ status v = UTXOStatus_value SPENT ∧
       amount v = amount u ∧ owner_id v = owner_id u.
Proof.
  intros Hin Hu. rewrite lookup_mark_spent, Hu, decide_True by done.
  eexists. split; [reflexivity|]. done.
Qed.

(** X24: A BURN with a valid schema, resolved inputs, an authorizing signature
    and a known policy updates the state exactly when the amounts of its
    inputs sum to at least the minimum burn amount of the policy.  Below
    the minimum it changes nothing: it returns the below-minimum rejection
    when the two amounts of that message can be rendered, and raises
    [OverflowError] when one cannot.  From the minimum on it marks every
    input spent, lowers [total_supply] by the sum and logs the transaction;
    it then returns the success when the sum can be rendered, and raises
    [OverflowError], with the state updated, when it cannot. *)
Theorem burn_against_minimum today tx_data tx s us policy :
  Transaction_init tx_data = Return tx →
  tx_type tx = TransactionType_value BURN →
  inputs tx ≠ [] → outputs tx = [] →
  resolve_inputs s (inputs tx) = inr us →
  burn_authorized tx us = true →
  policies (policy_engine s) !! policy_ref tx = Some policy →
  ((sum_amounts us < min_burn_amount policy)%Z →
     process_transaction today tx_data s
       = (s, if renders (sum_amounts us) && renders (min_burn_amount policy)
             then Return (false, BurnBelowMinimum (sum_amounts us)
                                   (min_burn_amount policy), None)
             else Raise OverflowError)) ∧
  ((min_burn_amount policy ≤ sum_amounts us)%Z →
     ∃ s',
       process_transaction today tx_data s
         = (s', if renders (sum_amounts us)
                then Return (true, BurnSuccessful (length (inputs tx)) (sum_amounts us),
                             Some (tx_id tx))
                else Raise OverflowError) ∧
       total_supply s' = (total_supply s - sum_amounts us)%Z ∧
       transactions s' !! tx_id tx = Some tx ∧
       ∀ id u, id ∈ inputs tx → utxos s !! id = Some u →
         ∃ v, utxos s' !! id = Some v ∧ status v = UTXOStatus_value SPENT ∧
              amount v = amount u ∧ owner_id v = owner_id u).
Proof.
  intros Hinit Hty Hins Houts Hres Hauth Hpol.
  rewrite (process_transaction_route _ _ _ _ Hinit). unfold route.
  rewrite Hty. simpl.
  unfold _process_burn, _validate_burn_schema, reject_amounts, succeed_amounts,
    format_amounts, reject.
  rewrite Houts, Hres, Hauth, Hpol. cbn [negb forallb].
  rewrite !andb_true_r.
  destruct (inputs tx) as [|i ins] eqn:Hi; [done|]. split.
  - intros Hlt. rewrite (proj2 (Z.ltb_lt _ _) Hlt).
    by destruct (renders (sum_amounts us) && renders (min_burn_amount policy)).
  - intros Hle. rewrite (proj2 (Z.ltb_ge _ _) Hle).
    eexists. split.
    { f_equal. by destruct (renders (sum_amounts us)). }
    cbn [total_supply transactions utxos].
    split; [done|]. split; [apply lookup_insert_eq|].
    intros id u Hin Hu. by apply mark_spent_status.
Qed.

(** The theorem at the BURN of [SampleC9], which burns 1,200,000. *)
Lemma burn_against_minimum_witness :
  ∃ s',
    process_transaction Sample.now (Transaction_to_dict SampleC9.burn_mixed)
      SampleC9.before
      = (s', Return (true, BurnSuccessful 2 1200000, Some "B")) ∧
    total_supply s' = 0.
Proof.
  destruct (resolve_inputs SampleC9.before ["M:0"; "N:0"]) as [m|us] eqn:Hres;
    [vm_compute in Hres; discriminate Hres|].
  destruct (policies (policy_engine SampleC9.before) !! "POLICY_V1.0")
    as [policy|] eqn:Hpol; [|vm_compute in Hpol; discriminate Hpol].
  assert (sum_amounts us = 1200000) as Hsum.
  { vm_compute in Hres. injection Hres as <-. reflexivity. }
  assert (min_burn_amount policy = 100000) as Hmin.
  { vm_compute in Hpol. injection Hpol as <-. reflexivity. }
  assert (renders 1200000 = true) as Hrend by (vm_compute; reflexivity).
  destruct (burn_against_minimum Sample.now
              (Transaction_to_dict SampleC9.burn_mixed) SampleC9.burn_mixed
              SampleC9.before us policy eq_refl eq_refl) as [_ Hcommit].
  - discriminate.
  - reflexivity.
  - exact Hres.
  - vm_compute in Hres. injection Hres as <-. vm_compute. reflexivity.
  - exact Hpol.
  - destruct Hcommit as (s' & Hrun & Hsup & _); [rewrite Hsum, Hmin; lia|].
    exists s'. rewrite Hsum, Hrend in Hrun. rewrite Hsum in Hsup.
    split; [exact Hrun|].
    rewrite Hsup. vm_compute. reflexivity.
Defined.

(** ** Amounts too large for a message *)

(** The largest amounts on each side of the bound of [renders]. *)
Lemma renders_bound x :
  renders x = true ↔ (- FLOAT_DIV_100_OVERFLOW < x < FLOAT_DIV_100_OVERFLOW)%Z.
Proof. unfold renders. rewrite Z.ltb_lt. lia. Qed.

Lemma renders_examples :
  renders MAX_UTXO_AMOUNT = true ∧ renders (10 ^ 310) = true ∧
  renders (10 ^ 311) = false ∧ renders (- 10 ^ 311) = false.
Proof. repeat split; vm_compute; reflexivity. Qed.

(** X26: A MINT that passes the schema check and the issuer-signature check
    and whose total would put the supply above the reserves changes
    nothing; it returns the rejection that names the reserves when the two
    amounts of that message can be rendered, and raises [OverflowError]
    when one of them cannot, the bound on the amount of an output being
    checked only later. *)
Theorem mint_over_reserves_outcome today tx_data tx s total :
  Transaction_init tx_data = Return tx →
  tx_type tx = TransactionType_value MINT →
  inputs tx = [] → outputs tx ≠ [] →
  dict_contains (signatures tx) "issuer" = true →
  sum_output_amounts (outputs tx) = Return total →
  total_supply s + total > verified_reserves s →
  process_transaction today tx_data s
    = (s, if renders (total_supply s + total) && renders (verified_reserves s)
          then Return (false, InsufficientReserves (total_supply s + total)
                                (verified_reserves s), None)
          else Raise OverflowError).
Proof.
  intros Hinit Hty Hins Houts Hsig Hsum Hgt.
  rewrite (process_transaction_route _ _ _ _ Hinit). unfold route.
  rewrite Hty. simpl.
  unfold _process_mint, _validate_mint_schema, reject_amounts, format_amounts, reject.
  rewrite Hins, Hsig, Hsum. cbn [negb].
  assert ((total_supply s + total >? verified_reserves s)%Z = true) as ->
    by (apply Z.gtb_lt; lia).
  destruct (outputs tx) as [|o outs]; [done|].
  cbn [forallb]. rewrite andb_true_r.
  by destruct (renders (total_supply s + total) && renders (verified_reserves s)).
Qed.

(** The theorem at the MINT of [SampleOverflow]: it raises. *)
Lemma mint_over_reserves_outcome_witness :
  process_transaction Sample.now SampleOverflow.mint_huge Sample.engine
    = (Sample.engine, Raise OverflowError).
Proof.
  rewrite (mint_over_reserves_outcome Sample.now SampleOverflow.mint_huge
             (Sample.tx "MINT" "H" []
                [Sample.output "alice" "GENUSD" SampleOverflow.huge] ["issuer"])
             Sample.engine SampleOverflow.huge).
  - f_equal.
  - reflexivity.
  - reflexivity.
  - reflexivity.
  - discriminate.
  - vm_compute. reflexivity.
  - vm_compute. reflexivity.
  - vm_compute. reflexivity.
Defined.

(** X27: A TRANSFER that passes the checks before the comparison of the sums
    (schema, inputs found and active, single owner, owner signature,
    blacklist) and whose sums differ changes nothing; it returns the
    conservation error with both sums when the two sums can be rendered,
    and raises [OverflowError] when one of them cannot, the outputs being
    validated only later. *)
Theorem transfer_mismatch_outcome today tx_data tx s us total :
  Transaction_init tx_data = Return tx →
  tx_type tx = TransactionType_value TRANSFER →
  inputs tx ≠ [] → outputs tx ≠ [] →
  resolve_inputs s (inputs tx) = inr us →
  (size (owner_ids us) ≤ 1)%nat →
  (∀ first, head us = Some first →
            dict_contains (signatures tx) (owner_id first) = true) →
  check_inputs_blacklist (policy_engine s) us = None →
  sum_output_amounts (outputs tx) = Return total →
  sum_amounts us ≠ total →
  process_transaction today tx_data s
    = (s, if renders (sum_amounts us) && renders total
          then Return (false, ConservationViolation (sum_amounts us) total, None)
          else Raise OverflowError).
Proof.
  intros Hinit Hty Hins Houts Hres Hown Hsig Hbl Hsum Hne.
  rewrite (process_transaction_route _ _ _ _ Hinit). unfold route.
  rewrite Hty. simpl.
  unfold _process_transfer, _validate_transfer_schema, reject_amounts,
    format_amounts, reject.
  rewrite Hres, Hsum, Hbl.
  assert ((1 <? size (owner_ids us))%nat = false) as ->
    by (apply Nat.ltb_ge; lia).
  assert ((sum_amounts us =? total)%Z = false) as -> by by apply Z.eqb_neq.
  destruct (inputs tx) as [|i ins] eqn:Hi; [done|].
  destruct (outputs tx) as [|o outs]; [done|].
  destruct us as [|first rest].
  { simpl in Hres. unfold get_utxo in Hres.
    destruct (utxos s !! i); [|done]. destruct (is_active u); [|done].
    simpl in Hres. destruct (resolve_inputs s ins); done. }
  rewrite (Hsig first eq_refl). cbn [negb forallb]. rewrite andb_true_r.
  by destruct (renders (sum_amounts (first :: rest)) && renders total).
Qed.

(** The theorem at the TRANSFER of [SampleOverflow]: it raises. *)
Lemma transfer_mismatch_outcome_witness :
  process_transaction Sample.now SampleOverflow.transfer_huge SampleX.minted
    = (SampleX.minted, Raise OverflowError).
Proof.
  destruct (resolve_inputs SampleX.minted ["M:0"]) as [m|us] eqn:Hres;
    [vm_compute in Hres; discriminate Hres|].
  rewrite (transfer_mismatch_outcome Sample.now SampleOverflow.transfer_huge
             (Sample.tx "TRANSFER" "TH" ["M:0"]
                [Sample.output "bob" "GENUSD" SampleOverflow.huge] ["alice"])
             SampleX.minted us SampleOverflow.huge).
  - vm_compute in Hres. injection Hres as <-. f_equal.
  - reflexivity.
  - reflexivity.
  - discriminate.
  - discriminate.
  - exact Hres.
  - vm_compute in Hres. injection Hres as <-. vm_compute. lia.
  - vm_compute in Hres. injection Hres as <-.
    intros first [= <-]. vm_compute. reflexivity.
  - vm_compute in Hres. injection Hres as <-. vm_compute. reflexivity.
  - vm_compute. reflexivity.
  - vm_compute in Hres. injection Hres as <-. vm_compute. discriminate.
Defined.
